(** * The WALT cpufreq governor (kernel/sched/walt/cpufreq_walt.c)

    A shallow embedding of the frequency-selection core of the governor:
    update gating, the up/down rate limit, cycle tracking and the rolling
    average capacity, the per-domain aggregation with its override chain,
    the adaptive frequency band, the selector and the kernel-origin
    adaptive-frequency API.

    The embedding follows the build without CONFIG_OPLUS_FEATURE_SUGOV_TL
    (the [#else] branch of [get_next_freq]); the other build options that
    touch the hot path are booleans of the platform record below.

    C integers are [Z] with the wrap-around of their width written out.
    The spin lock held across an update makes every callback atomic, so a
    callback is a function from the state before to the state after. *)

From Stdlib Require Import ZArith Lia Bool List.
From stdpp Require Import base list.

Open Scope Z_scope.

(** ** Machine integers and constants *)

Definition u32 (x : Z) : Z := x mod 2 ^ 32.
Definition u64 (x : Z) : Z := x mod 2 ^ 64.
(** Reinterpretation of a 64-bit pattern as [s64]. *)
Definition s64 (x : Z) : Z := (x + 2 ^ 63) mod 2 ^ 64 - 2 ^ 63.

Definition NSEC_PER_SEC : Z := 1000000000.
Definition NSEC_PER_USEC : Z := 1000.
Definition KHZ : Z := 1000.
Definition TARGET_LOAD : Z := 80.
Definition NL_RATIO : Z := 75.
Definition DEFAULT_HISPEED_LOAD : Z := 90.

Definition EFAULT : Z := 14.
Definition EINVAL : Z := 22.

(** Modelled from the spec: the kernel macro [mult_frac(x, numer, denom)]
    of include/linux/math.h, which the governor uses and the repository
    does not define; the spec has it as "scale by numer/denom".  This is
    its integer form over [unsigned long]: quotient and remainder are
    scaled separately so that the product does not overflow early. *)
Definition mult_frac (x numer denom : Z) : Z :=
  let quot := x / denom in
  let rem := x mod denom in
  u64 (u64 (quot * u64 numer) + u64 (rem * u64 numer) / denom).

Module Tunables.

(** [struct waltgov_tunables] (the target-load table of the
    CONFIG_OPLUS_FEATURE_SUGOV_TL build is left out). *)
Record t := mk {
  up_rate_limit_us : Z;  (* unsigned int *)
  down_rate_limit_us : Z;
  hispeed_load : Z;
  hispeed_freq : Z;
  rtg_boost_freq : Z;
  adaptive_low_freq : Z;
  adaptive_high_freq : Z;
  adaptive_low_freq_kernel : Z;
  adaptive_high_freq_kernel : Z;
  target_load_thresh : Z;
  target_load_shift : Z;
  pl : bool;
  boost : Z  (* int *)
}.

Definition set_adaptive_low_freq_kernel (v : Z) (p : t) : t :=
  mk (up_rate_limit_us p) (down_rate_limit_us p) (hispeed_load p)
    (hispeed_freq p) (rtg_boost_freq p) (adaptive_low_freq p)
    (adaptive_high_freq p) v (adaptive_high_freq_kernel p)
    (target_load_thresh p) (target_load_shift p) (pl p) (boost p).

Definition set_adaptive_high_freq_kernel (v : Z) (p : t) : t :=
  mk (up_rate_limit_us p) (down_rate_limit_us p) (hispeed_load p)
    (hispeed_freq p) (rtg_boost_freq p) (adaptive_low_freq p)
    (adaptive_high_freq p) (adaptive_low_freq_kernel p) v
    (target_load_thresh p) (target_load_shift p) (pl p) (boost p).

End Tunables.

Module CpufreqPolicy.

(** The fields of [struct cpufreq_policy] the governor reads. *)
Record t := mk {
  cpu : nat;  (* managing CPU *)
  cpus : list nat;  (* CPUs of the domain, in mask order *)
  cur : Z;  (* current frequency, kHz *)
  min : Z;
  max : Z;
  cpuinfo_max_freq : Z;  (* cpuinfo.max_freq *)
  fast_switch_enabled : bool
}.

End CpufreqPolicy.

Module Policy.

(** [struct waltgov_policy], without the lock and the kthread plumbing. *)
Record t := mk {
  policy : CpufreqPolicy.t;
  last_ws : Z;  (* u64 *)
  curr_cycles : Z;  (* u64 *)
  last_cyc_update_time : Z;  (* u64 *)
  avg_cap : Z;  (* unsigned long *)
  tunables : Tunables.t;
  hispeed_util : Z;
  rtg_boost_util : Z;
  max : Z;
  last_freq_update_time : Z;  (* u64 *)
  min_rate_limit_ns : Z;  (* s64 *)
  up_rate_delay_ns : Z;  (* s64 *)
  down_rate_delay_ns : Z;  (* s64 *)
  next_freq : Z;  (* unsigned int *)
  cached_raw_freq : Z;
  driving_cpu : nat;
  limits_changed : bool;
  need_freq_update : bool;
  newtask_flag : Z;  (* CONFIG_OPLUS_FEATURE_OCH *)
  flags : Z  (* CONFIG_OPLUS_FEATURE_FRAME_BOOST *)
}.

Definition set_last_ws (v : Z) (p : t) : t :=
  mk (policy p) v (curr_cycles p) (last_cyc_update_time p) (avg_cap p)
    (tunables p) (hispeed_util p) (rtg_boost_util p) (max p)
    (last_freq_update_time p) (min_rate_limit_ns p) (up_rate_delay_ns p)
    (down_rate_delay_ns p) (next_freq p) (cached_raw_freq p) (driving_cpu p)
    (limits_changed p) (need_freq_update p) (newtask_flag p) (flags p).

Definition set_curr_cycles (v : Z) (p : t) : t :=
  mk (policy p) (last_ws p) v (last_cyc_update_time p) (avg_cap p)
    (tunables p) (hispeed_util p) (rtg_boost_util p) (max p)
    (last_freq_update_time p) (min_rate_limit_ns p) (up_rate_delay_ns p)
    (down_rate_delay_ns p) (next_freq p) (cached_raw_freq p) (driving_cpu p)
    (limits_changed p) (need_freq_update p) (newtask_flag p) (flags p).

Definition set_last_cyc_update_time (v : Z) (p : t) : t :=
  mk (policy p) (last_ws p) (curr_cycles p) v (avg_cap p) (tunables p)
    (hispeed_util p) (rtg_boost_util p) (max p) (last_freq_update_time p)
    (min_rate_limit_ns p) (up_rate_delay_ns p) (down_rate_delay_ns p)
    (next_freq p) (cached_raw_freq p) (driving_cpu p) (limits_changed p)
    (need_freq_update p) (newtask_flag p) (flags p).

Definition set_avg_cap (v : Z) (p : t) : t :=
  mk (policy p) (last_ws p) (curr_cycles p) (last_cyc_update_time p) v
    (tunables p) (hispeed_util p) (rtg_boost_util p) (max p)
    (last_freq_update_time p) (min_rate_limit_ns p) (up_rate_delay_ns p)
    (down_rate_delay_ns p) (next_freq p) (cached_raw_freq p) (driving_cpu p)
    (limits_changed p) (need_freq_update p) (newtask_flag p) (flags p).

Definition set_tunables (v : Tunables.t) (p : t) : t :=
  mk (policy p) (last_ws p) (curr_cycles p) (last_cyc_update_time p)
    (avg_cap p) v (hispeed_util p) (rtg_boost_util p) (max p)
    (last_freq_update_time p) (min_rate_limit_ns p) (up_rate_delay_ns p)
    (down_rate_delay_ns p) (next_freq p) (cached_raw_freq p) (driving_cpu p)
    (limits_changed p) (need_freq_update p) (newtask_flag p) (flags p).

Definition set_hispeed_util (v : Z) (p : t) : t :=
  mk (policy p) (last_ws p) (curr_cycles p) (last_cyc_update_time p)
    (avg_cap p) (tunables p) v (rtg_boost_util p) (max p)
    (last_freq_update_time p) (min_rate_limit_ns p) (up_rate_delay_ns p)
    (down_rate_delay_ns p) (next_freq p) (cached_raw_freq p) (driving_cpu p)
    (limits_changed p) (need_freq_update p) (newtask_flag p) (flags p).

Definition set_rtg_boost_util (v : Z) (p : t) : t :=
  mk (policy p) (last_ws p) (curr_cycles p) (last_cyc_update_time p)
    (avg_cap p) (tunables p) (hispeed_util p) v (max p)
    (last_freq_update_time p) (min_rate_limit_ns p) (up_rate_delay_ns p)
    (down_rate_delay_ns p) (next_freq p) (cached_raw_freq p) (driving_cpu p)
    (limits_changed p) (need_freq_update p) (newtask_flag p) (flags p).

Definition set_max (v : Z) (p : t) : t :=
  mk (policy p) (last_ws p) (curr_cycles p) (last_cyc_update_time p)
    (avg_cap p) (tunables p) (hispeed_util p) (rtg_boost_util p) v
    (last_freq_update_time p) (min_rate_limit_ns p) (up_rate_delay_ns p)
    (down_rate_delay_ns p) (next_freq p) (cached_raw_freq p) (driving_cpu p)
    (limits_changed p) (need_freq_update p) (newtask_flag p) (flags p).

Definition set_last_freq_update_time (v : Z) (p : t) : t :=
  mk (policy p) (last_ws p) (curr_cycles p) (last_cyc_update_time p)
    (avg_cap p) (tunables p) (hispeed_util p) (rtg_boost_util p) (max p) v
    (min_rate_limit_ns p) (up_rate_delay_ns p) (down_rate_delay_ns p)
    (next_freq p) (cached_raw_freq p) (driving_cpu p) (limits_changed p)
    (need_freq_update p) (newtask_flag p) (flags p).

Definition set_min_rate_limit_ns (v : Z) (p : t) : t :=
  mk (policy p) (last_ws p) (curr_cycles p) (last_cyc_update_time p)
    (avg_cap p) (tunables p) (hispeed_util p) (rtg_boost_util p) (max p)
    (last_freq_update_time p) v (up_rate_delay_ns p) (down_rate_delay_ns p)
    (next_freq p) (cached_raw_freq p) (driving_cpu p) (limits_changed p)
    (need_freq_update p) (newtask_flag p) (flags p).

Definition set_up_rate_delay_ns (v : Z) (p : t) : t :=
  mk (policy p) (last_ws p) (curr_cycles p) (last_cyc_update_time p)
    (avg_cap p) (tunables p) (hispeed_util p) (rtg_boost_util p) (max p)
    (last_freq_update_time p) (min_rate_limit_ns p) v (down_rate_delay_ns p)
    (next_freq p) (cached_raw_freq p) (driving_cpu p) (limits_changed p)
    (need_freq_update p) (newtask_flag p) (flags p).

Definition set_down_rate_delay_ns (v : Z) (p : t) : t :=
  mk (policy p) (last_ws p) (curr_cycles p) (last_cyc_update_time p)
    (avg_cap p) (tunables p) (hispeed_util p) (rtg_boost_util p) (max p)
    (last_freq_update_time p) (min_rate_limit_ns p) (up_rate_delay_ns p) v
    (next_freq p) (cached_raw_freq p) (driving_cpu p) (limits_changed p)
    (need_freq_update p) (newtask_flag p) (flags p).

Definition set_next_freq (v : Z) (p : t) : t :=
  mk (policy p) (last_ws p) (curr_cycles p) (last_cyc_update_time p)
    (avg_cap p) (tunables p) (hispeed_util p) (rtg_boost_util p) (max p)
    (last_freq_update_time p) (min_rate_limit_ns p) (up_rate_delay_ns p)
    (down_rate_delay_ns p) v (cached_raw_freq p) (driving_cpu p)
    (limits_changed p) (need_freq_update p) (newtask_flag p) (flags p).

Definition set_cached_raw_freq (v : Z) (p : t) : t :=
  mk (policy p) (last_ws p) (curr_cycles p) (last_cyc_update_time p)
    (avg_cap p) (tunables p) (hispeed_util p) (rtg_boost_util p) (max p)
    (last_freq_update_time p) (min_rate_limit_ns p) (up_rate_delay_ns p)
    (down_rate_delay_ns p) (next_freq p) v (driving_cpu p)
    (limits_changed p) (need_freq_update p) (newtask_flag p) (flags p).

Definition set_driving_cpu (v : nat) (p : t) : t :=
  mk (policy p) (last_ws p) (curr_cycles p) (last_cyc_update_time p)
    (avg_cap p) (tunables p) (hispeed_util p) (rtg_boost_util p) (max p)
    (last_freq_update_time p) (min_rate_limit_ns p) (up_rate_delay_ns p)
    (down_rate_delay_ns p) (next_freq p) (cached_raw_freq p) v
    (limits_changed p) (need_freq_update p) (newtask_flag p) (flags p).

Definition set_limits_changed (v : bool) (p : t) : t :=
  mk (policy p) (last_ws p) (curr_cycles p) (last_cyc_update_time p)
    (avg_cap p) (tunables p) (hispeed_util p) (rtg_boost_util p) (max p)
    (last_freq_update_time p) (min_rate_limit_ns p) (up_rate_delay_ns p)
    (down_rate_delay_ns p) (next_freq p) (cached_raw_freq p) (driving_cpu p)
    v (need_freq_update p) (newtask_flag p) (flags p).

Definition set_need_freq_update (v : bool) (p : t) : t :=
  mk (policy p) (last_ws p) (curr_cycles p) (last_cyc_update_time p)
    (avg_cap p) (tunables p) (hispeed_util p) (rtg_boost_util p) (max p)
    (last_freq_update_time p) (min_rate_limit_ns p) (up_rate_delay_ns p)
    (down_rate_delay_ns p) (next_freq p) (cached_raw_freq p) (driving_cpu p)
    (limits_changed p) v (newtask_flag p) (flags p).

Definition set_newtask_flag (v : Z) (p : t) : t :=
  mk (policy p) (last_ws p) (curr_cycles p) (last_cyc_update_time p)
    (avg_cap p) (tunables p) (hispeed_util p) (rtg_boost_util p) (max p)
    (last_freq_update_time p) (min_rate_limit_ns p) (up_rate_delay_ns p)
    (down_rate_delay_ns p) (next_freq p) (cached_raw_freq p) (driving_cpu p)
    (limits_changed p) (need_freq_update p) v (flags p).

Definition set_flags (v : Z) (p : t) : t :=
  mk (policy p) (last_ws p) (curr_cycles p) (last_cyc_update_time p)
    (avg_cap p) (tunables p) (hispeed_util p) (rtg_boost_util p) (max p)
    (last_freq_update_time p) (min_rate_limit_ns p) (up_rate_delay_ns p)
    (down_rate_delay_ns p) (next_freq p) (cached_raw_freq p) (driving_cpu p)
    (limits_changed p) (need_freq_update p) (newtask_flag p) v.

End Policy.

Module Load.

(** [struct walt_cpu_load]: the signals the scheduler hands over per CPU. *)
Record t := mk {
  nl : Z;  (* unsigned long *)
  pl : Z;
  rtgb_active : bool;
  ws : Z;  (* u64 *)
  ed_active : bool;
  big_task_rotation : bool
}.

End Load.

Module Cpu.

(** [struct waltgov_cpu], one slot of the per-CPU array [waltgov_cpu].
    [wg_policy] is the index of the attached domain, [None] for NULL. *)
Record t := mk {
  wg_policy : option nat;
  cpu : nat;
  walt_load : Load.t;
  util : Z;  (* unsigned long *)
  max : Z;
  flags : Z;  (* unsigned int *)
  reasons : Z
}.

Definition set_walt_load (v : Load.t) (p : t) : t :=
  mk (wg_policy p) (cpu p) v (util p) (max p) (flags p) (reasons p).

Definition set_util (v : Z) (p : t) : t :=
  mk (wg_policy p) (cpu p) (walt_load p) v (max p) (flags p) (reasons p).

Definition set_max (v : Z) (p : t) : t :=
  mk (wg_policy p) (cpu p) (walt_load p) (util p) v (flags p) (reasons p).

Definition set_flags (v : Z) (p : t) : t :=
  mk (wg_policy p) (cpu p) (walt_load p) (util p) (max p) v (reasons p).

Definition set_reasons (v : Z) (p : t) : t :=
  mk (wg_policy p) (cpu p) (walt_load p) (util p) (max p) (flags p) v.

End Cpu.

Abbreviation waltgov_tunables := Tunables.t.
Abbreviation cpufreq_policy := CpufreqPolicy.t.
Abbreviation waltgov_policy := Policy.t.
Abbreviation walt_cpu_load := Load.t.
Abbreviation waltgov_cpu := Cpu.t.

Definition zero_load : walt_cpu_load := Load.mk 0 0 false 0 false false.
(** A slot as [memset] leaves it. *)
Definition zero_cpu : waltgov_cpu := Cpu.mk None 0%nat zero_load 0 0 0 0.

#[global] Instance waltgov_cpu_inhabited : Inhabited waltgov_cpu :=
  populate zero_cpu.

(** ** What the governor is compiled and linked against

    Constants of kernel/sched/walt/walt.h, scheduler variables and the
    functions of the scheduler and of the cpufreq core are not in this
    file; they are fields of one record. *)
Record platform := {
  CONFIG_OPLUS_FEATURE_FRAME_BOOST : bool;
  CONFIG_OPLUS_FEATURE_OCH : bool;
  WALT_CPUFREQ_IC_MIGRATION : Z;
  WALT_CPUFREQ_PL : Z;
  WALT_CPUFREQ_CONTINUE : Z;
  SCHED_CPUFREQ_DEF_FRAMEBOOST : Z;
  CPUFREQ_REASON_BTR : Z;
  CPUFREQ_REASON_PL : Z;
  CPUFREQ_REASON_EARLY_DET : Z;
  CPUFREQ_REASON_RTG_BOOST : Z;
  CPUFREQ_REASON_HISPEED : Z;
  CPUFREQ_REASON_NWD : Z;
  CPUFREQ_REASON_ADAPTIVE_LOW : Z;
  CPUFREQ_REASON_ADAPTIVE_HIGH : Z;
  sched_ravg_window : Z;             (* ns *)
  sysctl_ed_boost_pct : Z;
  sysctl_sched_conservative_pl : Z;
  cpu_util_rt : nat -> Z;            (* cpu_util_rt(cpu_rq(cpu)) *)
  is_min_cluster_cpu : nat -> bool;
  cpu_possible : nat -> bool;
  cpufreq_driver_resolve_freq : cpufreq_policy -> Z -> Z;
  uclamp_rq_util_with : nat -> Z -> Z;
  fbg_freq_policy_util : Z -> list nat -> Z -> Z
}.

(** Calls that leave the governor, in the order they are made. *)
Inductive event :=
| EvResolveFreq (target : Z)          (* cpufreq_driver_resolve_freq *)
| EvNewtaskState (flag : Z)           (* cpufreq_health_get_newtask_state *)
| EvFastSwitch (freq : Z)             (* cpufreq_driver_fast_switch *)
| EvIrqWorkQueue.                     (* walt_irq_work_queue *)

(** [BUG_ON] ends the kernel; a function that can reach one returns an
    [outcome]. *)
Inductive outcome (A : Type) :=
| Done (a : A)
| Bug.
Arguments Done {A} a.
Arguments Bug {A}.

(** One frequency domain as the update path sees it: the domain, the
    per-CPU array [waltgov_cpu] and the calls made so far. *)
Record gov_state := {
  st_policy : waltgov_policy;
  st_percpu : list waltgov_cpu;
  st_trace : list event
}.

(** What [waltgov_get_util] reads from the scheduler for one CPU. *)
Record sched_sample := {
  arch_scale_cpu_capacity : Z;
  cpu_util_freq_walt : Z;            (* the value returned *)
  sample_load : walt_cpu_load;       (* written through &wg_cpu->walt_load *)
  sample_reasons : Z                 (* written through &wg_cpu->reasons *)
}.

(** The running maximum of [waltgov_walt_adjust], with the two objects
    [max_and_reason] writes to: the CPU slot and, through
    [wg_cpu->wg_policy], the domain. *)
Record adj := {
  cur_util : Z;
  adj_cpu : waltgov_cpu;
  adj_policy : waltgov_policy
}.

(** The loop state of [waltgov_next_freq_shared]. *)
Record agg := {
  agg_util : Z;
  agg_max : Z;
  agg_policy : waltgov_policy;
  agg_percpu : list waltgov_cpu
}.

Section Governor.

Context (E : platform).

(** ** Governor internals *)

(** The test [wg_policy->flags & SCHED_CPUFREQ_DEF_FRAMEBOOST], compiled in
    with CONFIG_OPLUS_FEATURE_FRAME_BOOST only. *)
Definition def_frameboost (wg_policy : waltgov_policy) : bool :=
  CONFIG_OPLUS_FEATURE_FRAME_BOOST E &&
  negb (Z.land (Policy.flags wg_policy) (SCHED_CPUFREQ_DEF_FRAMEBOOST E) =? 0).

Definition waltgov_should_update_freq (wg_policy : waltgov_policy) (time : Z)
  : bool * waltgov_policy :=
  if Policy.limits_changed wg_policy then
    (true, Policy.set_need_freq_update true
             (Policy.set_limits_changed false wg_policy))
  else if def_frameboost wg_policy then (true, wg_policy)
  else
    let delta_ns := s64 (time - Policy.last_freq_update_time wg_policy) in
    (delta_ns >=? Policy.min_rate_limit_ns wg_policy, wg_policy).

Definition waltgov_up_down_rate_limit (wg_policy : waltgov_policy) (time : Z)
    (next_freq : Z) : bool :=
  let delta_ns := s64 (time - Policy.last_freq_update_time wg_policy) in
  if def_frameboost wg_policy then false
  else if (next_freq >? Policy.next_freq wg_policy) &&
          (delta_ns <? Policy.up_rate_delay_ns wg_policy) then true
  else if (next_freq <? Policy.next_freq wg_policy) &&
          (delta_ns <? Policy.down_rate_delay_ns wg_policy) then true
  else false.

Definition waltgov_update_next_freq (wg_policy : waltgov_policy) (time : Z)
    (next_freq raw_freq : Z) : bool * waltgov_policy :=
  if Policy.next_freq wg_policy =? next_freq then (false, wg_policy)
  else if waltgov_up_down_rate_limit wg_policy time next_freq then
    (false, Policy.set_cached_raw_freq 0 wg_policy)
  else
    (true, Policy.set_last_freq_update_time time
             (Policy.set_next_freq next_freq
                (Policy.set_cached_raw_freq raw_freq wg_policy))).

(** Division by [cpuinfo.max_freq = 0] traps in C; [Z] division yields 0. *)
Definition freq_to_util (wg_policy : waltgov_policy) (freq : Z) : Z :=
  mult_frac (Policy.max wg_policy) freq
    (CpufreqPolicy.cpuinfo_max_freq (Policy.policy wg_policy)).

Definition waltgov_track_cycles (wg_policy : waltgov_policy) (prev_freq : Z)
    (upto : Z) : waltgov_policy :=
  let next_ws := u64 (Policy.last_ws wg_policy + sched_ravg_window E) in
  let upto := Z.min upto next_ws in
  (* Track cycles in current window *)
  let delta_ns := u64 (upto - Policy.last_cyc_update_time wg_policy) in
  let delta_ns := u64 (delta_ns * prev_freq) in
  let delta_ns := delta_ns / (NSEC_PER_SEC / KHZ) in          (* do_div *)
  let cycles := delta_ns in
  Policy.set_last_cyc_update_time upto
    (Policy.set_curr_cycles (u64 (Policy.curr_cycles wg_policy + cycles))
       wg_policy).

(** The two branches of [waltgov_calc_avg_cap] that set [avg_freq]. *)
Definition window_avg_freq (wg_policy : waltgov_policy) (curr_ws : Z)
    (prev_freq : Z) : Z * waltgov_policy :=
  (* If we skipped some windows *)
  if curr_ws >? u64 (Policy.last_ws wg_policy + sched_ravg_window E) then
    (prev_freq,
     (* Reset tracking history *)
     Policy.set_last_cyc_update_time curr_ws wg_policy)
  else
    let wg_policy := waltgov_track_cycles wg_policy prev_freq curr_ws in
    let avg_freq := u32 (Policy.curr_cycles wg_policy) in
    (u32 (avg_freq / (sched_ravg_window E / (NSEC_PER_SEC / KHZ))),
     wg_policy).

Definition waltgov_calc_avg_cap (wg_policy : waltgov_policy) (curr_ws : Z)
    (prev_freq : Z) : outcome waltgov_policy :=
  let last_ws := Policy.last_ws wg_policy in
  if curr_ws <? last_ws then Bug                               (* BUG_ON *)
  else if curr_ws <=? last_ws then Done wg_policy
  else
    let '(avg_freq, wg_policy) :=
      window_avg_freq wg_policy curr_ws prev_freq in
    Done (Policy.set_last_ws curr_ws
            (Policy.set_curr_cycles 0
               (Policy.set_avg_cap (freq_to_util wg_policy avg_freq)
                  wg_policy))).

Definition waltgov_fast_switch (st : gov_state) (time : Z) (next_freq : Z)
  : gov_state :=
  let wg_policy := st_policy st in
  {| st_policy :=
       waltgov_track_cycles wg_policy
         (CpufreqPolicy.cur (Policy.policy wg_policy)) time;
     st_percpu := st_percpu st;
     st_trace := st_trace st ++ [EvFastSwitch next_freq] |}.

Definition waltgov_deferred_update (st : gov_state) (time : Z)
    (next_freq : Z) : gov_state :=
  {| st_policy := st_policy st;
     st_percpu := st_percpu st;
     st_trace := st_trace st ++ [EvIrqWorkQueue] |}.

(** [fmax >> shift] is undefined in C for [shift >= 64], a value the
    [target_load_shift] file accepts; the shift instruction of the 64-bit
    target takes the count modulo 64, and so does the model. *)
Definition walt_map_util_freq (util : Z) (wg_policy : waltgov_policy)
    (cap : Z) (cpu : nat) : Z :=
  let fmax := CpufreqPolicy.cpuinfo_max_freq (Policy.policy wg_policy) in
  let shift := Tunables.target_load_shift (Policy.tunables wg_policy) in
  let thresh := Tunables.target_load_thresh (Policy.tunables wg_policy) in
  if (util >=? thresh) && (cpu_util_rt E cpu <? Z.shiftr cap 2) then
    Z.max (u64 (u64 (fmax + Z.shiftr fmax (shift mod 64)) * util))
          (u64 (u64 (fmax + Z.shiftr fmax 2) * thresh)) / cap
  else u64 (u64 (fmax + Z.shiftr fmax 2) * util) / cap.

Definition get_adaptive_low_freq (wg_policy : waltgov_policy) : Z :=
  Z.max (Tunables.adaptive_low_freq (Policy.tunables wg_policy))
        (Tunables.adaptive_low_freq_kernel (Policy.tunables wg_policy)).

Definition get_adaptive_high_freq (wg_policy : waltgov_policy) : Z :=
  Z.max (Tunables.adaptive_high_freq (Policy.tunables wg_policy))
        (Tunables.adaptive_high_freq_kernel (Policy.tunables wg_policy)).

(** The adaptive band of [get_next_freq]: the frequency asked for and the
    reason written to the driving CPU, if any. *)
Definition adaptive_band (wg_policy : waltgov_policy) (raw_freq : Z)
  : Z * option Z :=
  if negb (Tunables.adaptive_high_freq (Policy.tunables wg_policy) =? 0) then
    if raw_freq <? get_adaptive_low_freq wg_policy then
      (get_adaptive_low_freq wg_policy, Some (CPUFREQ_REASON_ADAPTIVE_LOW E))
    else if raw_freq <=? get_adaptive_high_freq wg_policy then
      (get_adaptive_high_freq wg_policy,
       Some (CPUFREQ_REASON_ADAPTIVE_HIGH E))
    else (raw_freq, None)
  else (raw_freq, None).

(** [wg_driv_cpu->reasons = reason].  [driving_cpu] names a CPU of the
    domain; for an index outside the array the C store is wild, the list
    is left as it is. *)
Definition set_driving_reasons (percpu : list waltgov_cpu) (driving : nat)
    (reason : option Z) : list waltgov_cpu :=
  match reason with
  | Some r => <[driving := Cpu.set_reasons r (percpu !!! driving)]> percpu
  | None => percpu
  end.

(** The frequency [get_next_freq] compares with the cache and hands to the
    driver: the mapped utilization, cut to [unsigned int], after the
    adaptive band. *)
Definition selected_freq (st : gov_state) (util max : Z) : Z * option Z :=
  let wg_policy := st_policy st in
  let wg_driv_cpu := st_percpu st !!! Policy.driving_cpu wg_policy in
  let raw_freq :=
    u32 (walt_map_util_freq util wg_policy max (Cpu.cpu wg_driv_cpu)) in
  adaptive_band wg_policy raw_freq.

Definition get_next_freq (st : gov_state) (util max : Z) (time : Z)
  : Z * gov_state :=
  let wg_policy := st_policy st in
  let policy := Policy.policy wg_policy in
  let '(freq, reason) := selected_freq st util max in
  let percpu :=
    set_driving_reasons (st_percpu st) (Policy.driving_cpu wg_policy) reason in
  if negb (Policy.cached_raw_freq wg_policy =? 0) &&
     (freq =? Policy.cached_raw_freq wg_policy) &&
     negb (Policy.need_freq_update wg_policy) then
    (0, {| st_policy := wg_policy; st_percpu := percpu;
           st_trace := st_trace st |})
  else
    let wg_policy := Policy.set_need_freq_update false wg_policy in
    let final_freq := u32 (cpufreq_driver_resolve_freq E policy freq) in
    let trace := st_trace st ++ [EvResolveFreq freq] in
    let trace :=
      if CONFIG_OPLUS_FEATURE_OCH E
      then trace ++ [EvNewtaskState (Policy.newtask_flag wg_policy)]
      else trace in
    let '(changed, wg_policy) :=
      waltgov_update_next_freq wg_policy time final_freq freq in
    (if changed then final_freq else 0,
     {| st_policy := wg_policy; st_percpu := percpu; st_trace := trace |}).

Definition waltgov_get_util (sig : sched_sample) (wg_cpu : waltgov_cpu)
  : Z * waltgov_cpu :=
  let max := arch_scale_cpu_capacity sig in
  let wg_cpu := Cpu.set_max max wg_cpu in
  let wg_cpu := Cpu.set_reasons 0 wg_cpu in
  let util := cpu_util_freq_walt sig in
  let wg_cpu :=
    Cpu.set_reasons (sample_reasons sig)
      (Cpu.set_walt_load (sample_load sig) wg_cpu) in
  (uclamp_rq_util_with E (Cpu.cpu wg_cpu) util, wg_cpu).

Definition max_and_reason (s : adj) (boost_util : Z) (reason : Z) : adj :=
  if negb (boost_util =? 0) && (boost_util >=? cur_util s) then
    {| cur_util := boost_util;
       adj_cpu := Cpu.set_reasons reason (adj_cpu s);
       adj_policy :=
         Policy.set_driving_cpu (Cpu.cpu (adj_cpu s)) (adj_policy s) |}
  else s.

(** The locals of [waltgov_walt_adjust] that are read before any rule
    runs. *)
Definition is_migration (wg_cpu : waltgov_cpu) : bool :=
  negb (Z.land (Cpu.flags wg_cpu) (WALT_CPUFREQ_IC_MIGRATION E) =? 0).

Definition employ_ed_boost (wg_cpu : waltgov_cpu) : bool :=
  Load.ed_active (Cpu.walt_load wg_cpu) &&
  negb (sysctl_ed_boost_pct E =? 0).

(** [cpu_util] as the rules after early detection see it. *)
Definition ed_scaled (wg_cpu : waltgov_cpu) (cpu_util : Z) : Z :=
  if employ_ed_boost wg_cpu
  then mult_frac cpu_util (u32 (100 + sysctl_ed_boost_pct E)) 100
  else cpu_util.

Definition is_hiload (wg_policy : waltgov_policy) (cpu_util : Z) : bool :=
  cpu_util >=?
  mult_frac (Policy.avg_cap wg_policy)
    (Tunables.hispeed_load (Policy.tunables wg_policy)) 100.

Definition set_newtask_flag (v : Z) (s : adj) : adj :=
  if CONFIG_OPLUS_FEATURE_OCH E then
    {| cur_util := cur_util s; adj_cpu := adj_cpu s;
       adj_policy := Policy.set_newtask_flag v (adj_policy s) |}
  else s.

Definition or_reasons (reason : Z) (s : adj) : adj :=
  {| cur_util := cur_util s;
     adj_cpu :=
       Cpu.set_reasons (Z.lor (Cpu.reasons (adj_cpu s)) reason) (adj_cpu s);
     adj_policy := adj_policy s |}.

(** [wg_cpu->wg_policy] is the domain the caller holds: [waltgov_start]
    points every CPU of [policy->cpus] at it.  [*util] is the running
    maximum, [*max] is only read. *)
Definition waltgov_walt_adjust (wg_cpu : waltgov_cpu)
    (wg_policy : waltgov_policy) (cpu_util nl : Z) (util max : Z) : adj :=
  let s := {| cur_util := util; adj_cpu := wg_cpu;
              adj_policy := wg_policy |} in
  let pl := Load.pl (Cpu.walt_load wg_cpu) in
  let cpu_util := ed_scaled wg_cpu cpu_util in
  let s :=
    if employ_ed_boost wg_cpu
    then max_and_reason s cpu_util (CPUFREQ_REASON_EARLY_DET E) else s in
  let s :=
    if Load.rtgb_active (Cpu.walt_load wg_cpu)
    then max_and_reason s (Policy.rtg_boost_util wg_policy)
           (CPUFREQ_REASON_RTG_BOOST E)
    else s in
  let hiload := is_hiload wg_policy cpu_util in
  let s :=
    if hiload && negb (is_migration wg_cpu)
    then max_and_reason s (Policy.hispeed_util wg_policy)
           (CPUFREQ_REASON_HISPEED E)
    else s in
  let s :=
    if hiload && (nl >=? mult_frac cpu_util NL_RATIO 100)
    then set_newtask_flag 1 (max_and_reason s max (CPUFREQ_REASON_NWD E))
    else set_newtask_flag 0 s in
  let s :=
    if Tunables.pl (Policy.tunables wg_policy) then
      let pl :=
        if negb (sysctl_sched_conservative_pl E =? 0)
        then mult_frac pl TARGET_LOAD 100 else pl in
      max_and_reason s pl (CPUFREQ_REASON_PL E)
    else s in
  let s :=
    if employ_ed_boost wg_cpu
    then or_reasons (CPUFREQ_REASON_EARLY_DET E) s else s in
  if Load.big_task_rotation (Cpu.walt_load wg_cpu)
  then max_and_reason s max (CPUFREQ_REASON_BTR E)
  else s.

Definition target_util (wg_policy : waltgov_policy) (freq : Z) : Z :=
  let util := freq_to_util wg_policy freq in
  if is_min_cluster_cpu E (CpufreqPolicy.cpu (Policy.policy wg_policy)) &&
     (util >=? Tunables.target_load_thresh (Policy.tunables wg_policy))
  then mult_frac util 94 100
  else mult_frac util TARGET_LOAD 100.

(** [mult_frac(x, boost + 100, 100)] under [if (boost)]. *)
Definition boosted (boost : Z) (x : Z) : Z :=
  if negb (boost =? 0) then mult_frac x (boost + 100) 100 else x.

(** The comparison that picks the provisional driving CPU, by
    cross-multiplication in [unsigned long]. *)
Definition pick_driving (a : agg) (j : nat) (j_util j_max : Z) : agg :=
  if u64 (j_util * agg_max a) >=? u64 (j_max * agg_util a) then
    {| agg_util := j_util; agg_max := j_max;
       agg_policy := Policy.set_driving_cpu j (agg_policy a);
       agg_percpu := agg_percpu a |}
  else a.

(** One turn of the [for_each_cpu] loop of [waltgov_next_freq_shared]:
    [j_util] and [j_nl] are scaled by the boost, the driving CPU is
    picked, then the override chain runs. *)
Definition boosted_util (a : agg) (j : nat) : Z :=
  boosted (Tunables.boost (Policy.tunables (agg_policy a)))
    (Cpu.util (agg_percpu a !!! j)).

Definition boosted_nl (a : agg) (j : nat) : Z :=
  boosted (Tunables.boost (Policy.tunables (agg_policy a)))
    (Load.nl (Cpu.walt_load (agg_percpu a !!! j))).

Definition shared_pick (a : agg) (j : nat) : agg :=
  pick_driving a j (boosted_util a j) (Cpu.max (agg_percpu a !!! j)).

Definition shared_step (a : agg) (j : nat) : agg :=
  let j_wg_cpu := agg_percpu a !!! j in
  let j_util := boosted_util a j in
  let j_nl := boosted_nl a j in
  let a := shared_pick a j in
  let s :=
    waltgov_walt_adjust j_wg_cpu (agg_policy a) j_util j_nl
      (agg_util a) (agg_max a) in
  {| agg_util := cur_util s; agg_max := agg_max a;
     agg_policy := adj_policy s;
     agg_percpu := <[j := adj_cpu s]> (agg_percpu a) |}.

Definition shared_loop (st : gov_state) : agg :=
  fold_left shared_step
    (CpufreqPolicy.cpus (Policy.policy (st_policy st)))
    {| agg_util := 0; agg_max := 1; agg_policy := st_policy st;
       agg_percpu := st_percpu st |}.

Definition waltgov_next_freq_shared (st : gov_state) (time : Z)
  : Z * gov_state :=
  let a := shared_loop st in
  let wg_policy := agg_policy a in
  let util :=
    if CONFIG_OPLUS_FEATURE_FRAME_BOOST E
    then fbg_freq_policy_util E (Policy.flags wg_policy)
           (CpufreqPolicy.cpus (Policy.policy wg_policy)) (agg_util a)
    else agg_util a in
  get_next_freq
    {| st_policy := wg_policy; st_percpu := agg_percpu a;
       st_trace := st_trace st |}
    util (agg_max a) time.

(** The end of [waltgov_update_freq]: nothing is written for
    [next_f = 0], else the frequency goes to the hardware on the spot or
    through the kthread. *)
Definition waltgov_apply (st : gov_state) (time : Z) (next_f : Z)
  : gov_state :=
  if next_f =? 0 then st
  else if CpufreqPolicy.fast_switch_enabled (Policy.policy (st_policy st))
  then waltgov_fast_switch st time next_f
  else waltgov_deferred_update st time next_f.

(** The part of [waltgov_update_freq] that runs when the gate is open. *)
Definition waltgov_commit (st : gov_state) (time : Z) : gov_state :=
  let '(next_f, st) := waltgov_next_freq_shared st time in
  waltgov_apply st time next_f.

(** The head of [waltgov_update_freq]: the CPU's slot is refreshed from
    the scheduler, and the thresholds that depend on the capacity are
    derived again when the capacity changed. *)
Definition sampled_cpu (wg_cpu : waltgov_cpu) (sig : sched_sample)
    (flags : Z) : waltgov_cpu :=
  let '(util, wg_cpu) := waltgov_get_util sig wg_cpu in
  Cpu.set_flags flags (Cpu.set_util util wg_cpu).

Definition refresh_max (wg_policy : waltgov_policy) (wg_cpu : waltgov_cpu)
  : waltgov_policy :=
  if negb (Policy.max wg_policy =? Cpu.max wg_cpu) then
    let wg_policy := Policy.set_max (Cpu.max wg_cpu) wg_policy in
    let wg_policy :=
      Policy.set_hispeed_util
        (target_util wg_policy
           (Tunables.hispeed_freq (Policy.tunables wg_policy)))
        wg_policy in
    Policy.set_rtg_boost_util
      (target_util wg_policy
         (Tunables.rtg_boost_freq (Policy.tunables wg_policy)))
      wg_policy
  else wg_policy.

Definition record_flags (wg_policy : waltgov_policy) (flags : Z)
  : waltgov_policy :=
  if CONFIG_OPLUS_FEATURE_FRAME_BOOST E
  then Policy.set_flags flags wg_policy else wg_policy.

(** The scheduler callback of CPU [cpu], with what it reads from the
    scheduler in [sig]. *)
Definition waltgov_update_freq (st : gov_state) (cpu : nat)
    (sig : sched_sample) (time : Z) (flags : Z) : outcome gov_state :=
  let wg_policy := st_policy st in
  if negb (Tunables.pl (Policy.tunables wg_policy)) &&
     negb (Z.land flags (WALT_CPUFREQ_PL E) =? 0) then Done st
  else
    let wg_cpu := sampled_cpu (st_percpu st !!! cpu) sig flags in
    let percpu := <[cpu := wg_cpu]> (st_percpu st) in
    let wg_policy := record_flags wg_policy flags in
    let wg_policy := refresh_max wg_policy wg_cpu in
    match waltgov_calc_avg_cap wg_policy (Load.ws (Cpu.walt_load wg_cpu))
            (CpufreqPolicy.cur (Policy.policy wg_policy)) with
    | Bug => Bug
    | Done wg_policy =>
        let '(due, wg_policy) := waltgov_should_update_freq wg_policy time in
        let st := {| st_policy := wg_policy; st_percpu := percpu;
                     st_trace := st_trace st |} in
        if due && (Z.land flags (WALT_CPUFREQ_CONTINUE E) =? 0)
        then Done (waltgov_commit st time)
        else Done st
    end.

(** ** Governor interface *)

Definition update_min_rate_limit_ns (wg_policy : waltgov_policy)
  : waltgov_policy :=
  Policy.set_min_rate_limit_ns
    (Z.min (Policy.up_rate_delay_ns wg_policy)
           (Policy.down_rate_delay_ns wg_policy)) wg_policy.

(** [waltgov_start], callbacks and hooks apart. *)
Definition waltgov_start (st : gov_state) (domain : nat) : gov_state :=
  let wg_policy := st_policy st in
  let tun := Policy.tunables wg_policy in
  let wg_policy :=
    Policy.set_up_rate_delay_ns
      (Tunables.up_rate_limit_us tun * NSEC_PER_USEC) wg_policy in
  let wg_policy :=
    Policy.set_down_rate_delay_ns
      (Tunables.down_rate_limit_us tun * NSEC_PER_USEC) wg_policy in
  let wg_policy := update_min_rate_limit_ns wg_policy in
  let wg_policy := Policy.set_last_freq_update_time 0 wg_policy in
  let wg_policy := Policy.set_next_freq 0 wg_policy in
  let wg_policy := Policy.set_limits_changed false wg_policy in
  let wg_policy := Policy.set_need_freq_update false wg_policy in
  let wg_policy := Policy.set_cached_raw_freq 0 wg_policy in
  let wg_policy :=
    if CONFIG_OPLUS_FEATURE_FRAME_BOOST E
    then Policy.set_flags 0 wg_policy else wg_policy in
  {| st_policy := wg_policy;
     st_percpu :=
       fold_left
         (fun percpu cpu =>
            <[cpu := Cpu.mk (Some domain) cpu zero_load 0 0 0 0]> percpu)
         (CpufreqPolicy.cpus (Policy.policy wg_policy)) (st_percpu st);
     st_trace := st_trace st |}.

(** [waltgov_limits] at time [now = walt_sched_clock()].  Without fast
    switch the frequency is left to [cpufreq_policy_apply_limits], a call
    into the cpufreq core that does not touch the governor's state. *)
Definition waltgov_limits (st : gov_state) (now : Z) : gov_state :=
  let wg_policy := st_policy st in
  let policy := Policy.policy wg_policy in
  let st :=
    if negb (CpufreqPolicy.fast_switch_enabled policy) then
      {| st_policy := waltgov_track_cycles wg_policy
                        (CpufreqPolicy.cur policy) now;
         st_percpu := st_percpu st; st_trace := st_trace st |}
    else
      let freq := CpufreqPolicy.cur policy in
      let final_freq := u32 (cpufreq_driver_resolve_freq E policy freq) in
      let trace := st_trace st ++ [EvResolveFreq freq] in
      let '(changed, wg_policy) :=
        waltgov_update_next_freq wg_policy now final_freq final_freq in
      let st := {| st_policy := wg_policy; st_percpu := st_percpu st;
                   st_trace := trace |} in
      if changed then waltgov_fast_switch st now final_freq else st in
  {| st_policy := Policy.set_limits_changed true (st_policy st);
     st_percpu := st_percpu st; st_trace := st_trace st |}.

End Governor.

(** ** Kernel-origin adaptive frequency API

    The exported functions start from a CPU number and follow
    [per_cpu(waltgov_cpu, cpu).wg_policy]: the set function reads
    [wg_policy->policy] before any test, the other two read
    [wg_policy->tunables] once [cpu_possible] has passed.  [None] is a
    pointer followed that was never set: a CPU number without a per-CPU
    slot, or a slot that points at no attached domain. *)
Record system := {
  sys_percpu : list waltgov_cpu;
  sys_domains : list waltgov_policy
}.

Definition domain_of (s : system) (cpu : nat) : option (nat * waltgov_policy) :=
  match sys_percpu s !! cpu with
  | Some wg_cpu =>
      match Cpu.wg_policy wg_cpu with
      | Some d =>
          match sys_domains s !! d with
          | Some wg_policy => Some (d, wg_policy)
          | None => None
          end
      | None => None
      end
  | None => None
  end.

Definition set_kernel_band (low high : Z) (wg_policy : waltgov_policy)
  : waltgov_policy :=
  Policy.set_tunables
    (Tunables.set_adaptive_high_freq_kernel high
       (Tunables.set_adaptive_low_freq_kernel low
          (Policy.tunables wg_policy)))
    wg_policy.

Definition cpufreq_walt_set_adaptive_freq (E : platform) (s : system)
    (cpu : nat) (adaptive_low_freq adaptive_high_freq : Z)
  : option (Z * system) :=
  match domain_of s cpu with
  | None => None
  | Some (d, wg_policy) =>
      let policy := Policy.policy wg_policy in
      if negb (cpu_possible E cpu) then Some (- EFAULT, s)
      else if (CpufreqPolicy.min policy <=? adaptive_low_freq) &&
              (CpufreqPolicy.max policy >=? adaptive_high_freq) then
        Some (0,
              {| sys_percpu := sys_percpu s;
                 sys_domains :=
                   <[d := set_kernel_band adaptive_low_freq
                            adaptive_high_freq wg_policy]> (sys_domains s) |})
      else Some (- EINVAL, s)
  end.

(** [out] tells whether both result pointers are non-NULL; the values
    read are returned next to the code. *)
Definition cpufreq_walt_get_adaptive_freq (E : platform) (s : system)
    (cpu : nat) (out : bool) : option (Z * option (Z * Z)) :=
  match sys_percpu s !! cpu with
  | None => None
  | Some _ =>
      if negb (cpu_possible E cpu) then Some (- EFAULT, None)
      else if out then
        match domain_of s cpu with
        | None => None
        | Some (_, wg_policy) =>
            Some (0, Some (get_adaptive_low_freq wg_policy,
                           get_adaptive_high_freq wg_policy))
        end
      else Some (- EINVAL, None)
  end.

Definition cpufreq_walt_reset_adaptive_freq (E : platform) (s : system)
    (cpu : nat) : option (Z * system) :=
  match sys_percpu s !! cpu with
  | None => None
  | Some _ =>
      if negb (cpu_possible E cpu) then Some (- EFAULT, s)
      else
        match domain_of s cpu with
        | None => None
        | Some (d, wg_policy) =>
            Some (0,
                  {| sys_percpu := sys_percpu s;
                     sys_domains :=
                       <[d := set_kernel_band 0 0 wg_policy]>
                         (sys_domains s) |})
        end
  end.

(** ** Runs of several calls *)

(** [waltgov_calc_avg_cap] called once per element, each call with its
    window start and the frequency that was running. *)
Fixpoint calc_avg_cap_run (E : platform) (wg_policy : waltgov_policy)
    (calls : list (Z * Z)) : outcome waltgov_policy :=
  match calls with
  | [] => Done wg_policy
  | (curr_ws, prev_freq) :: rest =>
      match waltgov_calc_avg_cap E wg_policy curr_ws prev_freq with
      | Bug => Bug
      | Done wg_policy => calc_avg_cap_run E wg_policy rest
      end
  end.

(** The scheduler callback run over a list of events
    [(cpu, sample, time, flags)]. *)
Fixpoint update_freq_run (E : platform) (st : gov_state)
    (evs : list (nat * sched_sample * Z * Z)) : outcome gov_state :=
  match evs with
  | [] => Done st
  | (cpu, sig, time, flags) :: rest =>
      match waltgov_update_freq E st cpu sig time flags with
      | Bug => Bug
      | Done st => update_freq_run E st rest
      end
  end.


(** The events that reach the hardware. *)
Definition is_hw_write (ev : event) : bool :=
  match ev with
  | EvFastSwitch _ | EvIrqWorkQueue => true
  | _ => false
  end.

(** Window starts that never go back. *)
Fixpoint nondecreasing (l : list Z) : Prop :=
  match l with
  | a :: (b :: _) as rest => a <= b /\ nondecreasing rest
  | _ => True
  end.

(** ** A platform and a domain for the examples

    Distinct bits for flags and reasons, a 4 ms window, a driver that
    offers every frequency within the policy limits, no utilization
    clamp, eight possible CPUs. *)
Definition example_platform : platform := {|
  CONFIG_OPLUS_FEATURE_FRAME_BOOST := false;
  CONFIG_OPLUS_FEATURE_OCH := false;
  WALT_CPUFREQ_IC_MIGRATION := 2;
  WALT_CPUFREQ_PL := 4;
  WALT_CPUFREQ_CONTINUE := 16;
  SCHED_CPUFREQ_DEF_FRAMEBOOST := 1024;
  CPUFREQ_REASON_BTR := 1;
  CPUFREQ_REASON_PL := 2;
  CPUFREQ_REASON_EARLY_DET := 4;
  CPUFREQ_REASON_RTG_BOOST := 8;
  CPUFREQ_REASON_HISPEED := 16;
  CPUFREQ_REASON_NWD := 32;
  CPUFREQ_REASON_ADAPTIVE_LOW := 1024;
  CPUFREQ_REASON_ADAPTIVE_HIGH := 2048;
  sched_ravg_window := 4000000;
  sysctl_ed_boost_pct := 0;
  sysctl_sched_conservative_pl := 0;
  cpu_util_rt := fun _ => 0;
  is_min_cluster_cpu := fun cpu => (cpu <? 4)%nat;
  cpu_possible := fun cpu => (cpu <? 8)%nat;
  cpufreq_driver_resolve_freq := fun policy freq =>
    Z.max (CpufreqPolicy.min policy) (Z.min (CpufreqPolicy.max policy) freq);
  uclamp_rq_util_with := fun _ util => util;
  fbg_freq_policy_util := fun _ _ util => util
|}.

Definition example_tunables : waltgov_tunables :=
  Tunables.mk 20000 20000 DEFAULT_HISPEED_LOAD 1200000 1000000 0 0 0 0
    1024 4 false 0.

(** CPUs 0..3, 300 MHz to 2 GHz, running at 1 GHz. *)
Definition example_cpufreq_policy : cpufreq_policy :=
  CpufreqPolicy.mk 0%nat [0%nat; 1%nat; 2%nat; 3%nat] 1000000 300000 2000000
    2000000 true.

(** The domain right after [waltgov_start], capacity 1024. *)
Definition example_policy : waltgov_policy :=
  Policy.mk example_cpufreq_policy 0 0 0 0 example_tunables 0 0 1024
    0 20000000 20000000 20000000 0 0 0%nat false false 0 0.

Definition example_slot (cpu : nat) : waltgov_cpu :=
  Cpu.mk (Some 0%nat) cpu zero_load 0 1024 0 0.

Definition example_percpu : list waltgov_cpu :=
  [example_slot 0; example_slot 1; example_slot 2; example_slot 3].

Definition example_state : gov_state :=
  {| st_policy := example_policy; st_percpu := example_percpu;
     st_trace := [] |}.

(** The example domain with the user band [500000, 1200000]. *)
Definition user_band_state : gov_state :=
  {| st_policy :=
       Policy.set_tunables
         (Tunables.mk 20000 20000 DEFAULT_HISPEED_LOAD 1200000 1000000
            500000 1200000 0 0 1024 4 false 0)
         example_policy;
     st_percpu := example_percpu; st_trace := [] |}.

(** The same band set from the kernel side only. *)
Definition kernel_band_state : gov_state :=
  {| st_policy := set_kernel_band 500000 1200000 example_policy;
     st_percpu := example_percpu; st_trace := [] |}.

(** ** Vocabulary of the statements *)

(** [p'] is [p] up to the two fields the aggregation writes:
    [driving_cpu] and [newtask_flag]. *)
Definition aggregation_frame (p p' : waltgov_policy) : Prop :=
  p' = Policy.set_newtask_flag (Policy.newtask_flag p')
         (Policy.set_driving_cpu (Policy.driving_cpu p') p).

(** Time since the last commit, as both rate-limit tests compute it. *)
Definition elapsed_ns (wg_policy : waltgov_policy) (time : Z) : Z :=
  s64 (time - Policy.last_freq_update_time wg_policy).

(** The window start a callback event carries. *)
Definition event_ws (ev : nat * sched_sample * Z * Z) : Z :=
  Load.ws (sample_load (snd (fst (fst ev)))).



Definition hw_writes (trace : list event) : list event :=
  List.filter is_hw_write trace.


(** The example domain after its first commit (utilization 512 of 1024
    at 50 ms selects 1.25 GHz). *)
Definition committed_state : gov_state :=
  snd (get_next_freq example_platform example_state 512 1024 50000000).

(** What the rate limit reads. *)
Definition rate_view (p : waltgov_policy) : Z * Z * Z * Z * Z :=
  (Policy.next_freq p, Policy.last_freq_update_time p,
   Policy.up_rate_delay_ns p, Policy.down_rate_delay_ns p, Policy.flags p).

(** The event carries the frame-boost bit in a build that looks at it. *)
Definition frameboost_event (E : platform) (flags : Z) : bool :=
  CONFIG_OPLUS_FEATURE_FRAME_BOOST E &&
  negb (Z.land flags (SCHED_CPUFREQ_DEF_FRAMEBOOST E) =? 0).

(** No raise before [up_rate_delay_ns] and no lowering before
    [down_rate_delay_ns] have passed since the last commit. *)
Definition rate_limited_step (p p' : waltgov_policy) (time : Z) : Prop :=
  (Policy.next_freq p < Policy.next_freq p' ->
   Policy.up_rate_delay_ns p <= elapsed_ns p time) /\
  (Policy.next_freq p' < Policy.next_freq p ->
   Policy.down_rate_delay_ns p <= elapsed_ns p time).

(** The rate limit as it reads with its exception: it holds while
    [limits_changed] is clear, and with [limits_changed] set a frequency
    the selector resolved is committed, rate limit or not. *)
Definition rate_limit_with_exception (E : platform) : Prop :=
  forall (st st' : gov_state) (cpu : nat) (sig : sched_sample)
         (time flags : Z),
    waltgov_update_freq E st cpu sig time flags = Done st' ->
    let p := st_policy st in
    let p' := st_policy st' in
    (Policy.limits_changed p = false -> rate_limited_step p p' time) /\
    (Policy.limits_changed p = true ->
     forall (freq : Z) (rest : list event),
       st_trace st' = st_trace st ++ EvResolveFreq freq :: rest ->
       Policy.next_freq p'
       = u32 (cpufreq_driver_resolve_freq E (Policy.policy p) freq)).

(** The example domain running at 1 GHz since time 0, its limits just
    changed. *)
Definition limits_changed_state : gov_state :=
  {| st_policy :=
       Policy.set_limits_changed true
         (Policy.set_next_freq 1000000 example_policy);
     st_percpu := example_percpu; st_trace := [] |}.

(** CPU 0 fully loaded, window start 0. *)
Definition busy_sample : sched_sample :=
  {| arch_scale_cpu_capacity := 1024; cpu_util_freq_walt := 1024;
     sample_load := zero_load; sample_reasons := 0 |}.

(** The loop state [waltgov_next_freq_shared] starts from. *)
Definition agg_init (wg_policy : waltgov_policy) (percpu : list waltgov_cpu)
  : agg :=
  {| agg_util := 0; agg_max := 1; agg_policy := wg_policy;
     agg_percpu := percpu |}.

(** Boost 50 as a factor of exactly one and a half on the utilization of
    the first CPU looked at, before any override. *)
Definition boost_50_exact : Prop :=
  forall (wg_policy : waltgov_policy) (percpu : list waltgov_cpu) (j : nat),
    Tunables.boost (Policy.tunables wg_policy) = 50 ->
    0 <= Cpu.util (percpu !!! j) < 2 ^ 32 ->
    2 * agg_util (shared_pick (agg_init wg_policy percpu) j)
    = 3 * Cpu.util (percpu !!! j).

(** The example domain with boost 50 and utilization 3 on CPU 0. *)
Definition boost_50_policy : waltgov_policy :=
  Policy.set_tunables
    (Tunables.mk 20000 20000 DEFAULT_HISPEED_LOAD 1200000 1000000 0 0 0 0
       1024 4 false 50)
    example_policy.

Definition boost_50_percpu : list waltgov_cpu :=
  [Cpu.set_util 3 (example_slot 0); example_slot 1; example_slot 2;
   example_slot 3].

(** No override other than hispeed can fire for this CPU: no early
    detection, no RTG boost, a new-task load under 75% of [cpu_util], no
    predicted load, no big-task rotation. *)
Definition hispeed_only (E : platform) (wg_cpu : waltgov_cpu)
    (wg_policy : waltgov_policy) (cpu_util nl : Z) : Prop :=
  employ_ed_boost E wg_cpu = false /\
  Load.rtgb_active (Cpu.walt_load wg_cpu) = false /\
  nl < mult_frac cpu_util NL_RATIO 100 /\
  Tunables.pl (Policy.tunables wg_policy) = false /\
  Load.big_task_rotation (Cpu.walt_load wg_cpu) = false.

(** The hispeed override as it reads without the comparison: whenever
    the threshold is met on the provisional driving CPU, the driving
    utilization becomes [hispeed_util]. *)
Definition hispeed_replaces (E : platform) : Prop :=
  forall (wg_cpu : waltgov_cpu) (wg_policy : waltgov_policy) (nl max : Z),
    Tunables.hispeed_load (Policy.tunables wg_policy) = 90 ->
    Policy.avg_cap wg_policy = 1000000 ->
    is_migration E wg_cpu = false ->
    hispeed_only E wg_cpu wg_policy 950000 nl ->
    is_hiload wg_policy 950000 = true /\
    cur_util (waltgov_walt_adjust E wg_cpu wg_policy 950000 nl 950000 max)
    = Policy.hispeed_util wg_policy.

(** The example domain with a rolling average capacity of 1,000,000 and
    the given [hispeed_util]. *)
Definition hispeed_policy (hispeed_util : Z) : waltgov_policy :=
  Policy.set_hispeed_util hispeed_util
    (Policy.set_avg_cap 1000000 example_policy).



(** The example platform with an early-detection boost of [pct] percent. *)
Definition with_ed_boost_pct (pct : Z) (E : platform) : platform := {|
  CONFIG_OPLUS_FEATURE_FRAME_BOOST := CONFIG_OPLUS_FEATURE_FRAME_BOOST E;
  CONFIG_OPLUS_FEATURE_OCH := CONFIG_OPLUS_FEATURE_OCH E;
  WALT_CPUFREQ_IC_MIGRATION := WALT_CPUFREQ_IC_MIGRATION E;
  WALT_CPUFREQ_PL := WALT_CPUFREQ_PL E;
  WALT_CPUFREQ_CONTINUE := WALT_CPUFREQ_CONTINUE E;
  SCHED_CPUFREQ_DEF_FRAMEBOOST := SCHED_CPUFREQ_DEF_FRAMEBOOST E;
  CPUFREQ_REASON_BTR := CPUFREQ_REASON_BTR E;
  CPUFREQ_REASON_PL := CPUFREQ_REASON_PL E;
  CPUFREQ_REASON_EARLY_DET := CPUFREQ_REASON_EARLY_DET E;
  CPUFREQ_REASON_RTG_BOOST := CPUFREQ_REASON_RTG_BOOST E;
  CPUFREQ_REASON_HISPEED := CPUFREQ_REASON_HISPEED E;
  CPUFREQ_REASON_NWD := CPUFREQ_REASON_NWD E;
  CPUFREQ_REASON_ADAPTIVE_LOW := CPUFREQ_REASON_ADAPTIVE_LOW E;
  CPUFREQ_REASON_ADAPTIVE_HIGH := CPUFREQ_REASON_ADAPTIVE_HIGH E;
  sched_ravg_window := sched_ravg_window E;
  sysctl_ed_boost_pct := pct;
  sysctl_sched_conservative_pl := sysctl_sched_conservative_pl E;
  cpu_util_rt := cpu_util_rt E;
  is_min_cluster_cpu := is_min_cluster_cpu E;
  cpu_possible := cpu_possible E;
  cpufreq_driver_resolve_freq := cpufreq_driver_resolve_freq E;
  uclamp_rq_util_with := uclamp_rq_util_with E;
  fbg_freq_policy_util := fbg_freq_policy_util E
|}.

(** CPU 0 with early detection active and a predicted load of 2000, in a
    domain that has the predicted-load override switched on. *)
Definition ed_pl_slot : waltgov_cpu :=
  Cpu.set_walt_load (Load.mk 0 2000 false 0 true false) (example_slot 0).

Definition pl_policy : waltgov_policy :=
  Policy.set_tunables
    (Tunables.mk 20000 20000 DEFAULT_HISPEED_LOAD 1200000 1000000 0 0 0 0
       1024 4 true 0)
    example_policy.

(** Two domains of four CPUs each, every slot attached. *)
Definition example_system : system :=
  {| sys_percpu :=
       [Cpu.mk (Some 0) 0 zero_load 0 1024 0 0;
        Cpu.mk (Some 0) 1 zero_load 0 1024 0 0;
        Cpu.mk (Some 0) 2 zero_load 0 1024 0 0;
        Cpu.mk (Some 0) 3 zero_load 0 1024 0 0;
        Cpu.mk (Some 1) 4 zero_load 0 1024 0 0;
        Cpu.mk (Some 1) 5 zero_load 0 1024 0 0;
        Cpu.mk (Some 1) 6 zero_load 0 1024 0 0;
        Cpu.mk (Some 1) 7 zero_load 0 1024 0 0]%nat;
     sys_domains := [example_policy; example_policy] |}.

(** ** Further vocabulary of the statements *)

(** A platform built with CONFIG_OPLUS_FEATURE_FRAME_BOOST. *)
Definition with_frame_boost (E : platform) : platform := {|
  CONFIG_OPLUS_FEATURE_FRAME_BOOST := true;
  CONFIG_OPLUS_FEATURE_OCH := CONFIG_OPLUS_FEATURE_OCH E;
  WALT_CPUFREQ_IC_MIGRATION := WALT_CPUFREQ_IC_MIGRATION E;
  WALT_CPUFREQ_PL := WALT_CPUFREQ_PL E;
  WALT_CPUFREQ_CONTINUE := WALT_CPUFREQ_CONTINUE E;
  SCHED_CPUFREQ_DEF_FRAMEBOOST := SCHED_CPUFREQ_DEF_FRAMEBOOST E;
  CPUFREQ_REASON_BTR := CPUFREQ_REASON_BTR E;
  CPUFREQ_REASON_PL := CPUFREQ_REASON_PL E;
  CPUFREQ_REASON_EARLY_DET := CPUFREQ_REASON_EARLY_DET E;
  CPUFREQ_REASON_RTG_BOOST := CPUFREQ_REASON_RTG_BOOST E;
  CPUFREQ_REASON_HISPEED := CPUFREQ_REASON_HISPEED E;
  CPUFREQ_REASON_NWD := CPUFREQ_REASON_NWD E;
  CPUFREQ_REASON_ADAPTIVE_LOW := CPUFREQ_REASON_ADAPTIVE_LOW E;
  CPUFREQ_REASON_ADAPTIVE_HIGH := CPUFREQ_REASON_ADAPTIVE_HIGH E;
  sched_ravg_window := sched_ravg_window E;
  sysctl_ed_boost_pct := sysctl_ed_boost_pct E;
  sysctl_sched_conservative_pl := sysctl_sched_conservative_pl E;
  cpu_util_rt := cpu_util_rt E;
  is_min_cluster_cpu := is_min_cluster_cpu E;
  cpu_possible := cpu_possible E;
  cpufreq_driver_resolve_freq := cpufreq_driver_resolve_freq E;
  uclamp_rq_util_with := uclamp_rq_util_with E;
  fbg_freq_policy_util := fbg_freq_policy_util E
|}.

(** A platform with a scheduling window of [window] nanoseconds. *)
Definition with_window (window : Z) (E : platform) : platform := {|
  CONFIG_OPLUS_FEATURE_FRAME_BOOST := CONFIG_OPLUS_FEATURE_FRAME_BOOST E;
  CONFIG_OPLUS_FEATURE_OCH := CONFIG_OPLUS_FEATURE_OCH E;
  WALT_CPUFREQ_IC_MIGRATION := WALT_CPUFREQ_IC_MIGRATION E;
  WALT_CPUFREQ_PL := WALT_CPUFREQ_PL E;
  WALT_CPUFREQ_CONTINUE := WALT_CPUFREQ_CONTINUE E;
  SCHED_CPUFREQ_DEF_FRAMEBOOST := SCHED_CPUFREQ_DEF_FRAMEBOOST E;
  CPUFREQ_REASON_BTR := CPUFREQ_REASON_BTR E;
  CPUFREQ_REASON_PL := CPUFREQ_REASON_PL E;
  CPUFREQ_REASON_EARLY_DET := CPUFREQ_REASON_EARLY_DET E;
  CPUFREQ_REASON_RTG_BOOST := CPUFREQ_REASON_RTG_BOOST E;
  CPUFREQ_REASON_HISPEED := CPUFREQ_REASON_HISPEED E;
  CPUFREQ_REASON_NWD := CPUFREQ_REASON_NWD E;
  CPUFREQ_REASON_ADAPTIVE_LOW := CPUFREQ_REASON_ADAPTIVE_LOW E;
  CPUFREQ_REASON_ADAPTIVE_HIGH := CPUFREQ_REASON_ADAPTIVE_HIGH E;
  sched_ravg_window := window;
  sysctl_ed_boost_pct := sysctl_ed_boost_pct E;
  sysctl_sched_conservative_pl := sysctl_sched_conservative_pl E;
  cpu_util_rt := cpu_util_rt E;
  is_min_cluster_cpu := is_min_cluster_cpu E;
  cpu_possible := cpu_possible E;
  cpufreq_driver_resolve_freq := cpufreq_driver_resolve_freq E;
  uclamp_rq_util_with := uclamp_rq_util_with E;
  fbg_freq_policy_util := fbg_freq_policy_util E
|}.

(** The example domain in a frame-boost build: 2 GHz committed at 50 ms by
    a callback that carried the frame-boost flag, the policy maximum
    lowered to 1.5 GHz since. *)
Definition frame_boosted_state : gov_state :=
  {| st_policy :=
       Policy.mk
         (CpufreqPolicy.mk 0%nat [0%nat; 1%nat; 2%nat; 3%nat] 1500000 300000
            1500000 2000000 true)
         0 0 0 0 example_tunables 0 0 1024 50000000 20000000 20000000
         20000000 2000000 2500000 0%nat false false 0 1024;
     st_percpu := example_percpu; st_trace := [] |}.

(** The round trip through cycle counting as it reads, for a window of any
    length: when the cycles counted up to the end of the window are the
    frequency [F] times the window length, the average is [F]. *)
Definition round_trip_any_window : Prop :=
  forall (E : platform) (wg_policy : waltgov_policy) (F prev_freq : Z),
    let W := sched_ravg_window E in
    let curr_ws := Policy.last_ws wg_policy + W in
    let tracked := waltgov_track_cycles E wg_policy prev_freq curr_ws in
    0 <= Policy.last_ws wg_policy -> curr_ws < 2 ^ 64 ->
    NSEC_PER_SEC / KHZ <= W ->
    0 <= F -> Policy.curr_cycles tracked < 2 ^ 32 ->
    Policy.curr_cycles tracked * (NSEC_PER_SEC / KHZ) = F * W ->
    fst (window_avg_freq E wg_policy curr_ws prev_freq) = F.

(** The example domain at the end of its first window of 4 ms, all of it
    tracked at 1804800 kHz. *)
Definition tracked_window_policy : waltgov_policy :=
  waltgov_track_cycles example_platform example_policy 1804800 4000000.

(** Only possible CPUs have a slot that points at a domain: slots are
    attached by [waltgov_start], for the CPUs of a cpufreq policy. *)
Definition attached_are_possible (E : platform) (s : system) : Prop :=
  forall cpu : nat, cpu_possible E cpu = false -> domain_of s cpu = None.

(** ** Vocabulary of the further properties *)

(** The cycle count is in step with the tracked part of the window: the
    tracking time lies in the window that starts at [last_ws], and the
    cycles counted so far are at most what the highest frequency gives
    over the tracked part. *)
Definition cycles_bounded (E : platform) (p : waltgov_policy) : Prop :=
  Policy.last_ws p <= Policy.last_cyc_update_time p
  <= Policy.last_ws p + sched_ravg_window E /\
  0 <= Policy.curr_cycles p /\
  Policy.curr_cycles p * (NSEC_PER_SEC / KHZ)
  <= CpufreqPolicy.cpuinfo_max_freq (Policy.policy p)
     * (Policy.last_cyc_update_time p - Policy.last_ws p).

(** A window start at 8 ms with 2 ms tracked at 1.5 GHz. *)
Definition mid_window_policy : waltgov_policy :=
  Policy.set_curr_cycles 3000000
    (Policy.set_last_cyc_update_time 10000000
       (Policy.set_last_ws 8000000 example_policy)).

Definition outcome_or {A : Type} (d : A) (o : outcome A) : A :=
  match o with
  | Done a => a
  | Bug => d
  end.

(** What the gate and the selector keep between callbacks, and what the
    head of a callback does not touch. *)
Definition gate_view (p : waltgov_policy)
  : Z * Z * Z * Z * Z * Z * bool * bool * waltgov_tunables * cpufreq_policy :=
  (Policy.next_freq p, Policy.cached_raw_freq p,
   Policy.last_freq_update_time p, Policy.min_rate_limit_ns p,
   Policy.up_rate_delay_ns p, Policy.down_rate_delay_ns p,
   Policy.limits_changed p, Policy.need_freq_update p,
   Policy.tunables p, Policy.policy p).

(** The calls a selector run makes once it is past the short-circuit. *)
Definition resolve_events (E : platform) (p : waltgov_policy) (freq : Z)
  : list event :=
  EvResolveFreq freq ::
  (if CONFIG_OPLUS_FEATURE_OCH E
   then [EvNewtaskState (Policy.newtask_flag p)] else []).

(** The short-circuit test of [get_next_freq]. *)
Definition cache_hit (p : waltgov_policy) (freq : Z) : bool :=
  negb (Policy.cached_raw_freq p =? 0) &&
  (freq =? Policy.cached_raw_freq p) &&
  negb (Policy.need_freq_update p).

(** The event is one the head of the callback drops: a predicted-load
    event while the predicted-load override is off. *)
Definition dropped_event (E : platform) (p : waltgov_policy) (flags : Z)
  : bool :=
  negb (Tunables.pl (Policy.tunables p)) &&
  negb (Z.land flags (WALT_CPUFREQ_PL E) =? 0).

(** The state and the utilization [waltgov_next_freq_shared] hands to the
    selector. *)
Definition aggregated (E : platform) (st : gov_state) : gov_state :=
  {| st_policy := agg_policy (shared_loop E st);
     st_percpu := agg_percpu (shared_loop E st);
     st_trace := st_trace st |}.

Definition aggregated_util (E : platform) (st : gov_state) : Z :=
  if CONFIG_OPLUS_FEATURE_FRAME_BOOST E
  then fbg_freq_policy_util E (Policy.flags (agg_policy (shared_loop E st)))
         (CpufreqPolicy.cpus (Policy.policy (agg_policy (shared_loop E st))))
         (agg_util (shared_loop E st))
  else agg_util (shared_loop E st).

(** The one event by which a frequency reaches the hardware. *)
Definition write_event (p : waltgov_policy) (freq : Z) : event :=
  if CpufreqPolicy.fast_switch_enabled (Policy.policy p)
  then EvFastSwitch freq else EvIrqWorkQueue.

(** The linear mapping with a quarter of headroom:
    [(fmax + fmax / 4) * util / cap]. *)
Definition headroom_freq (wg_policy : waltgov_policy) (util cap : Z) : Z :=
  let fmax := CpufreqPolicy.cpuinfo_max_freq (Policy.policy wg_policy) in
  (fmax + Z.shiftr fmax 2) * util / cap.

(** Every CPU of the list finds its own number in its slot, as
    [waltgov_start] leaves it. *)
Definition slots_indexed (percpu : list waltgov_cpu) (cpus : list nat)
  : Prop :=
  forall j : nat, In j cpus -> Cpu.cpu (percpu !!! j) = j.

(** What a run of rules keeps: the running maximum does not drop, the
    slot changes in its reasons only, the driving CPU stays or becomes
    this CPU. *)
Definition chain_keeps (wg_cpu : waltgov_cpu) (util : Z) (driving : nat)
    (s : adj) : Prop :=
  util <= cur_util s /\
  Cpu.set_reasons (Cpu.reasons (adj_cpu s)) wg_cpu = adj_cpu s /\
  (Policy.driving_cpu (adj_policy s) = driving \/
   Policy.driving_cpu (adj_policy s) = Cpu.cpu wg_cpu).


(** ** The sysfs stores, the tunables cache and the target-load table

    A store gets the number [kstrtouint] read from the buffer, [None]
    when it refuses it, and [count], the length written.
    The tunables are one object shared by the domains on
    [attr_set->policy_list]; here every domain of that list carries its
    copy, and a store writes all of them. *)

Definition tunables_set_up_rate_limit_us (v : Z) (t : waltgov_tunables)
  : waltgov_tunables :=
  Tunables.mk v (Tunables.down_rate_limit_us t) (Tunables.hispeed_load t)
    (Tunables.hispeed_freq t) (Tunables.rtg_boost_freq t)
    (Tunables.adaptive_low_freq t) (Tunables.adaptive_high_freq t)
    (Tunables.adaptive_low_freq_kernel t)
    (Tunables.adaptive_high_freq_kernel t) (Tunables.target_load_thresh t)
    (Tunables.target_load_shift t) (Tunables.pl t) (Tunables.boost t).

Definition tunables_set_down_rate_limit_us (v : Z) (t : waltgov_tunables)
  : waltgov_tunables :=
  Tunables.mk (Tunables.up_rate_limit_us t) v (Tunables.hispeed_load t)
    (Tunables.hispeed_freq t) (Tunables.rtg_boost_freq t)
    (Tunables.adaptive_low_freq t) (Tunables.adaptive_high_freq t)
    (Tunables.adaptive_low_freq_kernel t)
    (Tunables.adaptive_high_freq_kernel t) (Tunables.target_load_thresh t)
    (Tunables.target_load_shift t) (Tunables.pl t) (Tunables.boost t).

Definition tunables_set_hispeed_freq (v : Z) (t : waltgov_tunables)
  : waltgov_tunables :=
  Tunables.mk (Tunables.up_rate_limit_us t) (Tunables.down_rate_limit_us t)
    (Tunables.hispeed_load t) v (Tunables.rtg_boost_freq t)
    (Tunables.adaptive_low_freq t) (Tunables.adaptive_high_freq t)
    (Tunables.adaptive_low_freq_kernel t)
    (Tunables.adaptive_high_freq_kernel t) (Tunables.target_load_thresh t)
    (Tunables.target_load_shift t) (Tunables.pl t) (Tunables.boost t).

Definition tunables_set_rtg_boost_freq (v : Z) (t : waltgov_tunables)
  : waltgov_tunables :=
  Tunables.mk (Tunables.up_rate_limit_us t) (Tunables.down_rate_limit_us t)
    (Tunables.hispeed_load t) (Tunables.hispeed_freq t) v
    (Tunables.adaptive_low_freq t) (Tunables.adaptive_high_freq t)
    (Tunables.adaptive_low_freq_kernel t)
    (Tunables.adaptive_high_freq_kernel t) (Tunables.target_load_thresh t)
    (Tunables.target_load_shift t) (Tunables.pl t) (Tunables.boost t).

Definition on_tunables (f : waltgov_tunables -> waltgov_tunables)
    (wg_policy : waltgov_policy) : waltgov_policy :=
  Policy.set_tunables (f (Policy.tunables wg_policy)) wg_policy.

Definition up_rate_limit_us_store (parsed : option Z) (count : Z)
    (policy_list : list waltgov_policy) : Z * list waltgov_policy :=
  match parsed with
  | None => (- EINVAL, policy_list)
  | Some rate_limit_us =>
      (count,
       map (fun wg_policy =>
              update_min_rate_limit_ns
                (Policy.set_up_rate_delay_ns (rate_limit_us * NSEC_PER_USEC)
                   (on_tunables (tunables_set_up_rate_limit_us rate_limit_us)
                      wg_policy)))
         policy_list)
  end.

Definition down_rate_limit_us_store (parsed : option Z) (count : Z)
    (policy_list : list waltgov_policy) : Z * list waltgov_policy :=
  match parsed with
  | None => (- EINVAL, policy_list)
  | Some rate_limit_us =>
      (count,
       map (fun wg_policy =>
              update_min_rate_limit_ns
                (Policy.set_down_rate_delay_ns
                   (rate_limit_us * NSEC_PER_USEC)
                   (on_tunables
                      (tunables_set_down_rate_limit_us rate_limit_us)
                      wg_policy)))
         policy_list)
  end.

Definition hispeed_freq_store (E : platform) (parsed : option Z) (count : Z)
    (policy_list : list waltgov_policy) : Z * list waltgov_policy :=
  match parsed with
  | None => (- EINVAL, policy_list)
  | Some val =>
      (count,
       map (fun wg_policy =>
              let wg_policy :=
                on_tunables (tunables_set_hispeed_freq val) wg_policy in
              Policy.set_hispeed_util
                (target_util E wg_policy
                   (Tunables.hispeed_freq (Policy.tunables wg_policy)))
                wg_policy)
         policy_list)
  end.

Definition rtg_boost_freq_store (E : platform) (parsed : option Z)
    (count : Z) (policy_list : list waltgov_policy)
  : Z * list waltgov_policy :=
  match parsed with
  | None => (- EINVAL, policy_list)
  | Some val =>
      (count,
       map (fun wg_policy =>
              let wg_policy :=
                on_tunables (tunables_set_rtg_boost_freq val) wg_policy in
              Policy.set_rtg_boost_util
                (target_util E wg_policy
                   (Tunables.rtg_boost_freq (Policy.tunables wg_policy)))
                wg_policy)
         policy_list)
  end.

(** The per-CPU pointers [cached_tunables] and the objects they point
    to; CPUs of one domain share an object. *)
Record tunables_cache := {
  cached_tunables : list (option nat);
  cached_objects : list waltgov_tunables
}.

(** The thirteen assignments [cached->x = tunables->x] of
    [waltgov_tunables_save], which [waltgov_tunables_restore] makes in
    the other direction. *)
Definition copy_tunables (from : waltgov_tunables) : waltgov_tunables :=
  Tunables.mk (Tunables.up_rate_limit_us from)
    (Tunables.down_rate_limit_us from) (Tunables.hispeed_load from)
    (Tunables.hispeed_freq from) (Tunables.rtg_boost_freq from)
    (Tunables.adaptive_low_freq from) (Tunables.adaptive_high_freq from)
    (Tunables.adaptive_low_freq_kernel from)
    (Tunables.adaptive_high_freq_kernel from)
    (Tunables.target_load_thresh from) (Tunables.target_load_shift from)
    (Tunables.pl from) (Tunables.boost from).

(** [related_cpus] is [policy->related_cpus]; [alloc_ok] tells whether
    [kzalloc] succeeds when it is called. *)
Definition waltgov_tunables_save (c : tunables_cache)
    (policy : cpufreq_policy) (related_cpus : list nat) (alloc_ok : bool)
    (tunables : waltgov_tunables) : tunables_cache :=
  match cached_tunables c !!! CpufreqPolicy.cpu policy with
  | Some cached =>
      {| cached_tunables := cached_tunables c;
         cached_objects :=
           <[cached := copy_tunables tunables]> (cached_objects c) |}
  | None =>
      if alloc_ok then
        let cached := length (cached_objects c) in
        {| cached_tunables :=
             fold_left (fun l cpu => <[cpu := Some cached]> l) related_cpus
               (cached_tunables c);
           cached_objects := cached_objects c ++ [copy_tunables tunables] |}
      else c
  end.

Definition waltgov_tunables_restore (c : tunables_cache)
    (wg_policy : waltgov_policy) : waltgov_policy :=
  match cached_tunables c
        !!! CpufreqPolicy.cpu (Policy.policy wg_policy) with
  | Some cached =>
      match cached_objects c !! cached with
      | Some t => Policy.set_tunables (copy_tunables t) wg_policy
      | None => wg_policy
      end
  | None => wg_policy
  end.

Definition DEFAULT_SILVER_RTG_BOOST_FREQ : Z := 1000000.
Definition DEFAULT_GOLD_RTG_BOOST_FREQ : Z := 768000.
Definition DEFAULT_PRIME_RTG_BOOST_FREQ : Z := 0.
Definition DEFAULT_TARGET_LOAD_THRESH : Z := 1024.
Definition DEFAULT_TARGET_LOAD_SHIFT : Z := 4.

(** The tunables as [waltgov_init] sets them up: zeroed, the defaults,
    then what the cache holds for the managing CPU. *)
Definition waltgov_init_tunables (E : platform)
    (is_max_cluster_cpu : nat -> bool) (c : tunables_cache)
    (wg_policy : waltgov_policy) : waltgov_policy :=
  let cpu := CpufreqPolicy.cpu (Policy.policy wg_policy) in
  let rtg_boost_freq :=
    if is_min_cluster_cpu E cpu then DEFAULT_SILVER_RTG_BOOST_FREQ
    else if is_max_cluster_cpu cpu then DEFAULT_PRIME_RTG_BOOST_FREQ
    else DEFAULT_GOLD_RTG_BOOST_FREQ in
  let tunables :=
    Tunables.mk 0 0 DEFAULT_HISPEED_LOAD 0 rtg_boost_freq 0 0 0 0
      DEFAULT_TARGET_LOAD_THRESH DEFAULT_TARGET_LOAD_SHIFT false 0 in
  waltgov_tunables_restore c (Policy.set_tunables tunables wg_policy).

(** The tunables side of [waltgov_exit]: [count] is what
    [gov_attr_set_put] returns, the number of domains still attached. *)
Definition waltgov_exit_tunables (c : tunables_cache)
    (policy : cpufreq_policy) (related_cpus : list nat) (alloc_ok : bool)
    (count : Z) (tunables : waltgov_tunables) : tunables_cache :=
  if count =? 0
  then waltgov_tunables_save c policy related_cpus alloc_ok tunables
  else c.

(** [freq_to_targetload] of the CONFIG_OPLUS_FEATURE_SUGOV_TL build, on
    the table from index [i] on: loads at even places, each followed by
    the frequency from which the next load applies.  [None] is the read
    past the end of the table. *)
Fixpoint freq_to_targetload_from (target_loads : list Z) (freq : Z)
  : option Z :=
  match target_loads with
  | [] => None
  | [load] => Some load
  | load :: next_freq :: rest =>
      if freq >=? next_freq then freq_to_targetload_from rest freq
      else Some load
  end.

Definition freq_to_targetload (target_loads : list Z) (freq : Z)
  : option Z :=
  freq_to_targetload_from target_loads freq.

(** The threshold utilizations are those of the frequencies in the
    tunables. *)
Definition thresholds_fresh (E : platform) (p : waltgov_policy) : Prop :=
  Policy.hispeed_util p
  = target_util E p (Tunables.hispeed_freq (Policy.tunables p)) /\
  Policy.rtg_boost_util p
  = target_util E p (Tunables.rtg_boost_freq (Policy.tunables p)).

(** The settings of a domain: what a callback only reads, the capacity
    and the two thresholds apart. *)
Definition settings_view (p : waltgov_policy)
  : cpufreq_policy * waltgov_tunables * Z * Z * Z * Z * Z * Z :=
  (Policy.policy p, Policy.tunables p, Policy.max p, Policy.hispeed_util p,
   Policy.rtg_boost_util p, Policy.up_rate_delay_ns p,
   Policy.down_rate_delay_ns p, Policy.min_rate_limit_ns p).

(** The delays are the rate limits of the tunables in nanoseconds, and
    the gate opens after the smaller of them. *)
Definition delays_consistent (p : waltgov_policy) : Prop :=
  Policy.up_rate_delay_ns p
  = Tunables.up_rate_limit_us (Policy.tunables p) * NSEC_PER_USEC /\
  Policy.down_rate_delay_ns p
  = Tunables.down_rate_limit_us (Policy.tunables p) * NSEC_PER_USEC /\
  Policy.min_rate_limit_ns p
  = Z.min (Policy.up_rate_delay_ns p) (Policy.down_rate_delay_ns p).

(** Frequencies in strictly ascending order. *)
Fixpoint ascending (freqs : list Z) : Prop :=
  match freqs with
  | f :: ((g :: _) as rest) => f < g /\ ascending rest
  | _ => True
  end.

(** The load in force at [freq] as a table "first freq:load freq:load"
    means it: the load of the last entry whose frequency is at most
    [freq], the first load when there is none. *)
Definition load_in_force (first : Z) (entries : list (Z * Z)) (freq : Z)
  : Z :=
  List.last
    (map snd (List.filter (fun e => freq >=? fst e) entries)) first.

(** The table with first load [first] and entries [(freq, load)]. *)
Fixpoint table_of (first : Z) (entries : list (Z * Z)) : list Z :=
  match entries with
  | [] => [first]
  | (f, load) :: rest => first :: f :: table_of load rest
  end.

(** An empty cache for eight CPUs, and tunables a user has changed. *)
Definition empty_cache : tunables_cache :=
  {| cached_tunables := replicate 8 None; cached_objects := [] |}.

Definition tuned_tunables : waltgov_tunables :=
  Tunables.mk 500 20000 85 1400000 900000 500000 1200000 0 0 1024 4 true 10.

Definition gold_cpufreq_policy : cpufreq_policy :=
  CpufreqPolicy.mk 4%nat [4%nat; 5%nat; 6%nat; 7%nat] 1000000 300000
    2400000 2400000 true.

(** CPU 1 reporting a capacity of 768, as under thermal pressure. *)
Definition throttled_sample : sched_sample :=
  {| arch_scale_cpu_capacity := 768; cpu_util_freq_walt := 300;
     sample_load := zero_load; sample_reasons := 0 |}.


(** The second domain when it comes back with CPU 5 as its managing CPU,
    CPU 4 being offline: a zeroed [waltgov_policy]. *)
Definition returning_policy : waltgov_policy :=
  Policy.mk
    (CpufreqPolicy.mk 5%nat [5%nat; 6%nat; 7%nat] 1000000 300000 2400000
       2400000 true)
    0 0 0 0 (Tunables.mk 0 0 0 0 0 0 0 0 0 0 0 false 0) 0 0 0 0 0 0 0 0 0
    0%nat false false 0 0.

(** The example domain after 64 was written to [target_load_shift]. *)
Definition shift_64_policy : waltgov_policy :=
  Policy.set_tunables
    (Tunables.mk 20000 20000 DEFAULT_HISPEED_LOAD 1200000 1000000 0 0 0 0
       1024 64 false 0)
    example_policy.

(** * Properties *)

(** Closed goals over the example values. *)
Ltac by_eval :=
  vm_compute;
  first [reflexivity | congruence | split; congruence].

(** ** Arithmetic of the machine integers *)

Lemma u32_small (x : Z) : 0 <= x < 2 ^ 32 -> u32 x = x.
Proof. intros H. unfold u32. apply Z.mod_small. exact H. Qed.

Lemma u64_small (x : Z) : 0 <= x < 2 ^ 64 -> u64 x = x.
Proof. intros H. unfold u64. apply Z.mod_small. exact H. Qed.

Lemma u64_range (x : Z) : 0 <= u64 x < 2 ^ 64.
Proof. unfold u64. apply Z.mod_pos_bound. lia. Qed.

Lemma u32_range (x : Z) : 0 <= u32 x < 2 ^ 32.
Proof. unfold u32. apply Z.mod_pos_bound. lia. Qed.

Lemma s64_small (x : Z) : - 2 ^ 63 <= x < 2 ^ 63 -> s64 x = x.
Proof. intros H. unfold s64. rewrite Z.mod_small; lia. Qed.

(** Without overflow [mult_frac] is the rounded-down quotient. *)
Lemma mult_frac_floor (x numer denom : Z) :
  0 <= x -> 0 <= numer < 2 ^ 64 -> 0 < denom -> x * numer < 2 ^ 64 ->
  mult_frac x numer denom = x * numer / denom.
Proof.
  intros Hx Hn Hd Hlt. unfold mult_frac.
  assert (Hq : 0 <= x / denom) by (apply Z.div_pos; lia).
  assert (Hr : 0 <= x mod denom < denom) by (apply Z.mod_pos_bound; lia).
  assert (Hdec : x = denom * (x / denom) + x mod denom)
    by (apply Z.div_mod; lia).
  assert (Hsplit : x * numer =
                   (x / denom) * numer * denom + (x mod denom) * numer) by nia.
  rewrite (u64_small numer) by lia.
  assert (Hqn : 0 <= (x / denom) * numer < 2 ^ 64) by nia.
  assert (Hrn : 0 <= (x mod denom) * numer < 2 ^ 64) by nia.
  rewrite (u64_small _ Hqn), (u64_small _ Hrn).
  assert (Hdiv : x * numer / denom =
                 (x / denom) * numer + (x mod denom) * numer / denom).
  { rewrite Hsplit at 1. rewrite Z.div_add_l by lia. reflexivity. }
  rewrite Hdiv. apply u64_small.
  assert (0 <= x * numer / denom) by (apply Z.div_pos; nia).
  assert (x * numer / denom <= x * numer)
    by (apply Z.div_le_upper_bound; nia).
  lia.
Qed.

(** ** Which fields each step writes *)

Lemma aggregation_frame_refl (p : waltgov_policy) : aggregation_frame p p.
Proof. destruct p. reflexivity. Qed.

Lemma aggregation_frame_trans (p q r : waltgov_policy) :
  aggregation_frame p q -> aggregation_frame q r -> aggregation_frame p r.
Proof.
  unfold aggregation_frame. intros Hq Hr. rewrite Hr. rewrite Hq at 1.
  destruct p. reflexivity.
Qed.

Lemma aggregation_frame_driving (p : waltgov_policy) (j : nat) :
  aggregation_frame p (Policy.set_driving_cpu j p).
Proof. destruct p. reflexivity. Qed.

Lemma aggregation_frame_newtask (p : waltgov_policy) (v : Z) :
  aggregation_frame p (Policy.set_newtask_flag v p).
Proof. destruct p. reflexivity. Qed.

Create HintDb frame.

#[local] Hint Resolve aggregation_frame_refl aggregation_frame_driving
  aggregation_frame_newtask : frame.

Lemma max_and_reason_frame (s : adj) (boost_util reason : Z) :
  aggregation_frame (adj_policy s)
    (adj_policy (max_and_reason s boost_util reason)).
Proof.
  unfold max_and_reason.
  destruct (negb (boost_util =? 0) && (boost_util >=? cur_util s));
    simpl; auto with frame.
Qed.

Lemma set_newtask_flag_frame (E : platform) (v : Z) (s : adj) :
  aggregation_frame (adj_policy s) (adj_policy (set_newtask_flag E v s)).
Proof.
  unfold set_newtask_flag.
  destruct (CONFIG_OPLUS_FEATURE_OCH E); simpl; auto with frame.
Qed.

(** A step of the override chain keeps the frame. *)
Ltac frame_step :=
  match goal with
  | |- aggregation_frame ?p (adj_policy (if ?c then _ else _)) =>
      destruct c
  | |- aggregation_frame ?p (adj_policy (max_and_reason ?s _ _)) =>
      apply (aggregation_frame_trans p (adj_policy s));
      [|apply max_and_reason_frame]
  | |- aggregation_frame ?p (adj_policy (set_newtask_flag _ _ ?s)) =>
      apply (aggregation_frame_trans p (adj_policy s));
      [|apply set_newtask_flag_frame]
  | |- aggregation_frame ?p (adj_policy (or_reasons _ ?s)) =>
      change (adj_policy (or_reasons _ s)) with (adj_policy s)
  | |- aggregation_frame ?p ?p => apply aggregation_frame_refl
  end.

Lemma waltgov_walt_adjust_frame (E : platform) (wg_cpu : waltgov_cpu)
    (wg_policy : waltgov_policy) (cpu_util nl util max : Z) :
  aggregation_frame wg_policy
    (adj_policy (waltgov_walt_adjust E wg_cpu wg_policy cpu_util nl util max)).
Proof.
  unfold waltgov_walt_adjust. cbv zeta.
  repeat frame_step; apply aggregation_frame_refl.
Qed.

Lemma shared_step_frame (E : platform) (a : agg) (j : nat) :
  aggregation_frame (agg_policy a) (agg_policy (shared_step E a j)).
Proof.
  unfold shared_step. cbv zeta. simpl agg_policy.
  eapply aggregation_frame_trans; [|apply waltgov_walt_adjust_frame].
  unfold shared_pick, pick_driving.
  destruct (_ >=? _); simpl; auto with frame.
Qed.

Lemma shared_fold_frame (E : platform) (l : list nat) (a : agg) :
  aggregation_frame (agg_policy a) (agg_policy (fold_left (shared_step E) l a)).
Proof.
  revert a. induction l as [|j l IH]; intros a; simpl.
  - apply aggregation_frame_refl.
  - eapply aggregation_frame_trans; [apply shared_step_frame|apply IH].
Qed.

Lemma shared_loop_frame (E : platform) (st : gov_state) :
  aggregation_frame (st_policy st) (agg_policy (shared_loop E st)).
Proof.
  exact (shared_fold_frame E
           (CpufreqPolicy.cpus (Policy.policy (st_policy st)))
           {| agg_util := 0; agg_max := 1; agg_policy := st_policy st;
              agg_percpu := st_percpu st |}).
Qed.

Lemma aggregation_frame_last_ws (p p' : waltgov_policy) :
  aggregation_frame p p' -> Policy.last_ws p' = Policy.last_ws p.
Proof. intros ->. reflexivity. Qed.

Lemma update_next_freq_last_ws (E : platform) (p : waltgov_policy)
    (time next_freq raw_freq : Z) :
  Policy.last_ws (snd (waltgov_update_next_freq E p time next_freq raw_freq))
  = Policy.last_ws p.
Proof.
  unfold waltgov_update_next_freq.
  destruct (_ =? _); [reflexivity|].
  destruct (waltgov_up_down_rate_limit _ _ _ _); reflexivity.
Qed.

Lemma get_next_freq_last_ws (E : platform) (st : gov_state)
    (util max time : Z) :
  Policy.last_ws (st_policy (snd (get_next_freq E st util max time)))
  = Policy.last_ws (st_policy st).
Proof.
  unfold get_next_freq.
  destruct (selected_freq E st util max) as [freq reason].
  destruct (_ && _); [reflexivity|].
  match goal with
  | |- context [waltgov_update_next_freq E ?p ?t ?f ?r] =>
      pose proof (update_next_freq_last_ws E p t f r) as H;
      destruct (waltgov_update_next_freq E p t f r) as [changed q]
  end.
  simpl in *. exact H.
Qed.

Lemma waltgov_commit_last_ws (E : platform) (st : gov_state) (time : Z) :
  Policy.last_ws (st_policy (waltgov_commit E st time))
  = Policy.last_ws (st_policy st).
Proof.
  unfold waltgov_commit, waltgov_next_freq_shared.
  match goal with
  | |- context [get_next_freq E ?s ?u ?m ?t] =>
      pose proof (get_next_freq_last_ws E s u m t) as H;
      destruct (get_next_freq E s u m t) as [next_f st1]
  end.
  simpl in H.
  rewrite (aggregation_frame_last_ws _ _ (shared_loop_frame E st)) in H.
  unfold waltgov_apply.
  destruct (next_f =? 0); [exact H|].
  destruct (CpufreqPolicy.fast_switch_enabled _); simpl; exact H.
Qed.

(** ** The window boundary of [waltgov_calc_avg_cap] *)

Lemma calc_avg_cap_cases (E : platform) (p : waltgov_policy)
    (curr_ws prev_freq : Z) :
  (curr_ws < Policy.last_ws p /\
   waltgov_calc_avg_cap E p curr_ws prev_freq = Bug) \/
  (curr_ws = Policy.last_ws p /\
   waltgov_calc_avg_cap E p curr_ws prev_freq = Done p) \/
  (Policy.last_ws p < curr_ws /\
   exists p', waltgov_calc_avg_cap E p curr_ws prev_freq = Done p' /\
              Policy.last_ws p' = curr_ws).
Proof.
  unfold waltgov_calc_avg_cap.
  destruct (Z.ltb_spec curr_ws (Policy.last_ws p)) as [Hlt|Hge].
  - left. split; [exact Hlt|reflexivity].
  - destruct (Z.leb_spec curr_ws (Policy.last_ws p)) as [Hle|Hgt].
    + right. left. split; [lia|reflexivity].
    + right. right. split; [exact Hgt|].
      destruct (window_avg_freq E p curr_ws prev_freq) as [avg_freq q].
      eexists. split; reflexivity.
Qed.

Lemma nondecreasing_weaken (a a' : Z) (l : list Z) :
  a' <= a -> nondecreasing (a :: l) -> nondecreasing (a' :: l).
Proof. destruct l as [|b l]; simpl; [tauto|]. intros ? [? ?]. split; [lia|assumption]. Qed.

Lemma calc_avg_cap_run_done (E : platform) (calls : list (Z * Z))
    (p : waltgov_policy) :
  nondecreasing (Policy.last_ws p :: map fst calls) ->
  exists p', calc_avg_cap_run E p calls = Done p'.
Proof.
  revert p. induction calls as [|[curr_ws prev_freq] rest IH]; intros p Hnd.
  - exists p. reflexivity.
  - simpl in Hnd. destruct Hnd as [Hle Hrest]. simpl.
    destruct (calc_avg_cap_cases E p curr_ws prev_freq)
      as [[Hlt _]|[[Heq ->]|[Hgt (p' & -> & Hws)]]].
    + lia.
    + apply IH. rewrite <- Heq. exact Hrest.
    + apply IH. rewrite Hws. exact Hrest.
Qed.

Lemma should_update_freq_last_ws (E : platform) (p : waltgov_policy)
    (time : Z) :
  Policy.last_ws (snd (waltgov_should_update_freq E p time))
  = Policy.last_ws p.
Proof.
  unfold waltgov_should_update_freq.
  destruct (Policy.limits_changed p); [reflexivity|].
  destruct (def_frameboost E p); reflexivity.
Qed.

Lemma sampled_cpu_ws (E : platform) (wg_cpu : waltgov_cpu)
    (sig : sched_sample) (flags : Z) :
  Load.ws (Cpu.walt_load (sampled_cpu E wg_cpu sig flags))
  = Load.ws (sample_load sig).
Proof. reflexivity. Qed.

Lemma prologue_last_ws (E : platform) (p : waltgov_policy)
    (wg_cpu : waltgov_cpu) (flags : Z) :
  Policy.last_ws (refresh_max E (record_flags E p flags) wg_cpu)
  = Policy.last_ws p.
Proof.
  unfold refresh_max, record_flags.
  destruct (CONFIG_OPLUS_FEATURE_FRAME_BOOST E); destruct (negb _);
    reflexivity.
Qed.

Lemma update_freq_last_ws (E : platform) (st : gov_state) (cpu : nat)
    (sig : sched_sample) (time flags : Z) :
  Policy.last_ws (st_policy st) <= Load.ws (sample_load sig) ->
  exists st', waltgov_update_freq E st cpu sig time flags = Done st' /\
              Policy.last_ws (st_policy st') <= Load.ws (sample_load sig).
Proof.
  intros Hle. unfold waltgov_update_freq.
  destruct (_ && _).
  { exists st. split; [reflexivity|exact Hle]. }
  cbv zeta. rewrite sampled_cpu_ws.
  pose proof (prologue_last_ws E (st_policy st)
                (sampled_cpu E (st_percpu st !!! cpu) sig flags) flags) as Hp.
  set (p := refresh_max E _ _) in *.
  assert (Hq : exists q,
             waltgov_calc_avg_cap E p (Load.ws (sample_load sig))
               (CpufreqPolicy.cur (Policy.policy p)) = Done q /\
             Policy.last_ws q <= Load.ws (sample_load sig)).
  { destruct (calc_avg_cap_cases E p (Load.ws (sample_load sig))
                (CpufreqPolicy.cur (Policy.policy p)))
      as [[Hlt _]|[[Heq H]|[Hgt (p' & H & Hws)]]].
    - lia.
    - exists p. split; [exact H|lia].
    - exists p'. split; [exact H|lia]. }
  destruct Hq as (q & -> & Hq).
  pose proof (should_update_freq_last_ws E q time) as Hs.
  destruct (waltgov_should_update_freq E q time) as [due q'].
  simpl in Hs.
  destruct (due && _); eexists; (split; [reflexivity|]).
  - rewrite waltgov_commit_last_ws. simpl. lia.
  - simpl. lia.
Qed.

Lemma update_freq_run_done (E : platform)
    (evs : list (nat * sched_sample * Z * Z)) (st : gov_state) :
  nondecreasing (Policy.last_ws (st_policy st) :: map event_ws evs) ->
  exists st', update_freq_run E st evs = Done st'.
Proof.
  revert st. induction evs as [|[[[cpu sig] time] flags] rest IH];
    intros st Hnd.
  - exists st. reflexivity.
  - simpl in Hnd. destruct Hnd as [Hle Hrest]. simpl.
    destruct (update_freq_last_ws E st cpu sig time flags Hle)
      as (st' & -> & Hws).
    apply IH. eapply nondecreasing_weaken; [exact Hws|exact Hrest].
Qed.

(** C9.  [waltgov_calc_avg_cap] called with the window start it recorded
    last returns with the domain untouched; called with an older window
    start it hits [BUG_ON], and only then.  When the window starts handed
    in never go back, neither a run of direct calls nor a run of scheduler
    callbacks reaches the [BUG_ON]. *)
Theorem calc_avg_cap_ordering (E : platform) (wg_policy : waltgov_policy)
    (prev_freq : Z) :
  waltgov_calc_avg_cap E wg_policy (Policy.last_ws wg_policy) prev_freq
  = Done wg_policy
  /\ (forall curr_ws,
        waltgov_calc_avg_cap E wg_policy curr_ws prev_freq = Bug <->
        curr_ws < Policy.last_ws wg_policy)
  /\ (forall calls,
        nondecreasing (Policy.last_ws wg_policy :: map fst calls) ->
        exists wg_policy', calc_avg_cap_run E wg_policy calls = Done wg_policy')
  /\ (forall percpu trace evs,
        nondecreasing (Policy.last_ws wg_policy :: map event_ws evs) ->
        exists st',
          update_freq_run E
            {| st_policy := wg_policy; st_percpu := percpu;
               st_trace := trace |} evs = Done st').
Proof.
  split; [|split; [|split]].
  - destruct (calc_avg_cap_cases E wg_policy (Policy.last_ws wg_policy)
                prev_freq) as [[Hlt _]|[[_ H]|[Hgt _]]]; [lia|exact H|lia].
  - intros curr_ws.
    destruct (calc_avg_cap_cases E wg_policy curr_ws prev_freq)
      as [[Hlt H]|[[Heq H]|[Hgt (p' & H & _)]]]; rewrite H;
      split; intros; try discriminate; try lia; reflexivity.
  - intros calls. apply calc_avg_cap_run_done.
  - intros percpu trace evs Hnd. apply update_freq_run_done. exact Hnd.
Qed.

Lemma calc_avg_cap_ordering_witness :
  (3999999 < Policy.last_ws (Policy.set_last_ws 4000000 example_policy) /\
   waltgov_calc_avg_cap example_platform
     (Policy.set_last_ws 4000000 example_policy) 3999999 1000000 = Bug) /\
  (nondecreasing
     (Policy.last_ws example_policy ::
      map fst [(0, 1000000); (4000000, 1000000); (4000000, 1200000);
               (16000000, 1200000)]) /\
   exists wg_policy',
     calc_avg_cap_run example_platform example_policy
       [(0, 1000000); (4000000, 1000000); (4000000, 1200000);
        (16000000, 1200000)] = Done wg_policy').
Proof.
  split.
  - split; [reflexivity|].
    apply (proj1 (proj2 (calc_avg_cap_ordering example_platform
                           (Policy.set_last_ws 4000000 example_policy)
                           1000000))).
    reflexivity.
  - split; [simpl; lia|].
    apply (proj1 (proj2 (proj2 (calc_avg_cap_ordering example_platform
                                  example_policy 1000000)))).
    simpl; lia.
Defined.

(** ** Cycle counting over one window *)

(** A window that is a whole number of milliseconds, tracked in one piece
    from its start with no cycles counted yet, accumulates the frequency
    times the window length. *)
Lemma track_cycles_full_window (E : platform) (p : waltgov_policy) (F : Z) :
  0 <= Policy.last_ws p ->
  Policy.last_ws p + sched_ravg_window E < 2 ^ 64 ->
  0 < sched_ravg_window E ->
  sched_ravg_window E mod (NSEC_PER_SEC / KHZ) = 0 ->
  Policy.last_cyc_update_time p = Policy.last_ws p ->
  Policy.curr_cycles p = 0 ->
  0 <= F -> sched_ravg_window E * F < 2 ^ 64 ->
  Policy.curr_cycles
    (waltgov_track_cycles E p F (Policy.last_ws p + sched_ravg_window E))
  = F * (sched_ravg_window E / (NSEC_PER_SEC / KHZ)).
Proof.
  intros Hws Hsum HW Hms Hupd Hcyc HF Hmul.
  unfold waltgov_track_cycles. cbv zeta. simpl Policy.curr_cycles.
  rewrite Hupd, Hcyc.
  rewrite (u64_small (Policy.last_ws p + _)) by lia.
  rewrite Z.min_id.
  replace (Policy.last_ws p + sched_ravg_window E - Policy.last_ws p)
    with (sched_ravg_window E) by lia.
  rewrite (u64_small (sched_ravg_window E)) by lia.
  rewrite (u64_small (sched_ravg_window E * F)) by nia.
  change (NSEC_PER_SEC / KHZ) with 1000000 in *.
  assert (HWk : sched_ravg_window E = 1000000 * (sched_ravg_window E / 1000000))
    by (apply Z.div_exact; lia).
  set (k := sched_ravg_window E / 1000000) in *.
  rewrite HWk at 1.
  replace (1000000 * k * F) with (F * k * 1000000) by ring.
  rewrite Z.div_mul by lia.
  rewrite Z.add_0_l. apply u64_small. nia.
Qed.

(** A whole window that has been tracked to its end: a later call, at
    whatever frequency, adds nothing to the cycle count. *)
Lemma track_cycles_at_window_end (E : platform) (p : waltgov_policy)
    (prev_freq : Z) :
  let curr_ws := Policy.last_ws p + sched_ravg_window E in
  0 <= curr_ws < 2 ^ 64 ->
  Policy.last_cyc_update_time p = curr_ws ->
  0 <= Policy.curr_cycles p < 2 ^ 64 ->
  Policy.curr_cycles (waltgov_track_cycles E p prev_freq curr_ws)
  = Policy.curr_cycles p.
Proof.
  intros curr_ws Hws Hupd Hcyc.
  unfold waltgov_track_cycles. cbv zeta. simpl Policy.curr_cycles.
  fold curr_ws. rewrite Hupd.
  rewrite (u64_small curr_ws) by lia.
  rewrite Z.min_id, Z.sub_diag.
  change (u64 0) with 0. rewrite Z.mul_0_l. change (u64 0) with 0.
  change (0 / (NSEC_PER_SEC / KHZ)) with 0.
  rewrite Z.add_0_r. apply u64_small. lia.
Qed.

(** C5 (as amended).  One window of a whole number of milliseconds at a
    constant frequency [F]: when the cycles counted up to the next window
    start are [F] times the window length and fit the 32 bits of
    [avg_freq], the average frequency computed is [F], whatever frequency
    runs at the time of the call; [avg_cap] is the capacity of [F],
    [curr_cycles] is back to zero and [last_ws] is the new window
    start. *)
Theorem calc_avg_cap_round_trip (E : platform) (wg_policy : waltgov_policy)
    (F prev_freq : Z) :
  let W := sched_ravg_window E in
  let curr_ws := Policy.last_ws wg_policy + W in
  let tracked := waltgov_track_cycles E wg_policy prev_freq curr_ws in
  0 <= Policy.last_ws wg_policy -> curr_ws < 2 ^ 64 ->
  NSEC_PER_SEC / KHZ <= W ->
  W mod (NSEC_PER_SEC / KHZ) = 0 ->
  0 <= F -> Policy.curr_cycles tracked < 2 ^ 32 ->
  Policy.curr_cycles tracked * (NSEC_PER_SEC / KHZ) = F * W ->
  fst (window_avg_freq E wg_policy curr_ws prev_freq) = F /\
  exists wg_policy',
    waltgov_calc_avg_cap E wg_policy curr_ws prev_freq = Done wg_policy' /\
    Policy.avg_cap wg_policy' = freq_to_util wg_policy F /\
    Policy.curr_cycles wg_policy' = 0 /\
    Policy.last_ws wg_policy' = curr_ws.
Proof.
  intros W curr_ws tracked Hws Hsum HW Hms HF Hfit Hcyc.
  change (NSEC_PER_SEC / KHZ) with 1000000 in HW, Hms, Hcyc.
  set (k := W / 1000000).
  assert (HWk : W = 1000000 * k) by (apply Z.div_exact; lia).
  assert (Hk : 0 < k) by lia.
  assert (Hcycles : Policy.curr_cycles tracked = F * k) by nia.
  assert (Havg : window_avg_freq E wg_policy curr_ws prev_freq
                 = (F, tracked)).
  { unfold window_avg_freq. fold W curr_ws.
    rewrite (u64_small curr_ws) by (subst curr_ws; lia).
    destruct (Z.gtb_spec curr_ws curr_ws) as [Hgt|_]; [lia|].
    cbv zeta. fold tracked. rewrite Hcycles.
    change (NSEC_PER_SEC / KHZ) with 1000000. fold k.
    rewrite (u32_small (F * k)) by nia.
    rewrite Z.div_mul by lia.
    rewrite u32_small by nia. reflexivity. }
  split; [rewrite Havg; reflexivity|].
  unfold waltgov_calc_avg_cap.
  destruct (Z.ltb_spec curr_ws (Policy.last_ws wg_policy)) as [Hlt|_];
    [subst curr_ws; lia|].
  destruct (Z.leb_spec curr_ws (Policy.last_ws wg_policy)) as [Hle|_];
    [subst curr_ws; lia|].
  rewrite Havg. eexists. split; [reflexivity|].
  repeat split.
Qed.

Lemma calc_avg_cap_round_trip_witness :
  (0 <= Policy.last_ws tracked_window_policy /\
   Policy.last_ws tracked_window_policy + sched_ravg_window example_platform
   < 2 ^ 64 /\
   NSEC_PER_SEC / KHZ <= sched_ravg_window example_platform /\
   sched_ravg_window example_platform mod (NSEC_PER_SEC / KHZ) = 0 /\
   0 <= 1804800 /\
   Policy.curr_cycles
     (waltgov_track_cycles example_platform tracked_window_policy 300000
        4000000) < 2 ^ 32 /\
   Policy.curr_cycles
     (waltgov_track_cycles example_platform tracked_window_policy 300000
        4000000) * (NSEC_PER_SEC / KHZ)
   = 1804800 * sched_ravg_window example_platform) /\
  fst (window_avg_freq example_platform tracked_window_policy 4000000 300000)
  = 1804800 /\
  exists wg_policy',
    waltgov_calc_avg_cap example_platform tracked_window_policy 4000000
      300000 = Done wg_policy' /\
    Policy.avg_cap wg_policy' = freq_to_util tracked_window_policy 1804800 /\
    Policy.curr_cycles wg_policy' = 0 /\
    Policy.last_ws wg_policy' = 4000000.
Proof.
  split.
  - repeat split; try (vm_compute; congruence); reflexivity.
  - apply (calc_avg_cap_round_trip example_platform tracked_window_policy
             1804800 300000);
      try (vm_compute; congruence); reflexivity.
Defined.

(** C5 as first stated fails for a window that is not a whole number of
    milliseconds: a window of 16666665 ns at 1 GHz counts 16666665
    cycles, the frequency times the window length, and the average is
    that count divided by the 16 whole milliseconds of the window,
    1041666 kHz. *)
Lemma round_trip_any_window_fails : ~ round_trip_any_window.
Proof.
  intros H.
  specialize (H (with_window 16666665 example_platform) example_policy
                1000000 1000000).
  cbv zeta in H.
  assert (Hf : fst (window_avg_freq (with_window 16666665 example_platform)
                      example_policy
                      (Policy.last_ws example_policy
                       + sched_ravg_window
                           (with_window 16666665 example_platform))
                      1000000) = 1041666) by by_eval.
  rewrite Hf in H.
  assert (Habs : 1041666 = 1000000); [|discriminate Habs].
  apply H; by_eval.
Qed.

(** ** The selector *)

(** What one call of the selector leaves behind: the reason of the band in
    the driving CPU's slot and, when it returns a frequency, that
    frequency committed. *)
Lemma get_next_freq_result (E : platform) (st : gov_state)
    (util max time : Z) :
  let p := st_policy st in
  let freq := fst (selected_freq E st util max) in
  let res := get_next_freq E st util max time in
  st_percpu (snd res)
  = set_driving_reasons (st_percpu st) (Policy.driving_cpu p)
      (snd (selected_freq E st util max)) /\
  (fst res <> 0 ->
   fst res = u32 (cpufreq_driver_resolve_freq E (Policy.policy p) freq) /\
   Policy.next_freq (st_policy (snd res)) = fst res /\
   Policy.cached_raw_freq (st_policy (snd res)) = freq /\
   Policy.last_freq_update_time (st_policy (snd res)) = time).
Proof.
  cbv zeta. unfold get_next_freq.
  destruct (selected_freq E st util max) as [freq reason]. simpl fst.
  simpl snd at 2.
  destruct (_ && _).
  { simpl. split; [reflexivity|]. intros H. congruence. }
  unfold waltgov_update_next_freq.
  destruct (_ =? _).
  { simpl. split; [reflexivity|]. intros H. congruence. }
  destruct (waltgov_up_down_rate_limit _ _ _ _).
  { simpl. split; [reflexivity|]. intros H. congruence. }
  simpl. split; [reflexivity|]. intros _. repeat split.
Qed.

Lemma driving_reasons_written (percpu : list waltgov_cpu) (driving : nat)
    (r : Z) :
  (driving < length percpu)%nat ->
  Cpu.reasons (set_driving_reasons percpu driving (Some r) !!! driving) = r.
Proof.
  intros Hlt. unfold set_driving_reasons.
  rewrite list_lookup_total_insert_eq by exact Hlt. reflexivity.
Qed.

(** C2.  With the user tunable [adaptive_high_freq] set, a raw frequency
    below the effective low bound selects exactly that bound and records
    ADAPTIVE_LOW in the driving CPU; a raw frequency from the low to the
    high bound selects exactly the high bound and records ADAPTIVE_HIGH; a
    raw frequency above the high bound of a band (low bound not above the
    high one) is selected as it is and nothing is recorded.  Whenever the selector then returns a frequency, it is the
    driver's resolution of the selected one.  The effective bounds are the
    larger of the user and the kernel value. *)
Theorem adaptive_band_selection (E : platform) (st : gov_state)
    (util max time : Z) :
  let wg_policy := st_policy st in
  let tun := Policy.tunables wg_policy in
  let driving := Policy.driving_cpu wg_policy in
  let raw_freq :=
    u32 (walt_map_util_freq E util wg_policy max
           (Cpu.cpu (st_percpu st !!! driving))) in
  let low := Z.max (Tunables.adaptive_low_freq tun)
                   (Tunables.adaptive_low_freq_kernel tun) in
  let high := Z.max (Tunables.adaptive_high_freq tun)
                    (Tunables.adaptive_high_freq_kernel tun) in
  let res := get_next_freq E st util max time in
  let resolved f :=
    u32 (cpufreq_driver_resolve_freq E (Policy.policy wg_policy) f) in
  Tunables.adaptive_high_freq tun <> 0 ->
  (driving < length (st_percpu st))%nat ->
  (raw_freq < low ->
   selected_freq E st util max = (low, Some (CPUFREQ_REASON_ADAPTIVE_LOW E)) /\
   Cpu.reasons (st_percpu (snd res) !!! driving)
   = CPUFREQ_REASON_ADAPTIVE_LOW E /\
   (fst res <> 0 -> fst res = resolved low)) /\
  (low <= raw_freq <= high ->
   selected_freq E st util max
   = (high, Some (CPUFREQ_REASON_ADAPTIVE_HIGH E)) /\
   Cpu.reasons (st_percpu (snd res) !!! driving)
   = CPUFREQ_REASON_ADAPTIVE_HIGH E /\
   (fst res <> 0 -> fst res = resolved high)) /\
  (low <= high -> high < raw_freq ->
   selected_freq E st util max = (raw_freq, None) /\
   st_percpu (snd res) = st_percpu st /\
   (fst res <> 0 -> fst res = resolved raw_freq)).
Proof.
  intros wg_policy tun driving raw_freq low high res resolved Hon Hdrv.
  destruct (get_next_freq_result E st util max time) as [Hpercpu Hret].
  fold res wg_policy driving in Hpercpu, Hret.
  assert (Hsel : selected_freq E st util max
                 = adaptive_band E wg_policy raw_freq) by reflexivity.
  assert (Hband : adaptive_band E wg_policy raw_freq =
                  if raw_freq <? low
                  then (low, Some (CPUFREQ_REASON_ADAPTIVE_LOW E))
                  else if raw_freq <=? high
                       then (high, Some (CPUFREQ_REASON_ADAPTIVE_HIGH E))
                       else (raw_freq, None)).
  { unfold adaptive_band. fold tun.
    destruct (Z.eqb_spec (Tunables.adaptive_high_freq tun) 0) as [H0|_];
      [contradiction|reflexivity]. }
  rewrite Hband in Hsel. rewrite Hsel in Hpercpu, Hret.
  split; [|split].
  - intros Hlt. rewrite Hsel.
    destruct (Z.ltb_spec raw_freq low) as [_|Hge]; [|lia].
    simpl in Hpercpu, Hret. split; [reflexivity|split].
    + rewrite Hpercpu. apply driving_reasons_written. exact Hdrv.
    + intros Hnz. apply Hret. exact Hnz.
  - intros [Hge Hle]. rewrite Hsel.
    destruct (Z.ltb_spec raw_freq low) as [Hlt|_]; [lia|].
    destruct (Z.leb_spec raw_freq high) as [_|Hgt]; [|lia].
    simpl in Hpercpu, Hret. split; [reflexivity|split].
    + rewrite Hpercpu. apply driving_reasons_written. exact Hdrv.
    + intros Hnz. apply Hret. exact Hnz.
  - intros Hband_ok Hgt. rewrite Hsel.
    destruct (Z.ltb_spec raw_freq low) as [Hlt|_]; [lia|].
    destruct (Z.leb_spec raw_freq high) as [Hle|_]; [lia|].
    simpl in Hpercpu, Hret. split; [reflexivity|split].
      * exact Hpercpu.
      * intros Hnz. apply Hret. exact Hnz.
Qed.

Lemma adaptive_band_selection_witness :
  (Tunables.adaptive_high_freq (Policy.tunables (st_policy user_band_state))
   <> 0 /\
   (Policy.driving_cpu (st_policy user_band_state)
    < length (st_percpu user_band_state))%nat /\
   500000 <= 1200000) /\
  (selected_freq example_platform user_band_state 12 100
   = (500000, Some (CPUFREQ_REASON_ADAPTIVE_LOW example_platform)) /\
   selected_freq example_platform user_band_state 36 100
   = (1200000, Some (CPUFREQ_REASON_ADAPTIVE_HIGH example_platform)) /\
   selected_freq example_platform user_band_state 60 100 = (1500000, None)) /\
  (fst (get_next_freq example_platform user_band_state 12 100 20000000)
   = 500000 /\
   fst (get_next_freq example_platform user_band_state 36 100 20000000)
   = 1200000 /\
   fst (get_next_freq example_platform user_band_state 60 100 20000000)
   = 1500000).
Proof.
  assert (Hon : Tunables.adaptive_high_freq
                  (Policy.tunables (st_policy user_band_state)) <> 0)
    by (vm_compute; congruence).
  assert (Hdrv : (Policy.driving_cpu (st_policy user_band_state)
                  < length (st_percpu user_band_state))%nat)
    by (vm_compute; lia).
  pose proof (adaptive_band_selection example_platform user_band_state
                12 100 20000000 Hon Hdrv) as (Hlow & _ & _).
  pose proof (adaptive_band_selection example_platform user_band_state
                36 100 20000000 Hon Hdrv) as (_ & Hmid & _).
  pose proof (adaptive_band_selection example_platform user_band_state
                60 100 20000000 Hon Hdrv) as (_ & _ & Hhigh).
  destruct Hlow as (Hlow & _ & Hlow_ret); [vm_compute; reflexivity|].
  destruct Hmid as (Hmid & _ & Hmid_ret);
    [split; vm_compute; congruence|].
  destruct Hhigh as (Hhigh & _ & Hhigh_ret);
    [vm_compute; congruence|vm_compute; reflexivity|].
  split; [split; [exact Hon|split; [exact Hdrv|lia]]|].
  split; [split; [exact Hlow|split; [exact Hmid|exact Hhigh]]|].
  split; [|split].
  - rewrite Hlow_ret; [reflexivity|vm_compute; congruence].
  - rewrite Hmid_ret; [reflexivity|vm_compute; congruence].
  - rewrite Hhigh_ret; [reflexivity|vm_compute; congruence].
Defined.

(** C10.  With the user tunable [adaptive_high_freq] at zero the selector
    applies no band, whatever the kernel-origin bounds are: the raw
    frequency is selected as it is, no reason is written, and a frequency
    returned is the driver's resolution of the raw one. *)
Theorem adaptive_band_needs_user_high (E : platform) (st : gov_state)
    (util max time : Z) :
  let wg_policy := st_policy st in
  let raw_freq :=
    u32 (walt_map_util_freq E util wg_policy max
           (Cpu.cpu (st_percpu st !!! Policy.driving_cpu wg_policy))) in
  let res := get_next_freq E st util max time in
  Tunables.adaptive_high_freq (Policy.tunables wg_policy) = 0 ->
  selected_freq E st util max = (raw_freq, None) /\
  st_percpu (snd res) = st_percpu st /\
  (fst res <> 0 ->
   fst res
   = u32 (cpufreq_driver_resolve_freq E (Policy.policy wg_policy) raw_freq)).
Proof.
  intros wg_policy raw_freq res Hoff.
  destruct (get_next_freq_result E st util max time) as [Hpercpu Hret].
  fold res wg_policy in Hpercpu, Hret.
  assert (Hsel : selected_freq E st util max = (raw_freq, None)).
  { unfold selected_freq, adaptive_band. fold wg_policy raw_freq.
    rewrite Hoff. reflexivity. }
  rewrite Hsel in Hpercpu, Hret. simpl in Hpercpu, Hret.
  split; [exact Hsel|split; [exact Hpercpu|]].
  intros Hnz. apply Hret. exact Hnz.
Qed.

Lemma adaptive_band_needs_user_high_witness :
  Tunables.adaptive_high_freq (Policy.tunables (st_policy kernel_band_state))
  = 0 /\
  (get_adaptive_low_freq (st_policy kernel_band_state) = 500000 /\
   get_adaptive_high_freq (st_policy kernel_band_state) = 1200000) /\
  selected_freq example_platform kernel_band_state 12 100 = (300000, None) /\
  selected_freq example_platform kernel_band_state 36 100 = (900000, None) /\
  fst (get_next_freq example_platform kernel_band_state 12 100 20000000)
  = 300000.
Proof.
  assert (Hoff : Tunables.adaptive_high_freq
                   (Policy.tunables (st_policy kernel_band_state)) = 0)
    by reflexivity.
  pose proof (adaptive_band_needs_user_high example_platform
                kernel_band_state 12 100 20000000 Hoff) as (Hlow & _ & Hret).
  pose proof (adaptive_band_needs_user_high example_platform
                kernel_band_state 36 100 20000000 Hoff) as (Hmid & _ & _).
  split; [exact Hoff|].
  split; [split; reflexivity|].
  split; [exact Hlow|split; [exact Hmid|]].
  rewrite Hret; [reflexivity|vm_compute; congruence].
Defined.

(** ** The no-op short-circuit and stable input *)





Lemma hw_writes_app (l l' : list event) :
  hw_writes (l ++ l') = hw_writes l ++ hw_writes l'.
Proof. apply List.filter_app. Qed.







(** ** The rate limit *)

Lemma update_next_freq_limited (E : platform) (p : waltgov_policy)
    (time next_freq raw_freq : Z) :
  def_frameboost E p = false ->
  let p' := snd (waltgov_update_next_freq E p time next_freq raw_freq) in
  (Policy.next_freq p < Policy.next_freq p' ->
   Policy.up_rate_delay_ns p <= elapsed_ns p time) /\
  (Policy.next_freq p' < Policy.next_freq p ->
   Policy.down_rate_delay_ns p <= elapsed_ns p time).
Proof.
  intros Hfb. unfold waltgov_update_next_freq, waltgov_up_down_rate_limit.
  rewrite Hfb. fold (elapsed_ns p time).
  destruct (Z.eqb_spec (Policy.next_freq p) next_freq) as [Heq|Hne].
  { simpl. lia. }
  destruct (Z.gtb_spec next_freq (Policy.next_freq p)) as [Hup|Hnup];
    destruct (Z.ltb_spec (elapsed_ns p time) (Policy.up_rate_delay_ns p));
    destruct (Z.ltb_spec next_freq (Policy.next_freq p)) as [Hdn|Hndn];
    destruct (Z.ltb_spec (elapsed_ns p time) (Policy.down_rate_delay_ns p));
    simpl; lia.
Qed.

Lemma def_frameboost_view (E : platform) (p q : waltgov_policy) :
  rate_view q = rate_view p -> def_frameboost E q = def_frameboost E p.
Proof.
  unfold rate_view, def_frameboost. intros H.
  injection H as _ _ _ _ Hflags. rewrite Hflags. reflexivity.
Qed.

Lemma rate_limited_step_view (p q p' : waltgov_policy) (time : Z) :
  rate_view q = rate_view p ->
  rate_limited_step q p' time -> rate_limited_step p p' time.
Proof.
  unfold rate_view, rate_limited_step, elapsed_ns. intros H.
  injection H as Hnf Hlast Hup Hdown _.
  rewrite Hnf, Hlast, Hup, Hdown. tauto.
Qed.

Lemma aggregation_frame_view (p p' : waltgov_policy) :
  aggregation_frame p p' -> rate_view p' = rate_view p.
Proof. intros ->. reflexivity. Qed.

Lemma track_cycles_view (E : platform) (p : waltgov_policy)
    (prev_freq upto : Z) :
  rate_view (waltgov_track_cycles E p prev_freq upto) = rate_view p.
Proof. reflexivity. Qed.

Lemma calc_avg_cap_view (E : platform) (p p' : waltgov_policy)
    (curr_ws prev_freq : Z) :
  waltgov_calc_avg_cap E p curr_ws prev_freq = Done p' ->
  rate_view p' = rate_view p /\
  Policy.policy p' = Policy.policy p /\
  Policy.limits_changed p' = Policy.limits_changed p.
Proof.
  unfold waltgov_calc_avg_cap, window_avg_freq.
  destruct (curr_ws <? Policy.last_ws p); [discriminate|].
  destruct (curr_ws <=? Policy.last_ws p).
  { intros H. injection H as <-. auto. }
  destruct (curr_ws >? _); intros H; injection H as <-; auto.
Qed.

Lemma prologue_view (E : platform) (p : waltgov_policy)
    (wg_cpu : waltgov_cpu) (flags : Z) :
  let q := refresh_max E (record_flags E p flags) wg_cpu in
  Policy.next_freq q = Policy.next_freq p /\
  Policy.last_freq_update_time q = Policy.last_freq_update_time p /\
  Policy.up_rate_delay_ns q = Policy.up_rate_delay_ns p /\
  Policy.down_rate_delay_ns q = Policy.down_rate_delay_ns p /\
  Policy.policy q = Policy.policy p /\
  Policy.limits_changed q = Policy.limits_changed p /\
  def_frameboost E q = frameboost_event E flags.
Proof.
  unfold refresh_max, record_flags, def_frameboost, frameboost_event.
  destruct (CONFIG_OPLUS_FEATURE_FRAME_BOOST E); destruct (negb (_ =? _));
    simpl; repeat split.
Qed.

Lemma should_update_freq_view (E : platform) (p : waltgov_policy)
    (time : Z) :
  rate_view (snd (waltgov_should_update_freq E p time)) = rate_view p.
Proof.
  unfold waltgov_should_update_freq.
  destruct (Policy.limits_changed p); [reflexivity|].
  destruct (def_frameboost E p); reflexivity.
Qed.

Lemma get_next_freq_limited (E : platform) (st : gov_state)
    (util max time : Z) :
  def_frameboost E (st_policy st) = false ->
  rate_limited_step (st_policy st)
    (st_policy (snd (get_next_freq E st util max time))) time.
Proof.
  intros Hfb. unfold get_next_freq.
  destruct (selected_freq E st util max) as [freq reason].
  destruct (_ && _).
  { simpl. unfold rate_limited_step. lia. }
  match goal with
  | |- context [waltgov_update_next_freq E ?q ?t ?f ?r] =>
      pose proof (update_next_freq_limited E q t f r) as H;
      destruct (waltgov_update_next_freq E q t f r) as [changed q']
  end.
  simpl in *.
  apply (rate_limited_step_view _
           (Policy.set_need_freq_update false (st_policy st)));
    [reflexivity|].
  apply H. exact Hfb.
Qed.

Lemma waltgov_apply_view (E : platform) (st : gov_state) (time next_f : Z) :
  rate_view (st_policy (waltgov_apply E st time next_f))
  = rate_view (st_policy st).
Proof.
  unfold waltgov_apply.
  destruct (next_f =? 0); [reflexivity|].
  destruct (CpufreqPolicy.fast_switch_enabled _); reflexivity.
Qed.

Lemma rate_limited_step_after (p p' p'' : waltgov_policy) (time : Z) :
  rate_view p'' = rate_view p' ->
  rate_limited_step p p' time -> rate_limited_step p p'' time.
Proof.
  unfold rate_view, rate_limited_step. intros H.
  injection H as Hnf _ _ _ _. rewrite Hnf. tauto.
Qed.

Lemma waltgov_commit_limited (E : platform) (st : gov_state) (time : Z) :
  def_frameboost E (st_policy st) = false ->
  rate_limited_step (st_policy st)
    (st_policy (waltgov_commit E st time)) time.
Proof.
  intros Hfb. unfold waltgov_commit, waltgov_next_freq_shared.
  pose proof (aggregation_frame_view _ _ (shared_loop_frame E st)) as Hview.
  match goal with
  | |- context [get_next_freq E ?s ?u ?m ?t] =>
      pose proof (get_next_freq_limited E s u m t) as H;
      destruct (get_next_freq E s u m t) as [next_f st1]
  end.
  simpl in H.
  eapply rate_limited_step_after; [apply waltgov_apply_view|].
  eapply rate_limited_step_view; [exact Hview|].
  apply H. rewrite (def_frameboost_view E _ _ Hview). exact Hfb.
Qed.

Lemma waltgov_limits_limited (E : platform) (st : gov_state) (now : Z) :
  def_frameboost E (st_policy st) = false ->
  rate_limited_step (st_policy st) (st_policy (waltgov_limits E st now)) now.
Proof.
  intros Hfb. unfold waltgov_limits.
  destruct (negb (CpufreqPolicy.fast_switch_enabled _)).
  { apply (rate_limited_step_after _ (st_policy st)); [reflexivity|].
    unfold rate_limited_step. lia. }
  match goal with
  | |- context [waltgov_update_next_freq E ?q ?t ?f ?r] =>
      pose proof (update_next_freq_limited E q t f r Hfb) as H;
      destruct (waltgov_update_next_freq E q t f r) as [changed q']
  end.
  simpl in H.
  apply (rate_limited_step_after _ q'); [|exact H].
  destruct changed; reflexivity.
Qed.

Lemma rate_limited_step_fields (p q p' : waltgov_policy) (time : Z) :
  Policy.next_freq q = Policy.next_freq p ->
  Policy.last_freq_update_time q = Policy.last_freq_update_time p ->
  Policy.up_rate_delay_ns q = Policy.up_rate_delay_ns p ->
  Policy.down_rate_delay_ns q = Policy.down_rate_delay_ns p ->
  rate_limited_step q p' time -> rate_limited_step p p' time.
Proof.
  unfold rate_limited_step, elapsed_ns. intros -> -> -> ->. tauto.
Qed.

(** C1 (as amended).  A scheduler callback never leaves [next_freq] higher
    than it found it unless [up_rate_delay_ns] have passed since the last
    commit, and never lower unless [down_rate_delay_ns] have passed; so
    does [waltgov_limits].  This holds whether [limits_changed] is set or
    not: the flag opens the [min_rate_limit_ns] gate and forces the
    frequency to be resolved again, the limit per direction stays.  The
    limit is lifted only in a build with CONFIG_OPLUS_FEATURE_FRAME_BOOST
    while the flags kept in the domain carry the frame-boost flag: for a
    callback these are the flags of its own event, for [waltgov_limits]
    those the last callback left there. *)
Theorem rate_limit_enforced (E : platform) (st : gov_state) :
  (forall (st' : gov_state) (cpu : nat) (sig : sched_sample)
          (time flags : Z),
      waltgov_update_freq E st cpu sig time flags = Done st' ->
      frameboost_event E flags = false ->
      rate_limited_step (st_policy st) (st_policy st') time) /\
  (forall now : Z,
      def_frameboost E (st_policy st) = false ->
      rate_limited_step (st_policy st)
        (st_policy (waltgov_limits E st now)) now).
Proof.
  split; [|intros now; apply waltgov_limits_limited].
  intros st' cpu sig time flags Hrun Hfb.
  unfold waltgov_update_freq in Hrun.
  destruct (_ && _).
  { injection Hrun as <-. unfold rate_limited_step. lia. }
  cbv zeta in Hrun.
  pose proof (prologue_view E (st_policy st)
                (sampled_cpu E (st_percpu st !!! cpu) sig flags) flags)
    as (Hnf & Hlast & Hup & Hdown & _ & _ & Hfbq).
  cbv zeta in Hnf, Hlast, Hup, Hdown, Hfbq.
  set (q := refresh_max E _ _) in *.
  destruct (waltgov_calc_avg_cap E q _ _) as [q1|] eqn:Hcalc;
    [|discriminate].
  apply calc_avg_cap_view in Hcalc. destruct Hcalc as (Hv1 & _ & _).
  pose proof (should_update_freq_view E q1 time) as Hv2.
  destruct (waltgov_should_update_freq E q1 time) as [due q2].
  simpl in Hv2.
  assert (Hview : rate_view q2 = rate_view q) by congruence.
  apply (rate_limited_step_fields _ q _ _ Hnf Hlast Hup Hdown).
  apply (rate_limited_step_view _ q2 _ _ Hview).
  destruct (due && _); injection Hrun as <-.
  - match goal with
    | |- rate_limited_step _ (st_policy (waltgov_commit E ?s ?t)) _ =>
        apply (waltgov_commit_limited E s t)
    end.
    simpl. rewrite (def_frameboost_view E _ _ Hview). congruence.
  - simpl. unfold rate_limited_step. lia.
Qed.

Lemma rate_limit_enforced_witness :
  (waltgov_update_freq example_platform limits_changed_state 0 busy_sample
     1000000 0
   = Done
       {| st_policy :=
            Policy.set_driving_cpu 3
              (Policy.set_next_freq 1000000 example_policy);
          st_percpu :=
            [Cpu.set_util 1024 (example_slot 0);
             Cpu.set_reasons 32 (example_slot 1);
             Cpu.set_reasons 32 (example_slot 2);
             Cpu.set_reasons 32 (example_slot 3)];
          st_trace := [EvResolveFreq 2500000] |} /\
   frameboost_event example_platform 0 = false /\
   def_frameboost example_platform (st_policy limits_changed_state) = false)
  /\
  rate_limited_step (st_policy limits_changed_state)
    (Policy.set_driving_cpu 3 (Policy.set_next_freq 1000000 example_policy))
    1000000 /\
  rate_limited_step (st_policy limits_changed_state)
    (st_policy (waltgov_limits example_platform limits_changed_state 1000000))
    1000000.
Proof.
  assert (Hrun : waltgov_update_freq example_platform limits_changed_state 0
                   busy_sample 1000000 0
                 = Done
                     {| st_policy :=
                          Policy.set_driving_cpu 3
                            (Policy.set_next_freq 1000000 example_policy);
                        st_percpu :=
                          [Cpu.set_util 1024 (example_slot 0);
                           Cpu.set_reasons 32 (example_slot 1);
                           Cpu.set_reasons 32 (example_slot 2);
                           Cpu.set_reasons 32 (example_slot 3)];
                        st_trace := [EvResolveFreq 2500000] |})
    by (vm_compute; reflexivity).
  destruct (rate_limit_enforced example_platform limits_changed_state)
    as [Hcb Hlim].
  split; [split; [exact Hrun|split; reflexivity]|].
  split.
  - exact (Hcb _ 0%nat busy_sample 1000000 0 Hrun eq_refl).
  - exact (Hlim 1000000 eq_refl).
Defined.

(** C1 as first stated fails in its exception: with [limits_changed] set,
    a callback 1 ms after the last commit resolves 2.5 GHz for a fully
    loaded CPU, and the up-rate limit of 20 ms still keeps [next_freq] at
    1 GHz. *)
Lemma rate_limit_with_exception_fails :
  ~ rate_limit_with_exception example_platform.
Proof.
  intros H.
  destruct (waltgov_update_freq example_platform limits_changed_state 0
              busy_sample 1000000 0) as [st'|] eqn:Hrun;
    [|vm_compute in Hrun; discriminate Hrun].
  destruct (H _ _ _ _ _ _ Hrun) as [_ Hex].
  vm_compute in Hrun. injection Hrun as <-.
  specialize (Hex eq_refl 2500000 [] eq_refl).
  vm_compute in Hex. discriminate Hex.
Qed.

(** The exception of the frame-boost build reaches [waltgov_limits]: with
    the frame-boost flag left in the domain by the last callback, a limits
    notification 1 ms after the commit lowers [next_freq] from 2 GHz to
    1.5 GHz, inside the down-rate limit of 20 ms. *)
Lemma frame_boost_lifts_rate_limit :
  let E := with_frame_boost example_platform in
  let p := st_policy frame_boosted_state in
  def_frameboost E p = true /\
  elapsed_ns p 51000000 < Policy.down_rate_delay_ns p /\
  Policy.next_freq p = 2000000 /\
  Policy.next_freq (st_policy (waltgov_limits E frame_boosted_state 51000000))
  = 1500000.
Proof. cbv zeta. split; [|split; [|split]]; by_eval. Qed.

(** ** Boost scaling in the aggregation *)

Lemma boosted_floor (boost x : Z) :
  boost <> 0 -> -100 <= boost <= 1000 ->
  0 <= x -> x * (boost + 100) < 2 ^ 64 ->
  boosted boost x = x * (boost + 100) / 100.
Proof.
  intros Hnz Hb Hx Hfit. unfold boosted.
  destruct (Z.eqb_spec boost 0) as [H0|_]; [contradiction|]. simpl.
  apply mult_frac_floor; lia.
Qed.

Lemma pick_driving_first (a : agg) (j : nat) (j_util j_max : Z) :
  agg_util a = 0 ->
  pick_driving a j j_util j_max
  = {| agg_util := j_util; agg_max := j_max;
       agg_policy := Policy.set_driving_cpu j (agg_policy a);
       agg_percpu := agg_percpu a |}.
Proof.
  intros H0. unfold pick_driving. rewrite H0, Z.mul_0_r.
  change (u64 0) with 0.
  destruct (Z.geb_spec (u64 (j_util * agg_max a)) 0) as [_|Hlt];
    [reflexivity|].
  pose proof (u64_range (j_util * agg_max a)). lia.
Qed.

(** C4 (as amended).  With a non-zero boost in its range, the loop scales
    the utilization and the new-task load of every CPU to the product
    with [boost + 100] divided by 100, rounded down, and these are the
    values the driving-CPU comparison and the override chain get.  For the
    first CPU looked at, the scaled utilization is the driving
    utilization before overrides.  With boost 50 it is [3 * U / 2] rounded
    down: one and a half times [U] for even [U], half a unit less for odd
    [U]. *)
Theorem boost_scaling (E : platform) (a : agg) (j : nat) :
  let boost := Tunables.boost (Policy.tunables (agg_policy a)) in
  let wg_cpu := agg_percpu a !!! j in
  let U := Cpu.util wg_cpu in
  let NL := Load.nl (Cpu.walt_load wg_cpu) in
  let scaled x := x * (boost + 100) / 100 in
  boost <> 0 -> -100 <= boost <= 1000 ->
  0 <= U -> U * (boost + 100) < 2 ^ 64 ->
  0 <= NL -> NL * (boost + 100) < 2 ^ 64 ->
  boosted_util a j = scaled U /\
  boosted_nl a j = scaled NL /\
  shared_pick a j = pick_driving a j (scaled U) (Cpu.max wg_cpu) /\
  (let a' := shared_pick a j in
   let s :=
     waltgov_walt_adjust E wg_cpu (agg_policy a') (scaled U) (scaled NL)
       (agg_util a') (agg_max a') in
   shared_step E a j
   = {| agg_util := cur_util s; agg_max := agg_max a';
        agg_policy := adj_policy s;
        agg_percpu := <[j := adj_cpu s]> (agg_percpu a') |}) /\
  (agg_util a = 0 ->
   agg_util (shared_pick a j) = scaled U /\
   Policy.driving_cpu (agg_policy (shared_pick a j)) = j) /\
  (boost = 50 ->
   boosted_util a j = 3 * U / 2 /\
   2 * boosted_util a j = 3 * U - U mod 2).
Proof.
  intros boost wg_cpu U NL scaled Hnz Hb HU HUfit HNL HNLfit.
  assert (Hu : boosted_util a j = scaled U)
    by (apply boosted_floor; assumption).
  assert (Hn : boosted_nl a j = scaled NL)
    by (apply boosted_floor; assumption).
  split; [exact Hu|]. split; [exact Hn|].
  split; [unfold shared_pick; rewrite Hu; reflexivity|].
  split; [unfold shared_step; cbv zeta; rewrite Hu, Hn; reflexivity|].
  split.
  - intros H0. unfold shared_pick. rewrite Hu.
    rewrite pick_driving_first by exact H0. split; reflexivity.
  - intros H50. rewrite Hu. unfold scaled. rewrite H50.
    assert (H32 : U * (50 + 100) / 100 = 3 * U / 2).
    { replace (U * (50 + 100)) with (3 * U * 50) by ring.
      change 100 with (2 * 50).
      rewrite Z.div_mul_cancel_r by lia. reflexivity. }
    rewrite H32. split; [reflexivity|].
    pose proof (Z.div_mod (3 * U) 2 ltac:(lia)) as Hdm.
    assert (Hpar : (3 * U) mod 2 = U mod 2).
    { replace (3 * U) with (U + U * 2) by ring.
      apply Z.mod_add. lia. }
    lia.
Qed.

Lemma boost_scaling_witness :
  (Tunables.boost (Policy.tunables boost_50_policy) <> 0 /\
   -100 <= Tunables.boost (Policy.tunables boost_50_policy) <= 1000 /\
   Tunables.boost (Policy.tunables boost_50_policy) = 50) /\
  boosted_util (agg_init boost_50_policy boost_50_percpu) 0 = 4 /\
  agg_util (shared_pick (agg_init boost_50_policy boost_50_percpu) 0) = 4 /\
  boosted_util
    (agg_init boost_50_policy
       [Cpu.set_util 600 (example_slot 0)]) 0 = 900.
Proof.
  assert (Hb : Tunables.boost (Policy.tunables boost_50_policy) = 50)
    by reflexivity.
  split; [split; [rewrite Hb; lia|split; [rewrite Hb; lia|exact Hb]]|].
  pose proof (boost_scaling example_platform
                (agg_init boost_50_policy boost_50_percpu) 0%nat) as H3.
  pose proof (boost_scaling example_platform
                (agg_init boost_50_policy
                   [Cpu.set_util 600 (example_slot 0)]) 0%nat) as H600.
  cbv zeta in H3, H600.
  destruct H3 as (Hu & _ & _ & _ & Hfirst & _); try by_eval.
  destruct H600 as (Hu600 & _); try by_eval.
  split; [rewrite Hu; reflexivity|].
  split; [rewrite (proj1 (Hfirst eq_refl)); reflexivity|].
  rewrite Hu600. reflexivity.
Defined.

(** C4 as first stated fails on rounding: utilization 3 under boost 50
    becomes 4, not 4.5. *)
Lemma boost_50_exact_fails : ~ boost_50_exact.
Proof.
  intros H.
  specialize (H boost_50_policy boost_50_percpu 0%nat eq_refl).
  assert (Hr : 0 <= Cpu.util (boost_50_percpu !!! 0%nat) < 2 ^ 32)
    by (vm_compute; split; congruence).
  specialize (H Hr). vm_compute in H. discriminate H.
Qed.

(** ** The override chain *)

Lemma max_and_reason_cases (s : adj) (boost_util reason : Z) :
  (boost_util <> 0 /\ cur_util s <= boost_util /\
   max_and_reason s boost_util reason
   = {| cur_util := boost_util;
        adj_cpu := Cpu.set_reasons reason (adj_cpu s);
        adj_policy :=
          Policy.set_driving_cpu (Cpu.cpu (adj_cpu s)) (adj_policy s) |}) \/
  ((boost_util = 0 \/ boost_util < cur_util s) /\
   max_and_reason s boost_util reason = s).
Proof.
  unfold max_and_reason.
  destruct (Z.eqb_spec boost_util 0) as [H0|Hnz]; simpl.
  - right. split; [left; exact H0|reflexivity].
  - destruct (Z.geb_spec boost_util (cur_util s)) as [Hge|Hlt].
    + left. split; [exact Hnz|split; [lia|reflexivity]].
    + right. split; [right; lia|reflexivity].
Qed.

(** With only the hispeed rule able to fire, the chain is one
    [max_and_reason] against [hispeed_util], or nothing. *)
Lemma walt_adjust_hispeed_only (E : platform) (wg_cpu : waltgov_cpu)
    (wg_policy : waltgov_policy) (cpu_util nl util max : Z) :
  hispeed_only E wg_cpu wg_policy cpu_util nl ->
  waltgov_walt_adjust E wg_cpu wg_policy cpu_util nl util max
  = set_newtask_flag E 0
      (let s := {| cur_util := util; adj_cpu := wg_cpu;
                   adj_policy := wg_policy |} in
       if is_hiload wg_policy cpu_util && negb (is_migration E wg_cpu)
       then max_and_reason s (Policy.hispeed_util wg_policy)
              (CPUFREQ_REASON_HISPEED E)
       else s).
Proof.
  intros (Hed & Hrtg & Hnl & Hpl & Hbtr).
  unfold waltgov_walt_adjust, ed_scaled. cbv zeta.
  rewrite Hed, Hrtg, Hpl, Hbtr.
  destruct (Z.geb_spec nl (mult_frac cpu_util NL_RATIO 100)) as [Hge|_];
    [lia|].
  rewrite andb_false_r. reflexivity.
Qed.

(** C6 (as amended).  With [hispeed_load] 90 and an average capacity of
    1,000,000, a CPU at 950,000 that is not migrating meets the hispeed
    threshold of 900,000.  With no other override able to fire, the
    driving utilization becomes [hispeed_util], with reason HISPEED and
    this CPU as the driving one, when [hispeed_util] is non-zero and not
    below the running maximum; otherwise the running maximum stays and no
    reason is written. *)
Theorem hispeed_override (E : platform) (wg_cpu : waltgov_cpu)
    (wg_policy : waltgov_policy) (nl util max : Z) :
  let s := waltgov_walt_adjust E wg_cpu wg_policy 950000 nl util max in
  Tunables.hispeed_load (Policy.tunables wg_policy) = 90 ->
  Policy.avg_cap wg_policy = 1000000 ->
  is_migration E wg_cpu = false ->
  hispeed_only E wg_cpu wg_policy 950000 nl ->
  mult_frac (Policy.avg_cap wg_policy)
    (Tunables.hispeed_load (Policy.tunables wg_policy)) 100 = 900000 /\
  is_hiload wg_policy 950000 = true /\
  (Policy.hispeed_util wg_policy <> 0 ->
   util <= Policy.hispeed_util wg_policy ->
   cur_util s = Policy.hispeed_util wg_policy /\
   Cpu.reasons (adj_cpu s) = CPUFREQ_REASON_HISPEED E /\
   Policy.driving_cpu (adj_policy s) = Cpu.cpu wg_cpu) /\
  (Policy.hispeed_util wg_policy = 0 \/
   Policy.hispeed_util wg_policy < util ->
   cur_util s = util /\
   adj_cpu s = wg_cpu /\
   Policy.driving_cpu (adj_policy s) = Policy.driving_cpu wg_policy).
Proof.
  intros s Hload Hcap Hmig Honly.
  assert (Hthr : mult_frac (Policy.avg_cap wg_policy)
                   (Tunables.hispeed_load (Policy.tunables wg_policy)) 100
                 = 900000) by (rewrite Hload, Hcap; reflexivity).
  assert (Hhi : is_hiload wg_policy 950000 = true)
    by (unfold is_hiload; rewrite Hthr; reflexivity).
  split; [exact Hthr|]. split; [exact Hhi|].
  subst s. rewrite (walt_adjust_hispeed_only E _ _ _ _ _ _ Honly).
  rewrite Hhi, Hmig. cbv zeta. simpl andb. cbv iota.
  match goal with
  | |- context [max_and_reason ?s0 ?b ?r] =>
      destruct (max_and_reason_cases s0 b r)
        as [(Hnz & Hle & ->)|(Hno & ->)]
  end; simpl in *; unfold set_newtask_flag;
    destruct (CONFIG_OPLUS_FEATURE_OCH E); simpl; split; intros; try lia;
    repeat split; lia.
Qed.

Lemma hispeed_override_witness :
  (Tunables.hispeed_load (Policy.tunables (hispeed_policy 960000)) = 90 /\
   Policy.avg_cap (hispeed_policy 960000) = 1000000 /\
   is_migration example_platform (example_slot 2) = false /\
   hispeed_only example_platform (example_slot 2) (hispeed_policy 960000)
     950000 0 /\
   Policy.hispeed_util (hispeed_policy 960000) <> 0 /\
   950000 <= Policy.hispeed_util (hispeed_policy 960000)) /\
  is_hiload (hispeed_policy 960000) 950000 = true /\
  cur_util
    (waltgov_walt_adjust example_platform (example_slot 2)
       (hispeed_policy 960000) 950000 0 950000 1200000) = 960000 /\
  Cpu.reasons
    (adj_cpu
       (waltgov_walt_adjust example_platform (example_slot 2)
          (hispeed_policy 960000) 950000 0 950000 1200000))
  = CPUFREQ_REASON_HISPEED example_platform /\
  Policy.driving_cpu
    (adj_policy
       (waltgov_walt_adjust example_platform (example_slot 2)
          (hispeed_policy 960000) 950000 0 950000 1200000)) = 2%nat.
Proof.
  assert (Honly : hispeed_only example_platform (example_slot 2)
                    (hispeed_policy 960000) 950000 0)
    by (repeat split; reflexivity).
  assert (Hnz : Policy.hispeed_util (hispeed_policy 960000) <> 0)
    by by_eval.
  assert (Hle : 950000 <= Policy.hispeed_util (hispeed_policy 960000))
    by by_eval.
  destruct (hispeed_override example_platform (example_slot 2)
              (hispeed_policy 960000) 0 950000 1200000
              eq_refl eq_refl eq_refl Honly) as (_ & Hhi & Hwin & _).
  destruct (Hwin Hnz Hle) as (Hutil & Hreason & Hdrv).
  split; [repeat split; first [reflexivity|assumption]|].
  split; [exact Hhi|].
  split; [exact Hutil|split; [exact Hreason|exact Hdrv]].
Defined.

(** C6 as first stated fails where [hispeed_util] is below the running
    maximum: with [hispeed_util] 500,000 the threshold is met and the
    driving utilization stays 950,000. *)
Lemma hispeed_replaces_fails : ~ hispeed_replaces example_platform.
Proof.
  intros H.
  assert (Honly : hispeed_only example_platform (example_slot 2)
                    (hispeed_policy 500000) 950000 0)
    by (repeat split; reflexivity).
  destruct (H (example_slot 2) (hispeed_policy 500000) 0 1200000
              eq_refl eq_refl eq_refl Honly) as [_ Hutil].
  vm_compute in Hutil. discriminate Hutil.
Qed.





(** Early detection next to a later winner: predicted load wins last and
    the slot holds both bits. *)
Lemma early_detection_joins_predicted_load :
  let s :=
    waltgov_walt_adjust (with_ed_boost_pct 10 example_platform) ed_pl_slot
      pl_policy 100 0 100 1024 in
  cur_util s = 2000 /\
  Cpu.reasons (adj_cpu s)
  = Z.lor (CPUFREQ_REASON_PL example_platform)
      (CPUFREQ_REASON_EARLY_DET example_platform).
Proof. split; reflexivity. Qed.

(** ** The kernel-origin adaptive frequency API *)

Lemma domain_of_insert (s : system) (cpu d : nat)
    (wg_policy wg_policy' : waltgov_policy) :
  domain_of s cpu = Some (d, wg_policy) ->
  domain_of
    {| sys_percpu := sys_percpu s;
       sys_domains := <[d := wg_policy']> (sys_domains s) |} cpu
  = Some (d, wg_policy').
Proof.
  unfold domain_of. simpl.
  destruct (sys_percpu s !! cpu) as [wg_cpu|]; [|discriminate].
  destruct (Cpu.wg_policy wg_cpu) as [d'|]; [|discriminate].
  destruct (sys_domains s !! d') as [q|] eqn:Hq; [|discriminate].
  intros H. injection H as -> ->.
  rewrite list_lookup_insert_eq; [reflexivity|].
  apply lookup_lt_Some in Hq. exact Hq.
Qed.

(** The tests of [cpufreq_walt_set_adaptive_freq], for a CPU whose slot
    points at an attached domain: 0 exactly when the low frequency asked
    for is at least the policy minimum and the high one at most the policy
    maximum, and [-EINVAL] otherwise.  On 0 the two kernel bounds of the
    domain hold the values asked for and nothing else changed; on an error
    the system is as it was.  The test of [cpu_possible] comes after the
    slot has been followed. *)
Lemma set_adaptive_freq_checked (E : platform) (s : system) (cpu : nat)
    (adaptive_low_freq adaptive_high_freq : Z) (d : nat)
    (wg_policy : waltgov_policy) :
  domain_of s cpu = Some (d, wg_policy) ->
  let policy := Policy.policy wg_policy in
  let in_range :=
    CpufreqPolicy.min policy <= adaptive_low_freq /\
    adaptive_high_freq <= CpufreqPolicy.max policy in
  exists (ret : Z) (s' : system),
    cpufreq_walt_set_adaptive_freq E s cpu adaptive_low_freq
      adaptive_high_freq = Some (ret, s') /\
    (cpu_possible E cpu = false -> ret = - EFAULT /\ s' = s) /\
    (cpu_possible E cpu = true ->
     (ret = 0 <-> in_range) /\
     (ret = 0 ->
      sys_percpu s' = sys_percpu s /\
      sys_domains s'
      = <[d := set_kernel_band adaptive_low_freq adaptive_high_freq
                 wg_policy]> (sys_domains s) /\
      exists wg_policy',
        domain_of s' cpu = Some (d, wg_policy') /\
        Tunables.adaptive_low_freq_kernel (Policy.tunables wg_policy')
        = adaptive_low_freq /\
        Tunables.adaptive_high_freq_kernel (Policy.tunables wg_policy')
        = adaptive_high_freq /\
        Tunables.adaptive_low_freq (Policy.tunables wg_policy')
        = Tunables.adaptive_low_freq (Policy.tunables wg_policy) /\
        Tunables.adaptive_high_freq (Policy.tunables wg_policy')
        = Tunables.adaptive_high_freq (Policy.tunables wg_policy)) /\
     (ret <> 0 -> ret = - EINVAL /\ s' = s)).
Proof.
  intros Hdom policy in_range.
  unfold cpufreq_walt_set_adaptive_freq. rewrite Hdom. fold policy.
  destruct (cpu_possible E cpu) eqn:Hposs; simpl negb; cbv iota.
  - destruct (Z.leb_spec (CpufreqPolicy.min policy) adaptive_low_freq)
      as [Hlo|Hlo];
      destruct (Z.geb_spec (CpufreqPolicy.max policy) adaptive_high_freq)
        as [Hhi|Hhi]; simpl andb; cbv iota;
      eexists; eexists; (split; [reflexivity|]);
      (split; [discriminate|]); intros _; subst in_range.
    + split; [split; [intros _; lia|reflexivity]|].
      split; [|intros Hne; contradiction].
      intros _. simpl. split; [reflexivity|split; [reflexivity|]].
      eexists. split; [apply (domain_of_insert s cpu d wg_policy); exact Hdom|].
      repeat split.
    + split; [split; [discriminate|lia]|].
      split; [discriminate|]. intros _. split; reflexivity.
    + split; [split; [discriminate|lia]|].
      split; [discriminate|]. intros _. split; reflexivity.
    + split; [split; [discriminate|lia]|].
      split; [discriminate|]. intros _. split; reflexivity.
  - eexists; eexists. split; [reflexivity|].
    split; [intros _; split; reflexivity|discriminate].
Qed.

(** C8.  [cpufreq_walt_set_adaptive_freq] follows the slot of the CPU to
    its domain and the cpufreq policy before it tests [cpu_possible].
    Where only possible CPUs have an attached slot, which is all
    [waltgov_start] ever attaches, a call for a CPU that is not possible
    does not return: it follows a pointer that was never set.  A call that
    returns gives 0 or [-EINVAL], never [-EFAULT]. *)
Theorem set_adaptive_freq_efault_unreachable (E : platform) (s : system)
    (cpu : nat) (adaptive_low_freq adaptive_high_freq : Z) :
  attached_are_possible E s ->
  (cpu_possible E cpu = false ->
   cpufreq_walt_set_adaptive_freq E s cpu adaptive_low_freq
     adaptive_high_freq = None) /\
  (forall (ret : Z) (s' : system),
      cpufreq_walt_set_adaptive_freq E s cpu adaptive_low_freq
        adaptive_high_freq = Some (ret, s') ->
      cpu_possible E cpu = true /\ (ret = 0 \/ ret = - EINVAL)).
Proof.
  intros Hatt. split.
  - intros Hposs. unfold cpufreq_walt_set_adaptive_freq.
    rewrite (Hatt cpu Hposs). reflexivity.
  - intros ret s' Hrun.
    destruct (cpu_possible E cpu) eqn:Hposs.
    + split; [reflexivity|].
      unfold cpufreq_walt_set_adaptive_freq in Hrun.
      destruct (domain_of s cpu) as [[d wg_policy]|]; [|discriminate].
      rewrite Hposs in Hrun. simpl negb in Hrun. cbv iota in Hrun.
      destruct (_ && _); injection Hrun as <- _;
        [left|right]; reflexivity.
    + unfold cpufreq_walt_set_adaptive_freq in Hrun.
      rewrite (Hatt cpu Hposs) in Hrun. discriminate.
Qed.

Lemma set_adaptive_freq_efault_unreachable_witness :
  attached_are_possible example_platform example_system /\
  cpu_possible example_platform 8 = false /\
  cpufreq_walt_set_adaptive_freq example_platform example_system 8
    500000 1200000 = None.
Proof.
  assert (Hatt : attached_are_possible example_platform example_system).
  { intros cpu Hposs. unfold domain_of.
    assert (Hge : (8 <= cpu)%nat).
    { simpl in Hposs. apply Nat.ltb_ge in Hposs. exact Hposs. }
    rewrite (proj2 (lookup_ge_None (sys_percpu example_system) cpu));
      [reflexivity|exact Hge]. }
  split; [exact Hatt|]. split; [reflexivity|].
  exact (proj1 (set_adaptive_freq_efault_unreachable example_platform
                  example_system 8 500000 1200000 Hatt) eq_refl).
Defined.

(** * Further properties of the governor *)

(** ** Cycle tracking *)

Lemma track_cycles_fields (E : platform) (p : waltgov_policy)
    (prev_freq upto : Z) :
  let q := waltgov_track_cycles E p prev_freq upto in
  Policy.last_ws q = Policy.last_ws p /\
  Policy.policy q = Policy.policy p /\
  Policy.max q = Policy.max p /\
  Policy.last_cyc_update_time q
  = Z.min upto (u64 (Policy.last_ws p + sched_ravg_window E)).
Proof. repeat split. Qed.

(** X1.  Tracking never runs past the end of the current window: once a
    call has reached the window end, [last_cyc_update_time] rests there
    and further calls, at whatever frequency and time at or after the
    window end, add no cycles. *)
Theorem track_cycles_stops_at_window_end (E : platform) (p : waltgov_policy)
    (F F' upto upto' : Z) :
  let next_ws := Policy.last_ws p + sched_ravg_window E in
  let p1 := waltgov_track_cycles E p F upto in
  let p2 := waltgov_track_cycles E p1 F' upto' in
  0 <= next_ws < 2 ^ 64 ->
  next_ws <= upto -> next_ws <= upto' ->
  Policy.last_cyc_update_time p1 = next_ws /\
  Policy.last_cyc_update_time p2 = next_ws /\
  Policy.curr_cycles p2 = Policy.curr_cycles p1.
Proof.
  intros next_ws p1 p2 Hrange Hupto Hupto'.
  assert (H1 : Policy.last_cyc_update_time p1 = next_ws).
  { subst p1. rewrite (proj2 (proj2 (proj2 (track_cycles_fields E p F upto)))).
    fold next_ws. rewrite (u64_small next_ws) by exact Hrange. lia. }
  assert (Hws : Policy.last_ws p1 = Policy.last_ws p) by reflexivity.
  assert (Hc1 : 0 <= Policy.curr_cycles p1 < 2 ^ 64)
    by (subst p1; unfold waltgov_track_cycles; simpl; apply u64_range).
  assert (Hc2 : Policy.curr_cycles p2
                = u64 (Policy.curr_cycles p1
                       + u64 (u64 (Z.min upto'
                                     (u64 (Policy.last_ws p1
                                           + sched_ravg_window E))
                                   - Policy.last_cyc_update_time p1) * F')
                         / (NSEC_PER_SEC / KHZ))) by reflexivity.
  assert (Ht2 : Policy.last_cyc_update_time p2
                = Z.min upto' (u64 (Policy.last_ws p1 + sched_ravg_window E)))
    by reflexivity.
  clearbody p1 p2.
  rewrite Hws in Hc2, Ht2. fold next_ws in Hc2, Ht2.
  rewrite (u64_small next_ws) in Hc2, Ht2 by exact Hrange.
  replace (Z.min upto' next_ws) with next_ws in Hc2, Ht2 by lia.
  rewrite H1, Z.sub_diag in Hc2. change (u64 0) with 0 in Hc2.
  rewrite Z.mul_0_l in Hc2.
  change (u64 0 / (NSEC_PER_SEC / KHZ)) with 0 in Hc2.
  rewrite Z.add_0_r, (u64_small _ Hc1) in Hc2.
  split; [exact H1|split; [exact Ht2|exact Hc2]].
Qed.

Lemma track_cycles_stops_at_window_end_witness :
  (0 <= Policy.last_ws mid_window_policy
        + sched_ravg_window example_platform < 2 ^ 64 /\
   Policy.last_ws mid_window_policy + sched_ravg_window example_platform
   <= 12500000 /\
   Policy.last_ws mid_window_policy + sched_ravg_window example_platform
   <= 13000000) /\
  Policy.curr_cycles
    (waltgov_track_cycles example_platform mid_window_policy 1500000
       12500000) = 6000000 /\
  Policy.curr_cycles
    (waltgov_track_cycles example_platform
       (waltgov_track_cycles example_platform mid_window_policy 1500000
          12500000) 2000000 13000000) = 6000000.
Proof.
  split; [repeat split; by_eval|].
  split; [reflexivity|].
  rewrite (proj2 (proj2 (track_cycles_stops_at_window_end example_platform
                           mid_window_policy 1500000 2000000 12500000
                           13000000 ltac:(by_eval) ltac:(by_eval)
                           ltac:(by_eval)))).
  reflexivity.
Defined.

(** Cycles counted over [delta] nanoseconds at frequency [F]. *)
Lemma track_cycles_in_window (E : platform) (p : waltgov_policy)
    (F upto : Z) :
  0 <= Policy.last_ws p + sched_ravg_window E < 2 ^ 64 ->
  0 <= Policy.last_cyc_update_time p <= upto ->
  upto <= Policy.last_ws p + sched_ravg_window E ->
  0 <= F -> (upto - Policy.last_cyc_update_time p) * F < 2 ^ 64 ->
  0 <= Policy.curr_cycles p ->
  Policy.curr_cycles p
  + (upto - Policy.last_cyc_update_time p) * F / 1000000 < 2 ^ 64 ->
  let q := waltgov_track_cycles E p F upto in
  Policy.curr_cycles q
  = Policy.curr_cycles p
    + (upto - Policy.last_cyc_update_time p) * F / 1000000 /\
  Policy.last_cyc_update_time q = upto.
Proof.
  intros Hws Hlast Hupto HF Hmul Hcyc Hsum q. subst q.
  unfold waltgov_track_cycles. simpl.
  rewrite (u64_small (Policy.last_ws p + _)) by exact Hws.
  replace (Z.min upto (Policy.last_ws p + sched_ravg_window E))
    with upto by lia.
  rewrite (u64_small (upto - _)) by lia.
  rewrite (u64_small ((upto - _) * F)) by nia.
  change (NSEC_PER_SEC / KHZ) with 1000000.
  split; [|reflexivity].
  apply u64_small.
  assert (0 <= (upto - Policy.last_cyc_update_time p) * F / 1000000)
    by (apply Z.div_pos; nia).
  lia.
Qed.

(** X2.  Tracking a stretch of a window in two pieces at one frequency
    never counts more cycles than tracking it in one piece, and loses at
    most one cycle unit to rounding. *)
Theorem track_cycles_split (E : platform) (p : waltgov_policy)
    (F t1 t2 : Z) :
  let whole := waltgov_track_cycles E p F t2 in
  let pieces :=
    waltgov_track_cycles E (waltgov_track_cycles E p F t1) F t2 in
  0 <= Policy.last_ws p + sched_ravg_window E < 2 ^ 64 ->
  0 <= Policy.last_cyc_update_time p <= t1 -> t1 <= t2 ->
  t2 <= Policy.last_ws p + sched_ravg_window E ->
  0 <= F -> (t2 - Policy.last_cyc_update_time p) * F < 2 ^ 64 ->
  0 <= Policy.curr_cycles p ->
  Policy.curr_cycles p
  + (t2 - Policy.last_cyc_update_time p) * F / 1000000 < 2 ^ 64 ->
  Policy.curr_cycles pieces <= Policy.curr_cycles whole
  <= Policy.curr_cycles pieces + 1 /\
  Policy.last_cyc_update_time pieces = Policy.last_cyc_update_time whole.
Proof.
  intros whole pieces Hws Hlast H12 Ht2 HF Hmul Hcyc Hsum.
  set (t0 := Policy.last_cyc_update_time p) in *.
  set (a := (t1 - t0) * F). set (b := (t2 - t1) * F).
  assert (Hab : (t2 - t0) * F = a + b) by (subst a b; ring).
  assert (Ha : 0 <= a) by (subst a; nia).
  assert (Hb : 0 <= b) by (subst b; nia).
  assert (Hsplit : a / 1000000 + b / 1000000 <= (a + b) / 1000000
                   <= a / 1000000 + b / 1000000 + 1).
  { pose proof (Z.div_mod a 1000000 ltac:(lia)).
    pose proof (Z.div_mod b 1000000 ltac:(lia)).
    pose proof (Z.mod_pos_bound a 1000000 ltac:(lia)).
    pose proof (Z.mod_pos_bound b 1000000 ltac:(lia)).
    split.
    - apply Z.div_le_lower_bound; lia.
    - assert ((a + b) / 1000000 < a / 1000000 + b / 1000000 + 2); [|lia].
      apply Z.div_lt_upper_bound; lia. }
  rewrite Hab in Hsum, Hmul.
  destruct (track_cycles_in_window E p F t2) as [Hw Hwt];
    try (fold t0; rewrite ?Hab); try lia.
  fold whole in Hw, Hwt. fold t0 in Hw. rewrite Hab in Hw.
  assert (Ha0 : 0 <= a / 1000000) by (apply Z.div_pos; lia).
  assert (Hb0 : 0 <= b / 1000000) by (apply Z.div_pos; lia).
  destruct (track_cycles_in_window E p F t1) as [H1 H1t];
    try (fold t0; fold a); try lia.
  fold t0 in H1. fold a in H1.
  set (p1 := waltgov_track_cycles E p F t1) in *.
  destruct (track_cycles_in_window E p1 F t2) as [H2 H2t];
    try (rewrite ?H1t, ?H1; fold b); try (subst p1; simpl; lia); try lia.
  fold pieces in H2, H2t. rewrite H1t, H1 in H2. fold b in H2.
  rewrite Hw, H2, Hwt, H2t. split; [lia|reflexivity].
Qed.

Lemma track_cycles_split_witness :
  (0 <= Policy.last_ws mid_window_policy
        + sched_ravg_window example_platform < 2 ^ 64 /\
   0 <= Policy.last_cyc_update_time mid_window_policy <= 10000001 /\
   10000001 <= 11000000 /\
   11000000 <= Policy.last_ws mid_window_policy
               + sched_ravg_window example_platform /\
   0 <= 1500001 /\
   (11000000 - Policy.last_cyc_update_time mid_window_policy) * 1500001
   < 2 ^ 64 /\
   0 <= Policy.curr_cycles mid_window_policy /\
   Policy.curr_cycles mid_window_policy
   + (11000000 - Policy.last_cyc_update_time mid_window_policy) * 1500001
     / 1000000 < 2 ^ 64) /\
  Policy.curr_cycles
    (waltgov_track_cycles example_platform mid_window_policy 1500001
       11000000) = 4500001 /\
  Policy.curr_cycles
    (waltgov_track_cycles example_platform
       (waltgov_track_cycles example_platform mid_window_policy 1500001
          10000001) 1500001 11000000) = 4500000.
Proof.
  pose proof (track_cycles_split example_platform mid_window_policy 1500001
                10000001 11000000 ltac:(by_eval) ltac:(by_eval)
                ltac:(by_eval) ltac:(by_eval) ltac:(by_eval) ltac:(by_eval)
                ltac:(by_eval) ltac:(by_eval)) as [Hbound _].
  split; [repeat split; by_eval|].
  split; [reflexivity|].
  assert (Hwhole : Policy.curr_cycles
                     (waltgov_track_cycles example_platform
                        mid_window_policy 1500001 11000000) = 4500001)
    by reflexivity.
  rewrite Hwhole in Hbound.
  assert (Hpieces : Policy.curr_cycles
                      (waltgov_track_cycles example_platform
                         (waltgov_track_cycles example_platform
                            mid_window_policy 1500001 10000001) 1500001
                         11000000) = 4500000) by reflexivity.
  exact Hpieces.
Defined.

(** ** Capacity of a frequency *)

Lemma freq_to_util_floor (p : waltgov_policy) (x : Z) :
  let fmax := CpufreqPolicy.cpuinfo_max_freq (Policy.policy p) in
  0 <= Policy.max p -> 0 < fmax < 2 ^ 64 ->
  Policy.max p * fmax < 2 ^ 64 -> 0 <= x <= fmax ->
  freq_to_util p x = Policy.max p * x / fmax /\
  0 <= freq_to_util p x <= Policy.max p.
Proof.
  intros fmax Hcap Hfmax Hfit Hx. unfold freq_to_util. fold fmax.
  rewrite mult_frac_floor by nia.
  split; [reflexivity|]. split.
  - apply Z.div_pos; nia.
  - apply Z.div_le_upper_bound; nia.
Qed.

(** X3.  [freq_to_util] maps the frequency range onto the capacity range:
    it is monotone, gives 0 for frequency 0 and the domain's capacity for
    [cpuinfo.max_freq], so a frequency within the range never maps above
    the capacity. *)
Theorem freq_to_util_range (p : waltgov_policy) (f g : Z) :
  let fmax := CpufreqPolicy.cpuinfo_max_freq (Policy.policy p) in
  0 <= Policy.max p -> 0 < fmax < 2 ^ 64 ->
  Policy.max p * fmax < 2 ^ 64 ->
  0 <= f <= g -> g <= fmax ->
  freq_to_util p 0 = 0 /\
  freq_to_util p f <= freq_to_util p g <= Policy.max p /\
  freq_to_util p fmax = Policy.max p.
Proof.
  intros fmax Hcap Hfmax Hfit Hfg Hg.
  destruct (freq_to_util_floor p 0 Hcap Hfmax Hfit ltac:(lia)) as [H0 _].
  destruct (freq_to_util_floor p f Hcap Hfmax Hfit ltac:(lia)) as [Hf _].
  destruct (freq_to_util_floor p g Hcap Hfmax Hfit ltac:(lia))
    as [Hgq [_ Hgle]].
  destruct (freq_to_util_floor p fmax Hcap Hfmax Hfit ltac:(lia))
    as [Hm _].
  fold fmax in H0, Hf, Hgq, Hm.
  split; [rewrite H0, Z.mul_0_r; reflexivity|].
  split; [|rewrite Hm; apply Z.div_mul; lia].
  split; [|exact Hgle].
  rewrite Hf, Hgq. apply Z.div_le_mono; nia.
Qed.

Lemma freq_to_util_range_witness :
  (0 <= Policy.max example_policy /\
   0 < CpufreqPolicy.cpuinfo_max_freq (Policy.policy example_policy)
   < 2 ^ 64 /\
   Policy.max example_policy
   * CpufreqPolicy.cpuinfo_max_freq (Policy.policy example_policy) < 2 ^ 64 /\
   0 <= 1000000 <= 1500000 /\
   1500000 <= CpufreqPolicy.cpuinfo_max_freq (Policy.policy example_policy))
  /\
  freq_to_util example_policy 1000000 <= freq_to_util example_policy 1500000
  <= Policy.max example_policy /\
  freq_to_util example_policy 2000000 = 1024.
Proof.
  pose proof (freq_to_util_range example_policy 1000000 1500000
                ltac:(by_eval) ltac:(by_eval) ltac:(by_eval) ltac:(by_eval)
                ltac:(by_eval)) as (_ & Hmono & Htop).
  split; [repeat split; by_eval|].
  split; [exact Hmono|exact Htop].
Defined.

(** ** The rolling average capacity *)

Lemma track_cycles_keeps_bound (E : platform) (p : waltgov_policy)
    (F upto : Z) :
  let fmax := CpufreqPolicy.cpuinfo_max_freq (Policy.policy p) in
  cycles_bounded E p ->
  0 <= Policy.last_ws p ->
  Policy.last_ws p + sched_ravg_window E < 2 ^ 64 ->
  fmax * sched_ravg_window E < 2 ^ 64 ->
  0 <= F <= fmax ->
  Policy.last_cyc_update_time p <= upto ->
  let q := waltgov_track_cycles E p F upto in
  cycles_bounded E q /\
  Policy.last_cyc_update_time q
  = Z.min upto (Policy.last_ws p + sched_ravg_window E).
Proof.
  intros fmax (Hlast & Hcyc0 & Hcyc) Hws Hsum Hfit HF Hupto q.
  change (NSEC_PER_SEC / KHZ) with 1000000 in *.
  set (W := sched_ravg_window E) in *.
  set (t0 := Policy.last_cyc_update_time p) in *.
  set (t := Z.min upto (Policy.last_ws p + W)).
  assert (Ht : t0 <= t <= Policy.last_ws p + W) by (subst t; lia).
  assert (HW : 0 <= W) by lia.
  assert (Hsame : q = waltgov_track_cycles E p F t).
  { subst q. unfold waltgov_track_cycles. fold W.
    rewrite (u64_small (Policy.last_ws p + W)) by lia. fold t.
    replace (Z.min t (Policy.last_ws p + W)) with t by lia. reflexivity. }
  assert (Hd : 0 <= (t - t0) * F <= (t - t0) * fmax) by nia.
  assert (Hdw : (t - t0) * fmax <= fmax * W) by nia.
  assert (Hq : 0 <= (t - t0) * F / 1000000) by (apply Z.div_pos; lia).
  assert (Hqm : (t - t0) * F / 1000000 * 1000000 <= (t - t0) * F).
  { pose proof (Z.div_mod ((t - t0) * F) 1000000 ltac:(lia)).
    pose proof (Z.mod_pos_bound ((t - t0) * F) 1000000 ltac:(lia)). lia. }
  destruct (track_cycles_in_window E p F t) as [Hc Hl];
    fold W t0; try lia.
  { assert ((t - t0) * F / 1000000 <= (t - t0) * F)
      by (apply Z.div_le_upper_bound; lia).
    nia. }
  rewrite <- Hsame in Hc, Hl. fold t0 in Hc.
  split; [|rewrite Hl; reflexivity].
  unfold cycles_bounded.
  change (NSEC_PER_SEC / KHZ) with 1000000. fold W.
  replace (Policy.last_ws q) with (Policy.last_ws p)
    by (rewrite Hsame; reflexivity).
  replace (Policy.policy q) with (Policy.policy p)
    by (rewrite Hsame; reflexivity).
  fold fmax. rewrite Hl, Hc.
  split; [lia|]. split; [lia|]. nia.
Qed.

(** X4.  The cycle count never gets ahead of the highest frequency, and
    so [avg_cap] never exceeds the capacity of the domain: for a window
    of whole milliseconds and frequencies up to [cpuinfo.max_freq],
    [waltgov_track_cycles] keeps [cycles_bounded] when time does not go
    back, and [waltgov_calc_avg_cap] leaves [avg_cap] at most [max] and
    starts the new window with [cycles_bounded] again. *)
Theorem avg_cap_within_capacity (E : platform) (p p' : waltgov_policy)
    (curr_ws prev_freq : Z) :
  let fmax := CpufreqPolicy.cpuinfo_max_freq (Policy.policy p) in
  waltgov_calc_avg_cap E p curr_ws prev_freq = Done p' ->
  cycles_bounded E p ->
  Policy.avg_cap p <= Policy.max p ->
  sched_ravg_window E mod (NSEC_PER_SEC / KHZ) = 0 ->
  0 < sched_ravg_window E ->
  0 <= Policy.last_ws p -> curr_ws + sched_ravg_window E < 2 ^ 64 ->
  0 < fmax -> fmax * sched_ravg_window E < 2 ^ 64 ->
  0 <= Policy.max p -> Policy.max p * fmax < 2 ^ 64 ->
  0 <= prev_freq <= fmax ->
  Policy.last_cyc_update_time p <= curr_ws ->
  Policy.avg_cap p' <= Policy.max p' /\ cycles_bounded E p'.
Proof.
  intros fmax Hrun Hb Havg Hms HW Hws Hsum Hfmax Hfit Hcap Hcapfit HF Hlast.
  change (NSEC_PER_SEC / KHZ) with 1000000 in *.
  set (W := sched_ravg_window E) in *.
  assert (HWk : W = 1000000 * (W / 1000000)) by (apply Z.div_exact; lia).
  set (k := W / 1000000) in *.
  assert (Hk : 0 < k) by lia.
  assert (Hfmax64 : fmax < 2 ^ 64) by nia.
  unfold waltgov_calc_avg_cap in Hrun.
  destruct (Z.ltb_spec curr_ws (Policy.last_ws p)) as [|Hge];
    [discriminate|].
  destruct (Z.leb_spec curr_ws (Policy.last_ws p)) as [Hle|Hgt].
  { injection Hrun as <-. split; assumption. }
  unfold window_avg_freq in Hrun. fold W in Hrun.
  rewrite (u64_small (Policy.last_ws p + W)) in Hrun by lia.
  destruct (Z.gtb_spec curr_ws (Policy.last_ws p + W)) as [Hskip|Hin].
  - injection Hrun as <-. simpl. split.
    + apply (freq_to_util_floor p prev_freq); fold fmax; lia.
    + unfold cycles_bounded. simpl. fold W.
      change (NSEC_PER_SEC / KHZ) with 1000000. lia.
  - destruct (track_cycles_keeps_bound E p prev_freq curr_ws)
      as [(Hl1 & Hc0 & Hc1) Ht1]; fold fmax W; try assumption; try lia.
    set (p1 := waltgov_track_cycles E p prev_freq curr_ws) in *.
    change (NSEC_PER_SEC / KHZ) with 1000000 in Hc1.
    replace (Policy.last_ws p1) with (Policy.last_ws p) in *
      by reflexivity.
    replace (Policy.policy p1) with (Policy.policy p) in *
      by reflexivity.
    fold fmax W in Hc1, Hl1, Ht1.
    replace (Z.min curr_ws (Policy.last_ws p + W)) with curr_ws in Ht1
      by lia.
    rewrite Ht1 in Hc1.
    cbv zeta in Hrun. fold k in Hrun. injection Hrun as <-.
    set (c := Policy.curr_cycles p1) in *.
    assert (Hcu : 0 <= u32 c <= c).
    { unfold u32. split; [apply Z.mod_pos_bound; lia|].
      apply Z.mod_le; lia. }
    assert (Havgf : 0 <= u32 c / k <= fmax).
    { split; [apply Z.div_pos; lia|].
      apply Z.div_le_upper_bound; [lia|].
      assert (Hspan : fmax * (curr_ws - Policy.last_ws p) <= fmax * W)
        by (apply Z.mul_le_mono_nonneg_l; lia).
      assert (c * 1000000 <= fmax * (1000000 * k))
        by (rewrite <- HWk; lia).
      lia. }
    assert (Hu : u32 (u32 c / k) <= u32 c / k).
    { unfold u32 at 1. apply Z.mod_le; lia. }
    assert (Hu0 : 0 <= u32 (u32 c / k)) by apply u32_range.
    assert (Hfu : forall x, freq_to_util p1 x = freq_to_util p x)
      by reflexivity.
    assert (Hmax : Policy.max p1 = Policy.max p) by reflexivity.
    assert (Hws1 : Policy.last_ws p1 = Policy.last_ws p) by reflexivity.
    pose proof (freq_to_util_floor p (u32 (u32 c / k))
                  Hcap (conj Hfmax Hfmax64) Hcapfit ltac:(lia))
      as (_ & _ & Hle).
    split.
    + change (freq_to_util p1 (u32 (u32 c / k)) <= Policy.max p1).
      rewrite Hfu, Hmax. exact Hle.
    + unfold cycles_bounded.
      change (NSEC_PER_SEC / KHZ) with 1000000.
      change (curr_ws <= Policy.last_cyc_update_time p1 <= curr_ws + W /\
              0 <= 0 /\
              0 * 1000000
              <= CpufreqPolicy.cpuinfo_max_freq (Policy.policy p1)
                 * (Policy.last_cyc_update_time p1 - curr_ws)).
      rewrite Ht1. lia.
Qed.

Lemma avg_cap_within_capacity_witness :
  (waltgov_calc_avg_cap example_platform mid_window_policy 12000000 1500000
   = Done (outcome_or example_policy
             (waltgov_calc_avg_cap example_platform mid_window_policy
                12000000 1500000)) /\
   cycles_bounded example_platform mid_window_policy /\
   Policy.avg_cap mid_window_policy <= Policy.max mid_window_policy) /\
  Policy.avg_cap
    (outcome_or example_policy
       (waltgov_calc_avg_cap example_platform mid_window_policy 12000000
          1500000)) = 768 /\
  cycles_bounded example_platform
    (outcome_or example_policy
       (waltgov_calc_avg_cap example_platform mid_window_policy 12000000
          1500000)).
Proof.
  assert (Hrun : waltgov_calc_avg_cap example_platform mid_window_policy
                   12000000 1500000
                 = Done (outcome_or example_policy
                           (waltgov_calc_avg_cap example_platform
                              mid_window_policy 12000000 1500000)))
    by reflexivity.
  assert (Hb : cycles_bounded example_platform mid_window_policy)
    by (repeat split; by_eval).
  assert (Havg : Policy.avg_cap mid_window_policy
                 <= Policy.max mid_window_policy) by by_eval.
  destruct (avg_cap_within_capacity example_platform mid_window_policy _
              12000000 1500000 Hrun Hb Havg ltac:(by_eval) ltac:(by_eval)
              ltac:(by_eval) ltac:(by_eval) ltac:(by_eval) ltac:(by_eval)
              ltac:(by_eval) ltac:(by_eval) ltac:(by_eval) ltac:(by_eval))
    as [_ Hb'].
  split; [split; [exact Hrun|split; [exact Hb|exact Havg]]|].
  split; [reflexivity|exact Hb'].
Defined.

(** ** The shape of a selector call and of a callback *)

Lemma get_next_freq_cases (E : platform) (st : gov_state)
    (util max time : Z) :
  let p := st_policy st in
  let freq := fst (selected_freq E st util max) in
  let percpu :=
    set_driving_reasons (st_percpu st) (Policy.driving_cpu p)
      (snd (selected_freq E st util max)) in
  let final := u32 (cpufreq_driver_resolve_freq E (Policy.policy p) freq) in
  let p0 := Policy.set_need_freq_update false p in
  let tr := st_trace st ++ resolve_events E p freq in
  let res := get_next_freq E st util max time in
  (cache_hit p freq = true /\
   res = (0, {| st_policy := p; st_percpu := percpu;
                st_trace := st_trace st |})) \/
  (cache_hit p freq = false /\ Policy.next_freq p = final /\
   res = (0, {| st_policy := p0; st_percpu := percpu; st_trace := tr |})) \/
  (cache_hit p freq = false /\ Policy.next_freq p <> final /\
   waltgov_up_down_rate_limit E p time final = true /\
   res = (0, {| st_policy := Policy.set_cached_raw_freq 0 p0;
                st_percpu := percpu; st_trace := tr |})) \/
  (cache_hit p freq = false /\ Policy.next_freq p <> final /\
   waltgov_up_down_rate_limit E p time final = false /\
   res = (final,
          {| st_policy :=
               Policy.set_last_freq_update_time time
                 (Policy.set_next_freq final
                    (Policy.set_cached_raw_freq freq p0));
             st_percpu := percpu; st_trace := tr |})).
Proof.
  intros p freq percpu final p0 tr res.
  subst res percpu freq final tr. unfold get_next_freq. fold p.
  destruct (selected_freq E st util max) as [freq reason]. simpl fst.
  simpl snd. fold (cache_hit p freq).
  destruct (cache_hit p freq); [left; split; reflexivity|right].
  assert (Htr : (if CONFIG_OPLUS_FEATURE_OCH E
                 then (st_trace st ++ [EvResolveFreq freq])
                      ++ [EvNewtaskState
                            (Policy.newtask_flag
                               (Policy.set_need_freq_update false p))]
                 else st_trace st ++ [EvResolveFreq freq])
                = st_trace st ++ resolve_events E p freq).
  { unfold resolve_events. destruct (CONFIG_OPLUS_FEATURE_OCH E);
      [rewrite <- app_assoc|]; reflexivity. }
  rewrite Htr. unfold waltgov_update_next_freq.
  change (Policy.next_freq (Policy.set_need_freq_update false p))
    with (Policy.next_freq p).
  change (waltgov_up_down_rate_limit E (Policy.set_need_freq_update false p))
    with (waltgov_up_down_rate_limit E p).
  destruct (Z.eqb_spec (Policy.next_freq p)
              (u32 (cpufreq_driver_resolve_freq E (Policy.policy p) freq)))
    as [Heq|Hne].
  { left. repeat split. exact Heq. }
  right.
  destruct (waltgov_up_down_rate_limit E p time _) eqn:Hlim;
    [left|right]; repeat split; assumption.
Qed.

Lemma head_of_callback_view (E : platform) (p : waltgov_policy)
    (wg_cpu : waltgov_cpu) (flags : Z) (curr_ws prev_freq : Z)
    (q : waltgov_policy) :
  waltgov_calc_avg_cap E (refresh_max E (record_flags E p flags) wg_cpu)
    curr_ws prev_freq = Done q ->
  gate_view q = gate_view p /\
  def_frameboost E q = frameboost_event E flags.
Proof.
  unfold waltgov_calc_avg_cap, window_avg_freq, refresh_max, record_flags,
    def_frameboost, frameboost_event.
  destruct (CONFIG_OPLUS_FEATURE_FRAME_BOOST E);
    destruct (negb (_ =? _));
    (destruct (curr_ws <? _); [discriminate|]);
    (destruct (curr_ws <=? _);
     [|destruct (curr_ws >? _)]); intros H; injection H as <-;
    split; reflexivity.
Qed.

(** A callback that returns drops the event, or samples, passes the gate
    test and then commits or not. *)
Lemma update_freq_cases (E : platform) (st st' : gov_state) (cpu : nat)
    (sig : sched_sample) (time flags : Z) :
  waltgov_update_freq E st cpu sig time flags = Done st' ->
  (dropped_event E (st_policy st) flags = true /\ st' = st) \/
  (dropped_event E (st_policy st) flags = false /\
   exists q : waltgov_policy,
     gate_view q = gate_view (st_policy st) /\
     def_frameboost E q = frameboost_event E flags /\
     let gate := waltgov_should_update_freq E q time in
     let st2 :=
       {| st_policy := snd gate;
          st_percpu :=
            <[cpu := sampled_cpu E (st_percpu st !!! cpu) sig flags]>
              (st_percpu st);
          st_trace := st_trace st |} in
     st' = if fst gate && (Z.land flags (WALT_CPUFREQ_CONTINUE E) =? 0)
           then waltgov_commit E st2 time else st2).
Proof.
  unfold waltgov_update_freq. fold (dropped_event E (st_policy st) flags).
  destruct (dropped_event E (st_policy st) flags).
  { intros H. injection H as <-. left. split; reflexivity. }
  cbv zeta. intros Hrun. right. split; [reflexivity|].
  destruct (waltgov_calc_avg_cap E _ _ _) as [q|] eqn:Hcalc;
    [|discriminate].
  apply head_of_callback_view in Hcalc. destruct Hcalc as [Hview Hfb].
  exists q. split; [exact Hview|]. split; [exact Hfb|].
  destruct (waltgov_should_update_freq E q time) as [due q2]. simpl.
  destruct (due && _); injection Hrun as <-; reflexivity.
Qed.

Lemma should_update_freq_result (E : platform) (q : waltgov_policy)
    (time : Z) :
  waltgov_should_update_freq E q time
  = (Policy.limits_changed q || def_frameboost E q
     || (elapsed_ns q time >=? Policy.min_rate_limit_ns q),
     if Policy.limits_changed q
     then Policy.set_need_freq_update true
            (Policy.set_limits_changed false q)
     else q).
Proof.
  unfold waltgov_should_update_freq, elapsed_ns.
  destruct (Policy.limits_changed q); [reflexivity|].
  destruct (def_frameboost E q); reflexivity.
Qed.

Lemma gate_view_fields (p q : waltgov_policy) :
  gate_view q = gate_view p ->
  Policy.next_freq q = Policy.next_freq p /\
  Policy.cached_raw_freq q = Policy.cached_raw_freq p /\
  Policy.last_freq_update_time q = Policy.last_freq_update_time p /\
  Policy.min_rate_limit_ns q = Policy.min_rate_limit_ns p /\
  Policy.limits_changed q = Policy.limits_changed p /\
  Policy.need_freq_update q = Policy.need_freq_update p /\
  Policy.tunables q = Policy.tunables p /\
  Policy.policy q = Policy.policy p.
Proof.
  unfold gate_view. intros H. injection H. intros. repeat split; assumption.
Qed.

(** X5.  Update gating.  A callback leaves [next_freq], the cache, the
    time of the last commit and the trace of outside calls as they were
    when the event is continue-only, when it is a predicted-load event
    with the override switched off, or when the gate is closed: no limits
    change pending, no frame-boost event, and less than
    [min_rate_limit_ns] since the last commit. *)
Theorem update_gating (E : platform) (st st' : gov_state) (cpu : nat)
    (sig : sched_sample) (time flags : Z) :
  let p := st_policy st in
  waltgov_update_freq E st cpu sig time flags = Done st' ->
  Z.land flags (WALT_CPUFREQ_CONTINUE E) <> 0 \/
  dropped_event E p flags = true \/
  (Policy.limits_changed p = false /\
   frameboost_event E flags = false /\
   elapsed_ns p time < Policy.min_rate_limit_ns p) ->
  st_trace st' = st_trace st /\
  Policy.next_freq (st_policy st') = Policy.next_freq p /\
  Policy.cached_raw_freq (st_policy st') = Policy.cached_raw_freq p /\
  Policy.last_freq_update_time (st_policy st')
  = Policy.last_freq_update_time p.
Proof.
  intros p Hrun Hwhy. subst p.
  destruct (update_freq_cases E st st' cpu sig time flags Hrun)
    as [[_ ->]|[Hkeep (q & Hview & Hfb & Hst')]].
  { repeat split. }
  cbv zeta in Hst'. rewrite should_update_freq_result in Hst'.
  simpl fst in Hst'. simpl snd in Hst'.
  apply gate_view_fields in Hview.
  destruct Hview as (Hnf & Hc & Hl & Hm & Hlc & _).
  assert (Hoff : (Policy.limits_changed q || def_frameboost E q
                  || (elapsed_ns q time >=? Policy.min_rate_limit_ns q))
                 && (Z.land flags (WALT_CPUFREQ_CONTINUE E) =? 0) = false).
  { destruct Hwhy as [Hcont|[Hdrop|(Hlim & Hfbe & Hearly)]].
    - destruct (Z.eqb_spec (Z.land flags (WALT_CPUFREQ_CONTINUE E)) 0);
        [contradiction|apply andb_false_r].
    - congruence.
    - rewrite Hlc, Hlim, Hfb, Hfbe. unfold elapsed_ns. rewrite Hl, Hm.
      fold (elapsed_ns (st_policy st) time).
      destruct (Z.geb_spec (elapsed_ns (st_policy st) time)
                  (Policy.min_rate_limit_ns (st_policy st)));
        [lia|reflexivity]. }
  rewrite Hoff in Hst'. subst st'. simpl.
  destruct (Policy.limits_changed q); simpl; repeat split; assumption.
Qed.

Lemma update_gating_witness :
  (waltgov_update_freq example_platform committed_state 0 busy_sample
     60000000 0
   = Done (outcome_or committed_state
             (waltgov_update_freq example_platform committed_state 0
                busy_sample 60000000 0)) /\
   Policy.limits_changed (st_policy committed_state) = false /\
   frameboost_event example_platform 0 = false /\
   elapsed_ns (st_policy committed_state) 60000000
   < Policy.min_rate_limit_ns (st_policy committed_state)) /\
  st_trace
    (outcome_or committed_state
       (waltgov_update_freq example_platform committed_state 0 busy_sample
          60000000 0)) = st_trace committed_state /\
  Policy.next_freq
    (st_policy
       (outcome_or committed_state
          (waltgov_update_freq example_platform committed_state 0
             busy_sample 60000000 0))) = 1250000.
Proof.
  assert (Hrun : waltgov_update_freq example_platform committed_state 0
                   busy_sample 60000000 0
                 = Done (outcome_or committed_state
                           (waltgov_update_freq example_platform
                              committed_state 0 busy_sample 60000000 0)))
    by reflexivity.
  assert (Hearly : elapsed_ns (st_policy committed_state) 60000000
                   < Policy.min_rate_limit_ns (st_policy committed_state))
    by by_eval.
  destruct (update_gating example_platform committed_state _ 0%nat
              busy_sample 60000000 0 Hrun
              (or_intror (or_intror (conj eq_refl (conj eq_refl Hearly)))))
    as (Htrace & Hnf & _).
  split; [repeat split; first [exact Hrun|exact Hearly]|].
  split; [exact Htrace|]. rewrite Hnf. reflexivity.
Defined.

(** X6.  The gate loses nothing.  When [min_rate_limit_ns] is the smaller
    of the two delays and the gate is closed, every frequency other than
    the committed one would have been held back by the rate limit of its
    direction anyway. *)
Theorem closed_gate_loses_nothing (E : platform) (p : waltgov_policy)
    (time next_freq : Z) :
  Policy.min_rate_limit_ns p
  = Z.min (Policy.up_rate_delay_ns p) (Policy.down_rate_delay_ns p) ->
  fst (waltgov_should_update_freq E p time) = false ->
  next_freq <> Policy.next_freq p ->
  waltgov_up_down_rate_limit E p time next_freq = true.
Proof.
  intros Hmin Hgate Hne. rewrite should_update_freq_result in Hgate.
  simpl in Hgate.
  destruct (Policy.limits_changed p); [discriminate|].
  destruct (def_frameboost E p) eqn:Hfb; [discriminate|]. simpl in Hgate.
  destruct (Z.geb_spec (elapsed_ns p time) (Policy.min_rate_limit_ns p))
    as [|Hearly]; [discriminate|].
  unfold waltgov_up_down_rate_limit. rewrite Hfb.
  fold (elapsed_ns p time).
  destruct (Z.gtb_spec next_freq (Policy.next_freq p)) as [Hup|Hnup].
  - destruct (Z.ltb_spec (elapsed_ns p time) (Policy.up_rate_delay_ns p));
      [reflexivity|lia].
  - simpl.
    destruct (Z.ltb_spec next_freq (Policy.next_freq p)); [|lia].
    destruct (Z.ltb_spec (elapsed_ns p time) (Policy.down_rate_delay_ns p));
      [reflexivity|lia].
Qed.

Lemma closed_gate_loses_nothing_witness :
  (Policy.min_rate_limit_ns (st_policy committed_state)
   = Z.min (Policy.up_rate_delay_ns (st_policy committed_state))
       (Policy.down_rate_delay_ns (st_policy committed_state)) /\
   fst (waltgov_should_update_freq example_platform
          (st_policy committed_state) 60000000) = false /\
   300000 <> Policy.next_freq (st_policy committed_state)) /\
  waltgov_up_down_rate_limit example_platform (st_policy committed_state)
    60000000 300000 = true.
Proof.
  assert (Hne : 300000 <> Policy.next_freq (st_policy committed_state))
    by by_eval.
  split; [repeat split; exact Hne|].
  exact (closed_gate_loses_nothing example_platform
           (st_policy committed_state) 60000000 300000 eq_refl eq_refl Hne).
Defined.

Lemma next_freq_shared_aggregated (E : platform) (st : gov_state)
    (time : Z) :
  waltgov_next_freq_shared E st time
  = get_next_freq E (aggregated E st) (aggregated_util E st)
      (agg_max (shared_loop E st)) time.
Proof. reflexivity. Qed.

Lemma aggregated_view (E : platform) (st : gov_state) :
  gate_view (st_policy (aggregated E st)) = gate_view (st_policy st).
Proof.
  unfold aggregated. simpl. rewrite (shared_loop_frame E st). reflexivity.
Qed.

Lemma hw_writes_resolve_events (E : platform) (p : waltgov_policy)
    (freq : Z) :
  hw_writes (resolve_events E p freq) = [].
Proof.
  unfold resolve_events. destruct (CONFIG_OPLUS_FEATURE_OCH E); reflexivity.
Qed.

(** What a commit step leaves: the trace grows by the selector's calls
    and at most one write, and a write goes with a new, non-zero
    [next_freq] committed at [time]. *)
Lemma waltgov_commit_account (E : platform) (st : gov_state) (time : Z) :
  let p := st_policy st in
  let st' := waltgov_commit E st time in
  let p' := st_policy st' in
  exists new : list event,
    st_trace st' = st_trace st ++ new /\
    (Policy.need_freq_update p = true ->
     exists freq rest, new = EvResolveFreq freq :: rest) /\
    (new <> [] -> Policy.need_freq_update p' = false) /\
    Policy.limits_changed p' = Policy.limits_changed p /\
    ((hw_writes new = [] /\
      (Policy.next_freq p' = Policy.next_freq p \/ Policy.next_freq p' = 0))
     \/
     (hw_writes new = [write_event p (Policy.next_freq p')] /\
      Policy.next_freq p' <> 0 /\
      Policy.next_freq p' <> Policy.next_freq p /\
      Policy.last_freq_update_time p' = time)).
Proof.
  intros p st' p'. subst p' st'. unfold waltgov_commit.
  rewrite next_freq_shared_aggregated.
  pose proof (aggregated_view E st) as Hview.
  apply gate_view_fields in Hview.
  destruct Hview as (Hnf & _ & _ & _ & Hlc & Hneed & _ & Hpol).
  fold p in Hnf, Hlc, Hneed, Hpol.
  assert (Htr : st_trace (aggregated E st) = st_trace st) by reflexivity.
  set (sa := aggregated E st) in *.
  set (pa := st_policy sa) in *. clearbody sa.
  destruct (get_next_freq_cases E sa (aggregated_util E st)
              (agg_max (shared_loop E st)) time)
    as [[Hhit ->]|[(Hhit & Heq & ->)|[(Hhit & Hne & Hlim & ->)
                                     |(Hhit & Hne & Hlim & ->)]]];
    fold pa in Hhit |- *.
  - exists []. unfold waltgov_apply. simpl.
    rewrite Htr, app_nil_r. split; [reflexivity|].
    split.
    { intros Hn. exfalso. unfold cache_hit in Hhit.
      rewrite Hneed, Hn in Hhit. rewrite andb_false_r in Hhit.
      discriminate. }
    split; [intros H; contradiction|].
    split; [exact Hlc|]. left. split; [reflexivity|left; exact Hnf].
  - eexists. unfold waltgov_apply. simpl. rewrite Htr.
    split; [reflexivity|].
    split; [intros _; eexists; eexists; reflexivity|].
    split; [reflexivity|]. split; [exact Hlc|].
    left. split; [apply hw_writes_resolve_events|left; exact Hnf].
  - eexists. unfold waltgov_apply. simpl. rewrite Htr.
    split; [reflexivity|].
    split; [intros _; eexists; eexists; reflexivity|].
    split; [reflexivity|]. split; [exact Hlc|].
    left. split; [apply hw_writes_resolve_events|left; exact Hnf].
  - set (final := u32 (cpufreq_driver_resolve_freq E _ _)) in *.
    unfold waltgov_apply. simpl fst. simpl snd.
    destruct (Z.eqb_spec final 0) as [H0|Hnz].
    + eexists. simpl. rewrite Htr. split; [reflexivity|].
      split; [intros _; eexists; eexists; reflexivity|].
      split; [reflexivity|]. split; [exact Hlc|].
      left. split; [apply hw_writes_resolve_events|right; exact H0].
    + set (freq := fst (selected_freq E sa (aggregated_util E st)
                          (agg_max (shared_loop E st)))) in *.
      set (pc := Policy.set_last_freq_update_time time
                   (Policy.set_next_freq final
                      (Policy.set_cached_raw_freq freq
                         (Policy.set_need_freq_update false pa)))).
      assert (Hfs : CpufreqPolicy.fast_switch_enabled (Policy.policy pc)
                    = CpufreqPolicy.fast_switch_enabled (Policy.policy p))
        by (rewrite <- Hpol; reflexivity).
      exists (resolve_events E pa freq ++ [write_event p final]).
      assert (Hnfc : Policy.next_freq pc = final) by reflexivity.
      assert (Hwr : hw_writes (resolve_events E pa freq
                               ++ [write_event p final])
                    = [write_event p final]).
      { rewrite hw_writes_app, hw_writes_resolve_events. unfold write_event.
        destruct (CpufreqPolicy.fast_switch_enabled (Policy.policy p));
          reflexivity. }
      rewrite Hwr. cbn [st_policy]. rewrite Hfs. unfold write_event.
      destruct (CpufreqPolicy.fast_switch_enabled (Policy.policy p));
        unfold waltgov_fast_switch, waltgov_deferred_update;
        cbn [st_trace st_policy]; rewrite Htr, <- app_assoc;
        (split; [reflexivity|]);
        (split; [intros _; eexists; eexists; reflexivity|]);
        (split; [reflexivity|]); (split; [exact Hlc|]);
        right; (split; [reflexivity|]); (split; [exact Hnz|]);
        (split; [rewrite <- Hnf; exact (not_eq_sym Hne)|reflexivity]).
Qed.

(** ** Commits, hardware writes and forced updates *)

(** X7.  Hardware writes follow commits.  A callback adds at most one
    write to the trace.  A write goes with a [next_freq] that is new,
    non-zero and committed at the time of the callback, and it is a fast
    switch to exactly that frequency or the wake-up of the kthread,
    by [fast_switch_enabled].  Without a write [next_freq] is what it was,
    or has been committed as 0, the one value that is never written. *)
Theorem hardware_writes_follow_commits (E : platform) (st st' : gov_state)
    (cpu : nat) (sig : sched_sample) (time flags : Z) :
  let p := st_policy st in
  let p' := st_policy st' in
  waltgov_update_freq E st cpu sig time flags = Done st' ->
  exists new : list event,
    st_trace st' = st_trace st ++ new /\
    ((hw_writes new = [] /\
      (Policy.next_freq p' = Policy.next_freq p \/ Policy.next_freq p' = 0))
     \/
     (hw_writes new = [write_event p (Policy.next_freq p')] /\
      Policy.next_freq p' <> 0 /\
      Policy.next_freq p' <> Policy.next_freq p /\
      Policy.last_freq_update_time p' = time)).
Proof.
  intros p p' Hrun. subst p p'.
  destruct (update_freq_cases E st st' cpu sig time flags Hrun)
    as [[_ ->]|[_ (q & Hview & _ & Hst')]].
  { exists []. rewrite app_nil_r. split; [reflexivity|].
    left. split; [reflexivity|left; reflexivity]. }
  cbv zeta in Hst'. rewrite should_update_freq_result in Hst'.
  simpl fst in Hst'. simpl snd in Hst'.
  apply gate_view_fields in Hview.
  destruct Hview as (Hnf & _ & _ & _ & _ & _ & _ & Hpol).
  set (q2 := if Policy.limits_changed q
             then Policy.set_need_freq_update true
                    (Policy.set_limits_changed false q)
             else q) in *.
  assert (Hnf2 : Policy.next_freq q2 = Policy.next_freq (st_policy st))
    by (subst q2; destruct (Policy.limits_changed q); exact Hnf).
  assert (Hpol2 : Policy.policy q2 = Policy.policy (st_policy st))
    by (subst q2; destruct (Policy.limits_changed q); exact Hpol).
  clearbody q2.
  destruct (_ && _); subst st'.
  - match goal with
    | |- context [waltgov_commit E ?s time] =>
        destruct (waltgov_commit_account E s time)
          as (new & Htr & _ & _ & _ & Hacc)
    end.
    cbv zeta in Htr, Hacc. simpl st_policy in Hacc. simpl st_trace in Htr.
    exists new. split; [exact Htr|].
    unfold write_event in *. rewrite Hnf2, Hpol2 in Hacc. exact Hacc.
  - exists []. simpl. rewrite app_nil_r. split; [reflexivity|].
    left. split; [reflexivity|left; exact Hnf2].
Qed.

Lemma hardware_writes_follow_commits_witness :
  waltgov_update_freq example_platform example_state 0 busy_sample 50000000 0
  = Done (outcome_or example_state
            (waltgov_update_freq example_platform example_state 0
               busy_sample 50000000 0)) /\
  st_trace
    (outcome_or example_state
       (waltgov_update_freq example_platform example_state 0 busy_sample
          50000000 0))
  = [EvResolveFreq 2500000; EvFastSwitch 2000000] /\
  Policy.next_freq
    (st_policy
       (outcome_or example_state
          (waltgov_update_freq example_platform example_state 0 busy_sample
             50000000 0))) = 2000000.
Proof.
  assert (Hrun : waltgov_update_freq example_platform example_state 0
                   busy_sample 50000000 0
                 = Done (outcome_or example_state
                           (waltgov_update_freq example_platform
                              example_state 0 busy_sample 50000000 0)))
    by by_eval.
  destruct (hardware_writes_follow_commits example_platform example_state _
              0%nat busy_sample 50000000 0 Hrun) as (new & Htr & _).
  split; [exact Hrun|]. split; by_eval.
Defined.

Lemma waltgov_limits_fields (E : platform) (st : gov_state) (now : Z) :
  let st1 := waltgov_limits E st now in
  Policy.limits_changed (st_policy st1) = true /\
  Policy.tunables (st_policy st1) = Policy.tunables (st_policy st).
Proof.
  unfold waltgov_limits.
  destruct (negb (CpufreqPolicy.fast_switch_enabled _));
    [split; reflexivity|].
  unfold waltgov_update_next_freq.
  destruct (_ =? _); [split; reflexivity|].
  destruct (waltgov_up_down_rate_limit _ _ _ _); split; reflexivity.
Qed.

(** X8.  A limits notification forces the decision of the callback that
    comes right after it.  When that callback is neither dropped nor
    continue-only, it resolves a frequency again, however little time has
    passed and whatever the cache holds, and it leaves both
    [limits_changed] and [need_freq_update] clear.  When it is
    continue-only, it resolves nothing, yet it uses up [limits_changed]
    and leaves [need_freq_update] set: what remains for later callbacks
    is the way round the cache, not the open gate. *)
Theorem limits_force_reevaluation (E : platform) (st st' : gov_state)
    (now : Z) (cpu : nat) (sig : sched_sample) (time flags : Z) :
  let st1 := waltgov_limits E st now in
  waltgov_update_freq E st1 cpu sig time flags = Done st' ->
  dropped_event E (st_policy st) flags = false ->
  (Z.land flags (WALT_CPUFREQ_CONTINUE E) = 0 ->
   (exists (freq : Z) (rest : list event),
       st_trace st' = st_trace st1 ++ EvResolveFreq freq :: rest) /\
   Policy.limits_changed (st_policy st') = false /\
   Policy.need_freq_update (st_policy st') = false) /\
  (Z.land flags (WALT_CPUFREQ_CONTINUE E) <> 0 ->
   st_trace st' = st_trace st1 /\
   Policy.limits_changed (st_policy st') = false /\
   Policy.need_freq_update (st_policy st') = true).
Proof.
  intros st1 Hrun Hkeep.
  destruct (waltgov_limits_fields E st now) as [Hlc Htun].
  fold st1 in Hlc, Htun.
  assert (Hkeep1 : dropped_event E (st_policy st1) flags = false)
    by (unfold dropped_event in *; rewrite Htun; exact Hkeep).
  clearbody st1.
  destruct (update_freq_cases E st1 st' cpu sig time flags Hrun)
    as [[Hdrop _]|[_ (q & Hview & _ & Hst')]]; [congruence|].
  cbv zeta in Hst'. rewrite should_update_freq_result in Hst'.
  simpl fst in Hst'. simpl snd in Hst'.
  apply gate_view_fields in Hview.
  destruct Hview as (_ & _ & _ & _ & Hlcq & _).
  rewrite Hlcq, Hlc in Hst'. simpl orb in Hst'. cbv iota in Hst'.
  split.
  - intros Hcont. rewrite Hcont in Hst'. simpl in Hst'. subst st'.
    match goal with
    | |- context [waltgov_commit E ?s time] =>
        destruct (waltgov_commit_account E s time)
          as (new & Htr & Hres & Hneed & Hlim & _)
    end.
    cbv zeta in Htr, Hres, Hneed, Hlim.
    simpl st_policy in Hres, Hneed, Hlim. simpl st_trace in Htr.
    destruct (Hres eq_refl) as (freq & rest & ->).
    split; [exists freq, rest; exact Htr|].
    split; [rewrite Hlim; reflexivity|].
    apply Hneed. discriminate.
  - intros Hcont.
    destruct (Z.eqb_spec (Z.land flags (WALT_CPUFREQ_CONTINUE E)) 0)
      as [H0|_]; [contradiction|].
    simpl in Hst'. subst st'. simpl. repeat split.
Qed.

Lemma limits_force_reevaluation_witness :
  (waltgov_update_freq example_platform
     (waltgov_limits example_platform committed_state 51000000) 0
     busy_sample 52000000 0
   = Done (outcome_or committed_state
             (waltgov_update_freq example_platform
                (waltgov_limits example_platform committed_state 51000000)
                0 busy_sample 52000000 0)) /\
   dropped_event example_platform (st_policy committed_state) 0 = false /\
   Z.land 0 (WALT_CPUFREQ_CONTINUE example_platform) = 0) /\
  st_trace
    (outcome_or committed_state
       (waltgov_update_freq example_platform
          (waltgov_limits example_platform committed_state 51000000) 0
          busy_sample 52000000 0))
  = st_trace (waltgov_limits example_platform committed_state 51000000)
    ++ [EvResolveFreq 2500000] /\
  Policy.need_freq_update
    (st_policy
       (outcome_or committed_state
          (waltgov_update_freq example_platform
             (waltgov_limits example_platform committed_state 51000000) 0
             busy_sample 52000000 0))) = false.
Proof.
  assert (Hrun : waltgov_update_freq example_platform
                   (waltgov_limits example_platform committed_state
                      51000000) 0 busy_sample 52000000 0
                 = Done (outcome_or committed_state
                           (waltgov_update_freq example_platform
                              (waltgov_limits example_platform
                                 committed_state 51000000) 0 busy_sample
                              52000000 0))) by by_eval.
  assert (Hcont : Z.land 0 (WALT_CPUFREQ_CONTINUE example_platform) = 0)
    by by_eval.
  assert (Hkeep : dropped_event example_platform
                    (st_policy committed_state) 0 = false) by by_eval.
  destruct (limits_force_reevaluation example_platform committed_state _
              51000000 0%nat busy_sample 52000000 0 Hrun Hkeep)
    as (Hfirst & _).
  destruct (Hfirst Hcont) as (_ & _ & Hneed).
  split; [split; [exact Hrun|split; [exact Hkeep|exact Hcont]]|].
  split; [by_eval|exact Hneed].
Defined.

(** X9.  A change the rate limit holds back is tried again.  When the
    selector resolves a frequency other than the committed one and the
    rate limit of its direction holds it back, the call returns zero,
    keeps [next_freq] and empties the cache; the next call, whatever its
    utilization and time, then cannot take the short-circuit and resolves
    a frequency again. *)
Theorem rejected_change_is_retried (E : platform) (st : gov_state)
    (util max time util' max' time' : Z) :
  let p := st_policy st in
  let freq := fst (selected_freq E st util max) in
  let final := u32 (cpufreq_driver_resolve_freq E (Policy.policy p) freq) in
  let res := get_next_freq E st util max time in
  let res' := get_next_freq E (snd res) util' max' time' in
  cache_hit p freq = false ->
  Policy.next_freq p <> final ->
  waltgov_up_down_rate_limit E p time final = true ->
  fst res = 0 /\
  Policy.next_freq (st_policy (snd res)) = Policy.next_freq p /\
  Policy.cached_raw_freq (st_policy (snd res)) = 0 /\
  exists rest : list event,
    st_trace (snd res')
    = st_trace (snd res)
      ++ EvResolveFreq (fst (selected_freq E (snd res) util' max')) :: rest.
Proof.
  intros p freq final res res' Hmiss Hne Hlim.
  subst res' res final freq p.
  assert (Hres : fst (get_next_freq E st util max time) = 0 /\
                 Policy.next_freq
                   (st_policy (snd (get_next_freq E st util max time)))
                 = Policy.next_freq (st_policy st) /\
                 Policy.cached_raw_freq
                   (st_policy (snd (get_next_freq E st util max time))) = 0).
  { destruct (get_next_freq_cases E st util max time)
      as [[Hhit _]|[(_ & Heq & _)|[(_ & _ & _ & ->)|(_ & _ & Hlim' & _)]]];
      try congruence.
    repeat split. }
  destruct Hres as (Hret & Hnf & Hcache).
  split; [exact Hret|]. split; [exact Hnf|]. split; [exact Hcache|].
  set (st1 := snd (get_next_freq E st util max time)) in *. clearbody st1.
  assert (Hmiss1 : forall f, cache_hit (st_policy st1) f = false)
    by (intros f; unfold cache_hit; rewrite Hcache; reflexivity).
  destruct (get_next_freq_cases E st1 util' max' time')
    as [[Hhit _]|[(_ & _ & ->)|[(_ & _ & _ & ->)|(_ & _ & _ & ->)]]];
    [rewrite Hmiss1 in Hhit; discriminate| | |];
    eexists; reflexivity.
Qed.

Lemma rejected_change_is_retried_witness :
  (cache_hit (st_policy committed_state)
     (fst (selected_freq example_platform committed_state 1024 1024))
   = false /\
   Policy.next_freq (st_policy committed_state) <> 2000000 /\
   waltgov_up_down_rate_limit example_platform (st_policy committed_state)
     60000000 2000000 = true) /\
  get_next_freq example_platform committed_state 1024 1024 60000000
  = (0, {| st_policy :=
             Policy.set_cached_raw_freq 0 (st_policy committed_state);
           st_percpu := st_percpu committed_state;
           st_trace := st_trace committed_state ++ [EvResolveFreq 2500000] |})
  /\
  st_trace
    (snd (get_next_freq example_platform
            (snd (get_next_freq example_platform committed_state 1024 1024
                    60000000)) 512 1024 61000000))
  = st_trace committed_state
    ++ [EvResolveFreq 2500000; EvResolveFreq 1250000].
Proof.
  assert (Hne : Policy.next_freq (st_policy committed_state) <> 2000000)
    by by_eval.
  destruct (rejected_change_is_retried example_platform committed_state
              1024 1024 60000000 512 1024 61000000 ltac:(by_eval) Hne
              ltac:(by_eval))
    as (_ & _ & _ & rest & Hrest).
  split; [split; [by_eval|split; [exact Hne|by_eval]]|].
  split; by_eval.
Defined.

(** ** Frequency mapping and the adaptive band *)

Lemma shiftr_le_quarter (fmax shift : Z) :
  0 <= fmax -> 2 <= shift -> 0 <= Z.shiftr fmax shift <= Z.shiftr fmax 2.
Proof.
  intros Hf Hs. rewrite !Z.shiftr_div_pow2 by lia.
  assert (H4 : 2 ^ 2 <= 2 ^ shift) by (apply Z.pow_le_mono_r; lia).
  split.
  - apply Z.div_pos; lia.
  - apply Z.div_le_compat_l; lia.
Qed.

(** X10.  The utilization-to-frequency mapping never asks for more than
    the linear mapping with a quarter of headroom, and from the
    target-load threshold upwards never for less than that mapping gives
    at the threshold; below the threshold, or with real-time load of a
    quarter of the capacity or more, it is that mapping.  This is for a
    shift whose count as the machine takes it, modulo 64, is at least 2
    (the default is 4), and without 64-bit overflow; a shift of 64 counts
    as 0 and doubles the frequency instead. *)
Theorem map_util_freq_bounds (E : platform) (util : Z)
    (wg_policy : waltgov_policy) (cap : Z) (cpu : nat) :
  let fmax := CpufreqPolicy.cpuinfo_max_freq (Policy.policy wg_policy) in
  let shift := Tunables.target_load_shift (Policy.tunables wg_policy) in
  let thresh := Tunables.target_load_thresh (Policy.tunables wg_policy) in
  let freq := walt_map_util_freq E util wg_policy cap cpu in
  0 < cap -> 0 <= fmax -> 0 <= util -> 0 <= thresh -> 2 <= shift mod 64 ->
  (fmax + Z.shiftr fmax 2) * util < 2 ^ 64 ->
  freq <= headroom_freq wg_policy util cap /\
  (thresh <= util -> headroom_freq wg_policy thresh cap <= freq) /\
  (util < thresh \/ Z.shiftr cap 2 <= cpu_util_rt E cpu ->
   freq = headroom_freq wg_policy util cap).
Proof.
  intros fmax shift thresh freq Hcap Hf Hu Ht Hs Hfit.
  subst freq. unfold walt_map_util_freq, headroom_freq.
  fold fmax shift thresh.
  pose proof (shiftr_le_quarter fmax (shift mod 64) Hf Hs) as Hq.
  set (a := Z.shiftr fmax (shift mod 64)) in *.
  set (b := Z.shiftr fmax 2) in *.
  assert (Hplain : u64 (u64 (fmax + b) * util) = (fmax + b) * util).
  { destruct (Z.eq_dec util 0) as [->|Hnz].
    - rewrite !Z.mul_0_r. reflexivity.
    - rewrite (u64_small (fmax + b)) by nia. apply u64_small. nia. }
  rewrite Hplain.
  destruct (Z.geb_spec util thresh) as [Hge|Hlt].
  - destruct (Z.ltb_spec (cpu_util_rt E cpu) (Z.shiftr cap 2)) as [Hrt|Hrt];
      simpl andb; cbv iota.
    + assert (Hsh : u64 (u64 (fmax + a) * util) = (fmax + a) * util).
      { destruct (Z.eq_dec util 0) as [->|Hnz].
        - rewrite !Z.mul_0_r. reflexivity.
        - rewrite (u64_small (fmax + a)) by nia. apply u64_small. nia. }
      assert (Hth : u64 (u64 (fmax + b) * thresh) = (fmax + b) * thresh).
      { destruct (Z.eq_dec thresh 0) as [->|Hnz].
        - rewrite !Z.mul_0_r. reflexivity.
        - rewrite (u64_small (fmax + b)) by nia. apply u64_small. nia. }
      rewrite Hsh, Hth.
      split; [|split].
      * apply Z.div_le_mono; [lia|]. apply Z.max_lub; nia.
      * intros _. apply Z.div_le_mono; [lia|]. apply Z.le_max_r.
      * intros [Hlow|Hheavy]; lia.
    + split; [lia|]. split; [|reflexivity].
      intros _. apply Z.div_le_mono; [lia|nia].
  - simpl andb. cbv iota. split; [lia|]. split; [lia|reflexivity].
Qed.

Lemma map_util_freq_bounds_witness :
  (0 < 1024 /\
   0 <= CpufreqPolicy.cpuinfo_max_freq (Policy.policy example_policy) /\
   0 <= 1024 /\
   0 <= Tunables.target_load_thresh (Policy.tunables example_policy) /\
   2 <= Tunables.target_load_shift (Policy.tunables example_policy) mod 64 /\
   (CpufreqPolicy.cpuinfo_max_freq (Policy.policy example_policy)
    + Z.shiftr
        (CpufreqPolicy.cpuinfo_max_freq (Policy.policy example_policy)) 2)
   * 1024 < 2 ^ 64) /\
  headroom_freq example_policy 1024 1024 = 2500000 /\
  walt_map_util_freq example_platform 1024 example_policy 1024 0 = 2500000
  /\
  walt_map_util_freq
    example_platform 2048
    (Policy.set_max 2048 example_policy) 2048 0 = 2125000 /\
  walt_map_util_freq example_platform 1024 shift_64_policy 1024 0 = 4000000.
Proof.
  pose proof (map_util_freq_bounds example_platform 1024 example_policy 1024
                0%nat ltac:(by_eval) ltac:(by_eval) ltac:(by_eval)
                ltac:(by_eval) ltac:(by_eval) ltac:(by_eval))
    as (Hup & Hlow & _).
  split; [repeat split; by_eval|].
  split; [reflexivity|]. split; [|split; reflexivity].
  assert (Hh : headroom_freq example_policy 1024 1024 = 2500000)
    by reflexivity.
  assert (Hl : headroom_freq example_policy
                 (Tunables.target_load_thresh
                    (Policy.tunables example_policy)) 1024 = 2500000)
    by reflexivity.
  rewrite Hh in Hup. rewrite Hl in Hlow.
  specialize (Hlow ltac:(by_eval)). lia.
Defined.

(** X11.  The adaptive band only ever raises.  With the band switched on
    the frequency selected is never below the raw one, never below the
    effective low bound, and never strictly between that bound and the
    effective high bound: it is the low bound itself or at least the high
    one. *)
Theorem adaptive_band_only_raises (E : platform) (st : gov_state)
    (util max : Z) :
  let wg_policy := st_policy st in
  let raw_freq :=
    u32 (walt_map_util_freq E util wg_policy max
           (Cpu.cpu (st_percpu st !!! Policy.driving_cpu wg_policy))) in
  let freq := fst (selected_freq E st util max) in
  Tunables.adaptive_high_freq (Policy.tunables wg_policy) <> 0 ->
  raw_freq <= freq /\
  get_adaptive_low_freq wg_policy <= freq /\
  (freq = get_adaptive_low_freq wg_policy \/
   get_adaptive_high_freq wg_policy <= freq).
Proof.
  intros wg_policy raw_freq freq Hon. subst freq.
  unfold selected_freq, adaptive_band. fold wg_policy raw_freq.
  destruct (Z.eqb_spec (Tunables.adaptive_high_freq
                          (Policy.tunables wg_policy)) 0) as [H0|_];
    [contradiction|]. simpl negb. cbv iota.
  destruct (Z.ltb_spec raw_freq (get_adaptive_low_freq wg_policy)).
  - simpl. split; [lia|]. split; [lia|left; reflexivity].
  - destruct (Z.leb_spec raw_freq (get_adaptive_high_freq wg_policy));
      simpl; (split; [lia|]); (split; [lia|right; lia]).
Qed.

Lemma adaptive_band_only_raises_witness :
  Tunables.adaptive_high_freq (Policy.tunables (st_policy user_band_state))
  <> 0 /\
  fst (selected_freq example_platform user_band_state 36 100) = 1200000 /\
  900000 <= fst (selected_freq example_platform user_band_state 36 100) /\
  get_adaptive_low_freq (st_policy user_band_state)
  <= fst (selected_freq example_platform user_band_state 36 100).
Proof.
  assert (Hon : Tunables.adaptive_high_freq
                  (Policy.tunables (st_policy user_band_state)) <> 0)
    by by_eval.
  destruct (adaptive_band_only_raises example_platform user_band_state 36
              100 Hon) as (Hraw & Hlow & _).
  split; [exact Hon|]. split; [reflexivity|].
  split; [exact Hraw|exact Hlow].
Defined.

(** ** The aggregation loop *)

Lemma max_and_reason_raises (s : adj) (boost_util reason : Z) :
  let s' := max_and_reason s boost_util reason in
  cur_util s <= cur_util s' /\
  Cpu.set_reasons (Cpu.reasons (adj_cpu s')) (adj_cpu s) = adj_cpu s' /\
  (Policy.driving_cpu (adj_policy s') = Policy.driving_cpu (adj_policy s) \/
   Policy.driving_cpu (adj_policy s') = Cpu.cpu (adj_cpu s)).
Proof.
  destruct (max_and_reason_cases s boost_util reason)
    as [(_ & Hle & ->)|(_ & ->)]; simpl.
  - split; [exact Hle|]. split; [reflexivity|right; reflexivity].
  - split; [lia|]. split; [destruct (adj_cpu s); reflexivity|].
    left; reflexivity.
Qed.

Lemma chain_keeps_max_and_reason (wg_cpu : waltgov_cpu) (util : Z)
    (driving : nat) (s : adj) (boost_util reason : Z) :
  chain_keeps wg_cpu util driving s ->
  chain_keeps wg_cpu util driving (max_and_reason s boost_util reason).
Proof.
  intros (Hu & Hc & Hd).
  destruct (max_and_reason_cases s boost_util reason)
    as [(_ & Hle & ->)|(_ & ->)]; [|repeat split; assumption].
  unfold chain_keeps. simpl. split; [lia|].
  split; [rewrite <- Hc; reflexivity|].
  right. rewrite <- Hc. reflexivity.
Qed.

Lemma chain_keeps_newtask (E : platform) (wg_cpu : waltgov_cpu) (util : Z)
    (driving : nat) (v : Z) (s : adj) :
  chain_keeps wg_cpu util driving s ->
  chain_keeps wg_cpu util driving (set_newtask_flag E v s).
Proof.
  unfold set_newtask_flag. destruct (CONFIG_OPLUS_FEATURE_OCH E);
    intros H; exact H.
Qed.

Lemma chain_keeps_or_reasons (wg_cpu : waltgov_cpu) (util : Z)
    (driving : nat) (reason : Z) (s : adj) :
  chain_keeps wg_cpu util driving s ->
  chain_keeps wg_cpu util driving (or_reasons reason s).
Proof.
  intros (Hu & Hc & Hd). unfold chain_keeps, or_reasons. simpl.
  split; [exact Hu|]. split; [rewrite <- Hc; reflexivity|exact Hd].
Qed.

Ltac chain_keeps_step :=
  repeat first
    [ apply chain_keeps_newtask
    | apply chain_keeps_max_and_reason
    | apply chain_keeps_or_reasons
    | match goal with
      | |- chain_keeps _ _ _ (if ?c then _ else _) => destruct c
      end ].

Lemma walt_adjust_chain_keeps (E : platform) (wg_cpu : waltgov_cpu)
    (wg_policy : waltgov_policy) (cpu_util nl util max : Z) :
  chain_keeps wg_cpu util (Policy.driving_cpu wg_policy)
    (waltgov_walt_adjust E wg_cpu wg_policy cpu_util nl util max).
Proof.
  unfold waltgov_walt_adjust. cbv zeta.
  chain_keeps_step;
    (unfold chain_keeps; simpl; split; [lia|];
     split; [destruct wg_cpu; reflexivity|left; reflexivity]).
Qed.

(** X12.  The override chain only ever raises.  Whatever the signals of
    the CPU, [waltgov_walt_adjust] returns a running maximum that is not
    below the one it got, changes nothing in the CPU's slot but the
    reasons, and leaves as driving CPU the one it found or this CPU. *)
Theorem override_chain_only_raises (E : platform) (wg_cpu : waltgov_cpu)
    (wg_policy : waltgov_policy) (cpu_util nl util max : Z) :
  let s := waltgov_walt_adjust E wg_cpu wg_policy cpu_util nl util max in
  util <= cur_util s /\
  Cpu.set_reasons (Cpu.reasons (adj_cpu s)) wg_cpu = adj_cpu s /\
  (Policy.driving_cpu (adj_policy s) = Policy.driving_cpu wg_policy \/
   Policy.driving_cpu (adj_policy s) = Cpu.cpu wg_cpu).
Proof.
  intros s. subst s.
  destruct (walt_adjust_chain_keeps E wg_cpu wg_policy cpu_util nl util max)
    as (Hutil & Hslot & Hdrv).
  split; [exact Hutil|]. split; [exact Hslot|exact Hdrv].
Qed.

Lemma shared_step_driving (E : platform) (a : agg) (j : nat) :
  Cpu.cpu (agg_percpu a !!! j) = j ->
  let a' := shared_step E a j in
  (Policy.driving_cpu (agg_policy a')
   = Policy.driving_cpu (agg_policy a) \/
   Policy.driving_cpu (agg_policy a') = j) /\
  (agg_util a = 0 -> Policy.driving_cpu (agg_policy a') = j) /\
  (forall i, Cpu.cpu (agg_percpu a' !!! i) = Cpu.cpu (agg_percpu a !!! i)).
Proof.
  intros Hj a'. subst a'. unfold shared_step. cbv zeta.
  set (ap := shared_pick a j).
  assert (Hpick : (agg_policy ap = agg_policy a \/
                   agg_policy ap = Policy.set_driving_cpu j (agg_policy a))
                  /\ agg_percpu ap = agg_percpu a
                  /\ (agg_util a = 0 ->
                      agg_policy ap = Policy.set_driving_cpu j (agg_policy a))).
  { subst ap. unfold shared_pick. split; [|split].
    - unfold pick_driving. destruct (_ >=? _); [right|left]; reflexivity.
    - unfold pick_driving. destruct (_ >=? _); reflexivity.
    - intros H0. rewrite pick_driving_first by exact H0. reflexivity. }
  destruct Hpick as (Hpol & Hper & Hfirst).
  pose proof (walt_adjust_chain_keeps E (agg_percpu a !!! j)
                (agg_policy ap) (boosted_util a j) (boosted_nl a j)
                (agg_util ap) (agg_max ap)) as (_ & Hslot & Hdrv).
  rewrite Hj in Hdrv.
  set (s := waltgov_walt_adjust E _ _ _ _ _ _) in *.
  simpl agg_policy. simpl agg_percpu. rewrite Hper.
  split; [|split].
  - destruct Hdrv as [Hd|Hd]; [|right; exact Hd].
    destruct Hpol as [Hp|Hp]; rewrite Hd, Hp; [left|right]; reflexivity.
  - intros H0. destruct Hdrv as [Hd|Hd]; [|exact Hd].
    rewrite Hd, (Hfirst H0). reflexivity.
  - intros i.
    destruct (Nat.eq_dec i j) as [->|Hne].
    + destruct (Nat.lt_ge_cases j (length (agg_percpu a))) as [Hlt|Hge].
      * rewrite list_lookup_total_insert_eq by exact Hlt.
        rewrite <- Hslot. reflexivity.
      * rewrite list_insert_ge by exact Hge. reflexivity.
    + rewrite list_lookup_total_insert_ne by (intros He; apply Hne; auto).
      reflexivity.
Qed.

Lemma shared_fold_driving (E : platform) (cpus all : list nat) (a : agg) :
  (forall j, In j cpus -> In j all) ->
  slots_indexed (agg_percpu a) all ->
  let a' := fold_left (shared_step E) cpus a in
  slots_indexed (agg_percpu a') all /\
  (Policy.driving_cpu (agg_policy a') = Policy.driving_cpu (agg_policy a)
   \/ In (Policy.driving_cpu (agg_policy a')) all).
Proof.
  revert a. induction cpus as [|j rest IH]; intros a Hsub Hidx; simpl.
  - split; [exact Hidx|left; reflexivity].
  - assert (Hj : Cpu.cpu (agg_percpu a !!! j) = j)
      by (apply Hidx, Hsub; left; reflexivity).
    destruct (shared_step_driving E a j Hj) as (Hd & _ & Hcpu).
    cbv zeta in Hd, Hcpu.
    assert (Hidx' : slots_indexed (agg_percpu (shared_step E a j)) all)
      by (intros i Hi; rewrite Hcpu; apply Hidx; exact Hi).
    destruct (IH (shared_step E a j)
                (fun i Hi => Hsub i (or_intror Hi)) Hidx') as (Hfin & Hdr).
    split; [exact Hfin|].
    destruct Hdr as [Hdr|Hdr]; [|right; exact Hdr].
    rewrite Hdr. destruct Hd as [Hd|Hd]; [left; exact Hd|].
    right. rewrite Hd. apply Hsub. left. reflexivity.
Qed.

(** X13.  The decision is attributable to a CPU of the domain.  When the
    slots of the domain's CPUs carry their own CPU numbers, the loop of
    [waltgov_next_freq_shared] over a non-empty domain ends with
    [driving_cpu] naming one of the domain's CPUs, whatever it named
    before, and the slots still carry their numbers. *)
Theorem driving_cpu_in_domain (E : platform) (st : gov_state) :
  let cpus := CpufreqPolicy.cpus (Policy.policy (st_policy st)) in
  let a := shared_loop E st in
  cpus <> [] ->
  slots_indexed (st_percpu st) cpus ->
  In (Policy.driving_cpu (agg_policy a)) cpus /\
  slots_indexed (agg_percpu a) cpus.
Proof.
  intros cpus a Hne Hidx. subst a. unfold shared_loop. fold cpus.
  destruct cpus as [|j rest] eqn:Hcpus; [contradiction|].
  simpl fold_left.
  set (a0 := {| agg_util := 0; agg_max := 1; agg_policy := st_policy st;
                agg_percpu := st_percpu st |}).
  assert (Hj : Cpu.cpu (agg_percpu a0 !!! j) = j)
    by (apply Hidx; left; reflexivity).
  destruct (shared_step_driving E a0 j Hj) as (_ & Hfirst & Hcpu).
  cbv zeta in Hfirst, Hcpu. specialize (Hfirst eq_refl).
  assert (Hidx1 : slots_indexed (agg_percpu (shared_step E a0 j)) (j :: rest))
    by (intros i Hi; rewrite Hcpu; apply Hidx; exact Hi).
  destruct (shared_fold_driving E rest (j :: rest) (shared_step E a0 j)
              (fun i Hi => or_intror Hi) Hidx1) as (Hfin & Hdr).
  split; [|exact Hfin].
  destruct Hdr as [Hdr|Hdr]; [|exact Hdr].
  rewrite Hdr, Hfirst. left. reflexivity.
Qed.

Lemma driving_cpu_in_domain_witness :
  (CpufreqPolicy.cpus (Policy.policy (st_policy example_state)) <> [] /\
   slots_indexed (st_percpu example_state)
     (CpufreqPolicy.cpus (Policy.policy (st_policy example_state)))) /\
  In (Policy.driving_cpu (agg_policy (shared_loop example_platform
                                        example_state)))
    [0%nat; 1%nat; 2%nat; 3%nat].
Proof.
  assert (Hne : CpufreqPolicy.cpus (Policy.policy (st_policy example_state))
                <> []) by discriminate.
  assert (Hidx : slots_indexed (st_percpu example_state)
                   (CpufreqPolicy.cpus
                      (Policy.policy (st_policy example_state)))).
  { intros j Hj. simpl in Hj.
    destruct Hj as [<-|[<-|[<-|[<-|[]]]]]; reflexivity. }
  split; [split; [exact Hne|exact Hidx]|].
  exact (proj1 (driving_cpu_in_domain example_platform example_state Hne
                  Hidx)).
Defined.

(** ** Start of the governor *)

Lemma fold_insert_slots {A : Type} `{Inhabited A} (f : nat -> A)
    (cpus : list nat) (l : list A) (j : nat) :
  let l' := fold_left (fun l cpu => <[cpu := f cpu]> l) cpus l in
  length l' = length l /\
  (~ In j cpus -> l' !!! j = l !!! j) /\
  (In j cpus -> (j < length l)%nat -> l' !!! j = f j).
Proof.
  revert l. induction cpus as [|c rest IH]; intros l; simpl.
  - split; [reflexivity|]. split; [reflexivity|contradiction].
  - destruct (IH (<[c := f c]> l)) as (Hlen & Hout & Hin).
    rewrite length_insert in Hlen, Hin.
    split; [exact Hlen|]. split.
    + intros Hnot. rewrite Hout by tauto.
      apply list_lookup_total_insert_ne. intros ->. tauto.
    + intros Hj Hlt.
      destruct (in_dec Nat.eq_dec j rest) as [Hr|Hnr].
      * apply Hin; assumption.
      * destruct Hj as [->|Hr]; [|contradiction].
        rewrite Hout by exact Hnr.
        apply list_lookup_total_insert_eq. exact Hlt.
Qed.

(** X14.  [waltgov_start] leaves a clean slate.  The decision state is
    empty ([next_freq], cache and time of the last commit zero, no update
    pending), the two delays are the tunables in nanoseconds and
    [min_rate_limit_ns] is the smaller of them.  Every CPU of the domain
    that has a slot finds it zeroed, with its own number and the domain
    in it; the slots of all other CPUs are untouched. *)
Theorem start_clean_slate (E : platform) (st : gov_state) (domain : nat)
    (j : nat) :
  let p := st_policy st in
  let cpus := CpufreqPolicy.cpus (Policy.policy p) in
  let st' := waltgov_start E st domain in
  let p' := st_policy st' in
  (Policy.next_freq p' = 0 /\ Policy.cached_raw_freq p' = 0 /\
   Policy.last_freq_update_time p' = 0 /\
   Policy.limits_changed p' = false /\
   Policy.need_freq_update p' = false) /\
  (Policy.up_rate_delay_ns p'
   = Tunables.up_rate_limit_us (Policy.tunables p) * 1000 /\
   Policy.down_rate_delay_ns p'
   = Tunables.down_rate_limit_us (Policy.tunables p) * 1000 /\
   Policy.min_rate_limit_ns p'
   = Z.min (Policy.up_rate_delay_ns p') (Policy.down_rate_delay_ns p')) /\
  length (st_percpu st') = length (st_percpu st) /\
  (~ In j cpus -> st_percpu st' !!! j = st_percpu st !!! j) /\
  (In j cpus -> (j < length (st_percpu st))%nat ->
   st_percpu st' !!! j = Cpu.mk (Some domain) j zero_load 0 0 0 0).
Proof.
  intros p cpus st' p'.
  assert (Hpol : Policy.policy p' = Policy.policy p).
  { subst p' st'. unfold waltgov_start. cbv zeta.
    destruct (CONFIG_OPLUS_FEATURE_FRAME_BOOST E); reflexivity. }
  split; [|split].
  - subst p' st'. unfold waltgov_start. cbv zeta.
    destruct (CONFIG_OPLUS_FEATURE_FRAME_BOOST E); repeat split.
  - subst p' st'. unfold waltgov_start. cbv zeta.
    destruct (CONFIG_OPLUS_FEATURE_FRAME_BOOST E); repeat split.
  - assert (Hper : st_percpu st'
                   = fold_left
                       (fun l cpu =>
                          <[cpu := Cpu.mk (Some domain) cpu zero_load
                                     0 0 0 0]> l)
                       cpus (st_percpu st)).
    { subst st' cpus p. unfold waltgov_start. cbv zeta.
      destruct (CONFIG_OPLUS_FEATURE_FRAME_BOOST E); reflexivity. }
    rewrite Hper.
    exact (fold_insert_slots
             (fun cpu => Cpu.mk (Some domain) cpu zero_load 0 0 0 0)
             cpus (st_percpu st) j).
Qed.

Lemma start_clean_slate_witness :
  (In 2%nat (CpufreqPolicy.cpus (Policy.policy (st_policy committed_state)))
   /\ (2 < length (st_percpu committed_state))%nat) /\
  st_percpu (waltgov_start example_platform committed_state 0) !!! 2%nat
  = Cpu.mk (Some 0%nat) 2 zero_load 0 0 0 0 /\
  Policy.next_freq
    (st_policy (waltgov_start example_platform committed_state 0)) = 0.
Proof.
  assert (Hin : In 2%nat (CpufreqPolicy.cpus
                            (Policy.policy (st_policy committed_state))))
    by (simpl; tauto).
  assert (Hlt : (2 < length (st_percpu committed_state))%nat)
    by (vm_compute; lia).
  destruct (start_clean_slate example_platform committed_state 0 2)
    as ((Hnf & _) & _ & _ & _ & Hslot).
  split; [split; assumption|].
  split; [exact (Hslot Hin Hlt)|exact Hnf].
Defined.

(** ** Threshold utilizations *)

Lemma target_util_cases (E : platform) (p : waltgov_policy) (freq : Z) :
  target_util E p freq = mult_frac (freq_to_util p freq) 94 100 \/
  target_util E p freq = mult_frac (freq_to_util p freq) TARGET_LOAD 100.
Proof.
  unfold target_util. destruct (_ && _); [left|right]; reflexivity.
Qed.

(** X15.  A threshold is a share of the capacity.  For a frequency within
    the range of the domain, [target_util] is 94 or 80 percent, rounded
    down, of the capacity that frequency stands for, so [hispeed_util]
    and [rtg_boost_util] computed by it never exceed 94 percent of the
    domain's capacity. *)
Theorem target_util_share (E : platform) (p : waltgov_policy) (freq : Z) :
  let fmax := CpufreqPolicy.cpuinfo_max_freq (Policy.policy p) in
  0 <= Policy.max p -> 0 < fmax < 2 ^ 64 ->
  Policy.max p * fmax < 2 ^ 64 -> Policy.max p * 94 < 2 ^ 64 ->
  0 <= freq <= fmax ->
  (target_util E p freq = freq_to_util p freq * 94 / 100 \/
   target_util E p freq = freq_to_util p freq * 80 / 100) /\
  0 <= target_util E p freq /\
  target_util E p freq * 100 <= Policy.max p * 94.
Proof.
  intros fmax Hcap Hfmax Hfit H94 Hfreq.
  destruct (freq_to_util_floor p freq Hcap Hfmax Hfit Hfreq)
    as (_ & H0 & Hle).
  set (u := freq_to_util p freq) in *.
  assert (Hf94 : mult_frac u 94 100 = u * 94 / 100)
    by (apply mult_frac_floor; lia).
  assert (Hf80 : mult_frac u TARGET_LOAD 100 = u * 80 / 100)
    by (apply mult_frac_floor; unfold TARGET_LOAD; lia).
  assert (Hb94 : 0 <= u * 94 / 100 /\ u * 94 / 100 * 100 <= u * 94).
  { split; [apply Z.div_pos; lia|].
    pose proof (Z.div_mod (u * 94) 100 ltac:(lia)).
    pose proof (Z.mod_pos_bound (u * 94) 100 ltac:(lia)). lia. }
  assert (Hb80 : 0 <= u * 80 / 100 /\ u * 80 / 100 * 100 <= u * 80).
  { split; [apply Z.div_pos; lia|].
    pose proof (Z.div_mod (u * 80) 100 ltac:(lia)).
    pose proof (Z.mod_pos_bound (u * 80) 100 ltac:(lia)). lia. }
  destruct (target_util_cases E p freq) as [Ht | Ht];
    rewrite Ht; fold u.
  - rewrite Hf94. split; [left; reflexivity|]. lia.
  - rewrite Hf80. split; [right; reflexivity|]. lia.
Qed.

Lemma target_util_share_witness :
  (0 <= Policy.max example_policy /\
   0 < CpufreqPolicy.cpuinfo_max_freq (Policy.policy example_policy)
   < 2 ^ 64 /\
   Policy.max example_policy
   * CpufreqPolicy.cpuinfo_max_freq (Policy.policy example_policy) < 2 ^ 64 /\
   Policy.max example_policy * 94 < 2 ^ 64 /\
   0 <= 1200000
   <= CpufreqPolicy.cpuinfo_max_freq (Policy.policy example_policy)) /\
  0 <= target_util example_platform example_policy 1200000 /\
  target_util example_platform example_policy 1200000 * 100
  <= Policy.max example_policy * 94.
Proof.
  destruct (target_util_share example_platform example_policy 1200000
              ltac:(by_eval) ltac:(by_eval) ltac:(by_eval) ltac:(by_eval)
              ltac:(by_eval)) as (_ & Hle).
  split; [repeat split; by_eval|exact Hle].
Defined.

Lemma thresholds_fresh_view (E : platform) (p q : waltgov_policy) :
  settings_view q = settings_view p ->
  thresholds_fresh E p -> thresholds_fresh E q.
Proof.
  unfold settings_view, thresholds_fresh, target_util, freq_to_util.
  intros H. injection H as Hpol Htun Hmax Hhs Hrtg _ _ _.
  rewrite Hpol, Htun, Hmax, Hhs, Hrtg. tauto.
Qed.

Lemma refresh_max_fresh (E : platform) (p : waltgov_policy)
    (wg_cpu : waltgov_cpu) :
  let q := refresh_max E p wg_cpu in
  Policy.max q = Cpu.max wg_cpu /\
  Policy.policy q = Policy.policy p /\
  Policy.tunables q = Policy.tunables p /\
  (Policy.max p <> Cpu.max wg_cpu \/ thresholds_fresh E p ->
   thresholds_fresh E q).
Proof.
  unfold refresh_max.
  destruct (Z.eqb_spec (Policy.max p) (Cpu.max wg_cpu)) as [Heq|Hne];
    simpl.
  - split; [exact Heq|]. split; [reflexivity|]. split; [reflexivity|].
    intros [Hne|Hf]; [contradiction|exact Hf].
  - split; [reflexivity|]. split; [reflexivity|]. split; [reflexivity|].
    intros _. split; reflexivity.
Qed.

Lemma calc_avg_cap_settings_view (E : platform) (p q : waltgov_policy)
    (curr_ws prev_freq : Z) :
  waltgov_calc_avg_cap E p curr_ws prev_freq = Done q ->
  settings_view q = settings_view p.
Proof.
  unfold waltgov_calc_avg_cap, window_avg_freq.
  destruct (curr_ws <? _); [discriminate|].
  destruct (curr_ws <=? _); [|destruct (curr_ws >? _)];
    intros H; injection H as <-; reflexivity.
Qed.

Lemma commit_settings_view (E : platform) (st : gov_state) (time : Z) :
  settings_view (st_policy (waltgov_commit E st time))
  = settings_view (st_policy st).
Proof.
  unfold waltgov_commit. rewrite next_freq_shared_aggregated.
  assert (Hagg : settings_view (st_policy (aggregated E st))
                 = settings_view (st_policy st)).
  { unfold aggregated. simpl. rewrite (shared_loop_frame E st).
    reflexivity. }
  set (sa := aggregated E st) in *. clearbody sa.
  set (u := aggregated_util E st). clearbody u.
  set (m := agg_max (shared_loop E st)). clearbody m.
  assert (H : settings_view (st_policy (snd (get_next_freq E sa u m time)))
              = settings_view (st_policy sa)).
  { destruct (get_next_freq_cases E sa u m time)
      as [[_ ->]|[(_ & _ & ->)|[(_ & _ & _ & ->)|(_ & _ & _ & ->)]]];
      reflexivity. }
  destruct (get_next_freq E sa u m time) as [nf s2]. simpl in H.
  rewrite <- Hagg, <- H. unfold waltgov_apply.
  destruct (nf =? 0); [reflexivity|].
  destruct (CpufreqPolicy.fast_switch_enabled (Policy.policy (st_policy s2)));
    reflexivity.
Qed.

(** X16.  A callback keeps the thresholds in step with the capacity.
    After every callback that is not dropped the domain's capacity is the
    one the reporting CPU has just read, and the tunables and the cpufreq
    policy are as before.  If the capacity changed, [hispeed_util] and
    [rtg_boost_util] are computed again from the tunables; if it did not
    and they were up to date, they still are. *)
Theorem callback_refreshes_thresholds (E : platform) (st st' : gov_state)
    (cpu : nat) (sig : sched_sample) (time flags : Z) :
  waltgov_update_freq E st cpu sig time flags = Done st' ->
  dropped_event E (st_policy st) flags = false ->
  Policy.max (st_policy st') = arch_scale_cpu_capacity sig /\
  Policy.tunables (st_policy st') = Policy.tunables (st_policy st) /\
  Policy.policy (st_policy st') = Policy.policy (st_policy st) /\
  (Policy.max (st_policy st) <> arch_scale_cpu_capacity sig \/
   thresholds_fresh E (st_policy st) ->
   thresholds_fresh E (st_policy st')).
Proof.
  unfold waltgov_update_freq. fold (dropped_event E (st_policy st) flags).
  intros Hrun Hdrop. rewrite Hdrop in Hrun. cbv zeta in Hrun.
  set (wg_cpu := sampled_cpu E (st_percpu st !!! cpu) sig flags) in *.
  assert (Hmax : Cpu.max wg_cpu = arch_scale_cpu_capacity sig)
    by reflexivity.
  clearbody wg_cpu.
  set (p0 := record_flags E (st_policy st) flags) in *.
  assert (Hp0 : settings_view p0 = settings_view (st_policy st)).
  { subst p0. unfold record_flags.
    destruct (CONFIG_OPLUS_FEATURE_FRAME_BOOST E); reflexivity. }
  clearbody p0.
  destruct (refresh_max_fresh E p0 wg_cpu) as (Hm & Hpol & Htun & Hfresh).
  set (p1 := refresh_max E p0 wg_cpu) in *. clearbody p1.
  destruct (waltgov_calc_avg_cap E p1 _ _) as [q|] eqn:Hcalc;
    [|discriminate].
  apply calc_avg_cap_settings_view in Hcalc.
  assert (Hgate : settings_view (snd (waltgov_should_update_freq E q time))
                  = settings_view q).
  { rewrite should_update_freq_result.
    destruct (Policy.limits_changed q); reflexivity. }
  destruct (waltgov_should_update_freq E q time) as [due q2].
  simpl in Hgate.
  assert (Hview : settings_view (st_policy st') = settings_view p1).
  { rewrite <- Hcalc, <- Hgate.
    destruct (due && _); injection Hrun as <-;
      [apply commit_settings_view|reflexivity]. }
  assert (Hv0 := Hp0). unfold settings_view in Hv0.
  injection Hv0 as Hpol0 Htun0 Hmax0 _ _ _ _ _.
  assert (Hv1 := Hview). unfold settings_view in Hv1.
  injection Hv1 as Hpol1 Htun1 Hmax1 _ _ _ _ _.
  split; [congruence|]. split; [congruence|]. split; [congruence|].
  intros Hpre. apply (thresholds_fresh_view E p1); [exact Hview|].
  apply Hfresh. destruct Hpre as [Hne|Hf].
  - left. congruence.
  - right. apply (thresholds_fresh_view E (st_policy st)); assumption.
Qed.

Lemma callback_refreshes_thresholds_witness :
  (waltgov_update_freq example_platform example_state 1 throttled_sample
     50000000 0
   = Done (outcome_or example_state
             (waltgov_update_freq example_platform example_state 1
                throttled_sample 50000000 0)) /\
   dropped_event example_platform (st_policy example_state) 0 = false) /\
  Policy.max
    (st_policy
       (outcome_or example_state
          (waltgov_update_freq example_platform example_state 1
             throttled_sample 50000000 0))) = 768 /\
  thresholds_fresh example_platform
    (st_policy
       (outcome_or example_state
          (waltgov_update_freq example_platform example_state 1
             throttled_sample 50000000 0))).
Proof.
  assert (Hrun : waltgov_update_freq example_platform example_state 1
                   throttled_sample 50000000 0
                 = Done (outcome_or example_state
                           (waltgov_update_freq example_platform
                              example_state 1 throttled_sample 50000000 0)))
    by by_eval.
  assert (Hdrop : dropped_event example_platform (st_policy example_state) 0
                  = false) by by_eval.
  destruct (callback_refreshes_thresholds example_platform example_state _
              1%nat throttled_sample 50000000 0 Hrun Hdrop)
    as (Hmax & _ & _ & Hfresh).
  split; [split; [exact Hrun|exact Hdrop]|].
  split; [exact Hmax|]. apply Hfresh. left. by_eval.
Defined.

(** ** The rate limits and their delays *)

Lemma delays_consistent_view (p q : waltgov_policy) :
  settings_view q = settings_view p ->
  delays_consistent p -> delays_consistent q.
Proof.
  unfold settings_view, delays_consistent.
  intros H. injection H as _ Htun _ _ _ Hup Hdown Hmin.
  rewrite Htun, Hup, Hdown, Hmin. tauto.
Qed.

Lemma callback_settings_view (E : platform) (st st' : gov_state)
    (cpu : nat) (sig : sched_sample) (time flags : Z) :
  waltgov_update_freq E st cpu sig time flags = Done st' ->
  delays_consistent (st_policy st) -> delays_consistent (st_policy st').
Proof.
  unfold waltgov_update_freq.
  destruct (negb _ && negb _); [intros H; injection H as <-; tauto|].
  cbv zeta.
  set (wg_cpu := sampled_cpu E (st_percpu st !!! cpu) sig flags).
  clearbody wg_cpu.
  intros Hrun Hcons.
  assert (Hp1 : delays_consistent
                  (refresh_max E (record_flags E (st_policy st) flags)
                     wg_cpu)).
  { unfold refresh_max, record_flags.
    destruct (CONFIG_OPLUS_FEATURE_FRAME_BOOST E);
      destruct (negb (_ =? _)); exact Hcons. }
  set (p1 := refresh_max E (record_flags E (st_policy st) flags) wg_cpu)
    in *.
  clearbody p1.
  destruct (waltgov_calc_avg_cap E p1 _ _) as [q|] eqn:Hcalc;
    [|discriminate].
  apply calc_avg_cap_settings_view in Hcalc.
  assert (Hgate : settings_view (snd (waltgov_should_update_freq E q time))
                  = settings_view q).
  { rewrite should_update_freq_result.
    destruct (Policy.limits_changed q); reflexivity. }
  destruct (waltgov_should_update_freq E q time) as [due q2].
  simpl in Hgate.
  apply (delays_consistent_view p1); [|exact Hp1].
  rewrite <- Hcalc, <- Hgate.
  destruct (due && _); injection Hrun as <-;
    [apply commit_settings_view|reflexivity].
Qed.

Lemma limits_settings_view (E : platform) (st : gov_state) (now : Z) :
  settings_view (st_policy (waltgov_limits E st now))
  = settings_view (st_policy st).
Proof.
  unfold waltgov_limits.
  destruct (negb (CpufreqPolicy.fast_switch_enabled _)); [reflexivity|].
  unfold waltgov_update_next_freq.
  destruct (_ =? _); [reflexivity|].
  destruct (waltgov_up_down_rate_limit _ _ _ _); reflexivity.
Qed.

(** X17.  Between start and stop the gate runs on the tunables.
    [waltgov_start] leaves the two delays at the rate limits of the
    tunables in nanoseconds and [min_rate_limit_ns] at the smaller of
    them; a callback and a limits notification keep that, whatever else
    they change. *)
Theorem delays_follow_tunables (E : platform) (st st' : gov_state)
    (domain : nat) (cpu : nat) (sig : sched_sample) (time flags now : Z) :
  delays_consistent (st_policy (waltgov_start E st domain)) /\
  (delays_consistent (st_policy st) ->
   delays_consistent (st_policy (waltgov_limits E st now))) /\
  (delays_consistent (st_policy st) ->
   waltgov_update_freq E st cpu sig time flags = Done st' ->
   delays_consistent (st_policy st')).
Proof.
  split; [|split].
  - unfold waltgov_start. cbv zeta.
    destruct (CONFIG_OPLUS_FEATURE_FRAME_BOOST E); repeat split.
  - apply delays_consistent_view. apply limits_settings_view.
  - intros Hcons Hrun.
    exact (callback_settings_view E st st' cpu sig time flags Hrun Hcons).
Qed.

Lemma delays_follow_tunables_witness :
  (delays_consistent (st_policy example_state) /\
   waltgov_update_freq example_platform example_state 0 busy_sample
     50000000 0
   = Done (outcome_or example_state
             (waltgov_update_freq example_platform example_state 0
                busy_sample 50000000 0))) /\
  delays_consistent
    (st_policy
       (outcome_or example_state
          (waltgov_update_freq example_platform example_state 0 busy_sample
             50000000 0))).
Proof.
  assert (Hcons : delays_consistent (st_policy example_state))
    by (repeat split).
  assert (Hrun : waltgov_update_freq example_platform example_state 0
                   busy_sample 50000000 0
                 = Done (outcome_or example_state
                           (waltgov_update_freq example_platform
                              example_state 0 busy_sample 50000000 0)))
    by by_eval.
  destruct (delays_follow_tunables example_platform example_state
              (outcome_or example_state
                 (waltgov_update_freq example_platform example_state 0
                    busy_sample 50000000 0))
              0%nat 0%nat busy_sample 50000000 0 0) as (_ & _ & Hcb).
  split; [split; [exact Hcons|exact Hrun]|].
  exact (Hcb Hcons Hrun).
Defined.

(** X18.  The two rate-limit files keep the delays in step.  A number
    written to [up_rate_limit_us] or [down_rate_limit_us] reaches the
    tunables and every domain that uses them: the delay of that direction
    is the number in nanoseconds, [min_rate_limit_ns] is again the smaller
    of the two delays, and the call returns [count].  A string that is not
    a number changes nothing and gives [-EINVAL]. *)
Theorem rate_limit_stores_consistent (v count : Z)
    (policy_list : list waltgov_policy) :
  Forall delays_consistent policy_list ->
  (fst (up_rate_limit_us_store (Some v) count policy_list) = count /\
   Forall (fun p =>
             delays_consistent p /\
             Tunables.up_rate_limit_us (Policy.tunables p) = v /\
             Policy.up_rate_delay_ns p = v * 1000)
     (snd (up_rate_limit_us_store (Some v) count policy_list))) /\
  (fst (down_rate_limit_us_store (Some v) count policy_list) = count /\
   Forall (fun p =>
             delays_consistent p /\
             Tunables.down_rate_limit_us (Policy.tunables p) = v /\
             Policy.down_rate_delay_ns p = v * 1000)
     (snd (down_rate_limit_us_store (Some v) count policy_list))) /\
  up_rate_limit_us_store None count policy_list = (- EINVAL, policy_list) /\
  down_rate_limit_us_store None count policy_list = (- EINVAL, policy_list).
Proof.
  intros Hall.
  split; [|split; [|split; reflexivity]].
  - split; [reflexivity|]. simpl. apply Forall_map.
    eapply Forall_impl; [exact Hall|].
    intros p (Hup & Hdown & Hmin). simpl.
    split; [|split; reflexivity].
    unfold delays_consistent. simpl. rewrite Hdown.
    split; [reflexivity|]. split; reflexivity.
  - split; [reflexivity|]. simpl. apply Forall_map.
    eapply Forall_impl; [exact Hall|].
    intros p (Hup & Hdown & Hmin). simpl.
    split; [|split; reflexivity].
    unfold delays_consistent. simpl. rewrite Hup.
    split; [reflexivity|]. split; reflexivity.
Qed.

Lemma rate_limit_stores_consistent_witness :
  Forall delays_consistent [example_policy] /\
  snd (up_rate_limit_us_store (Some 500) 4 [example_policy])
  = [Policy.set_min_rate_limit_ns 500000
       (Policy.set_up_rate_delay_ns 500000
          (on_tunables (tunables_set_up_rate_limit_us 500) example_policy))]
  /\
  Forall (fun p =>
            delays_consistent p /\
            Tunables.up_rate_limit_us (Policy.tunables p) = 500 /\
            Policy.up_rate_delay_ns p = 500 * 1000)
    (snd (up_rate_limit_us_store (Some 500) 4 [example_policy])).
Proof.
  assert (Hall : Forall delays_consistent [example_policy]).
  { constructor; [repeat split|constructor]. }
  destruct (rate_limit_stores_consistent 500 4 [example_policy] Hall)
    as ((_ & Hup) & _).
  split; [exact Hall|]. split; [reflexivity|exact Hup].
Defined.

(** ** The threshold stores *)

(** X20.  Writing a threshold frequency refreshes its threshold.  After a
    number is written to [hispeed_freq], every domain that uses the
    tunables has [hispeed_util] computed from the new frequency and its
    current capacity, and [rtg_boost_util] as before; likewise for
    [rtg_boost_freq].  Thresholds that were up to date stay so. *)
Theorem threshold_stores_refresh (E : platform) (v count : Z)
    (policy_list : list waltgov_policy) :
  Forall (thresholds_fresh E) policy_list ->
  Forall (fun p =>
            thresholds_fresh E p /\
            Tunables.hispeed_freq (Policy.tunables p) = v /\
            Policy.hispeed_util p = target_util E p v)
    (snd (hispeed_freq_store E (Some v) count policy_list)) /\
  Forall (fun p =>
            thresholds_fresh E p /\
            Tunables.rtg_boost_freq (Policy.tunables p) = v /\
            Policy.rtg_boost_util p = target_util E p v)
    (snd (rtg_boost_freq_store E (Some v) count policy_list)).
Proof.
  intros Hall. split; simpl; apply Forall_map;
    (eapply Forall_impl; [exact Hall|]);
    intros p (Hhs & Hrtg); cbv zeta;
    (split; [|split; reflexivity]); split;
    first [reflexivity | exact Hhs | exact Hrtg].
Qed.

Lemma threshold_stores_refresh_witness :
  Forall (thresholds_fresh example_platform)
    [Policy.set_rtg_boost_util 409
       (Policy.set_hispeed_util 491 example_policy)] /\
  Forall (fun p =>
            thresholds_fresh example_platform p /\
            Tunables.hispeed_freq (Policy.tunables p) = 1500000 /\
            Policy.hispeed_util p
            = target_util example_platform p 1500000)
    (snd (hispeed_freq_store example_platform (Some 1500000) 8
            [Policy.set_rtg_boost_util 409
               (Policy.set_hispeed_util 491 example_policy)])).
Proof.
  assert (Hall : Forall (thresholds_fresh example_platform)
                   [Policy.set_rtg_boost_util 409
                      (Policy.set_hispeed_util 491 example_policy)]).
  { constructor; [split; by_eval|constructor]. }
  split; [exact Hall|].
  exact (proj1 (threshold_stores_refresh example_platform 1500000 8 _ Hall)).
Defined.

(** ** The kernel band over its three calls *)

Lemma domain_of_insert_other (s : system) (cpu d d' : nat)
    (wg_policy wg_policy' : waltgov_policy) :
  domain_of s cpu = Some (d', wg_policy) -> d' <> d ->
  domain_of
    {| sys_percpu := sys_percpu s;
       sys_domains := <[d := wg_policy']> (sys_domains s) |} cpu
  = Some (d', wg_policy).
Proof.
  unfold domain_of. simpl.
  destruct (sys_percpu s !! cpu) as [wg_cpu|]; [|discriminate].
  destruct (Cpu.wg_policy wg_cpu) as [d0|]; [|discriminate].
  destruct (sys_domains s !! d0) as [q|] eqn:Hq; [|discriminate].
  intros H Hne. injection H as -> ->.
  rewrite list_lookup_insert_ne by congruence. rewrite Hq. reflexivity.
Qed.

Lemma domain_of_lookup (s : system) (cpu d : nat)
    (wg_policy : waltgov_policy) :
  domain_of s cpu = Some (d, wg_policy) ->
  sys_domains s !! d = Some wg_policy.
Proof.
  unfold domain_of.
  destruct (sys_percpu s !! cpu) as [wg_cpu|]; [|discriminate].
  destruct (Cpu.wg_policy wg_cpu) as [d0|]; [|discriminate].
  destruct (sys_domains s !! d0) as [q|] eqn:Hq; [|discriminate].
  intros H. injection H as -> ->. exact Hq.
Qed.

Lemma domain_of_slot (s : system) (cpu d : nat)
    (wg_policy : waltgov_policy) :
  domain_of s cpu = Some (d, wg_policy) ->
  exists wg_cpu, sys_percpu s !! cpu = Some wg_cpu.
Proof.
  unfold domain_of.
  destruct (sys_percpu s !! cpu) as [wg_cpu|]; [|discriminate].
  intros _. exists wg_cpu. reflexivity.
Qed.

Lemma reset_kernel_band (low high : Z) (p : waltgov_policy) :
  Tunables.adaptive_low_freq_kernel (Policy.tunables p) = 0 ->
  Tunables.adaptive_high_freq_kernel (Policy.tunables p) = 0 ->
  set_kernel_band 0 0 (set_kernel_band low high p) = p.
Proof.
  destruct p as [? ? ? ? ? t ? ? ? ? ? ? ? ? ? ? ? ? ? ?].
  destruct t. unfold set_kernel_band. simpl. intros -> ->. reflexivity.
Qed.

(** X21.  The kernel band is set, read and reset per domain.  After a
    successful [cpufreq_walt_set_adaptive_freq] through one CPU, a read
    through any possible CPU of the same domain gives, for each bound, the
    larger of the user's value and the kernel's; the domains of other
    CPUs are as they were.  After [cpufreq_walt_reset_adaptive_freq]
    through any CPU of the domain the read gives the user's values alone
    (0 for a negative one), and a system whose kernel band was zero
    before the set is exactly as it was. *)
Theorem kernel_band_round_trip (E : platform) (s : system) (cpu cpu2 : nat)
    (low high : Z) (d : nat) (p : waltgov_policy) :
  let user_low := Tunables.adaptive_low_freq (Policy.tunables p) in
  let user_high := Tunables.adaptive_high_freq (Policy.tunables p) in
  domain_of s cpu = Some (d, p) -> domain_of s cpu2 = Some (d, p) ->
  cpu_possible E cpu = true -> cpu_possible E cpu2 = true ->
  CpufreqPolicy.min (Policy.policy p) <= low ->
  high <= CpufreqPolicy.max (Policy.policy p) ->
  exists s1 s2 : system,
    cpufreq_walt_set_adaptive_freq E s cpu low high = Some (0, s1) /\
    cpufreq_walt_get_adaptive_freq E s1 cpu2 true
    = Some (0, Some (Z.max user_low low, Z.max user_high high)) /\
    (forall (cpu3 d3 : nat) (p3 : waltgov_policy),
        domain_of s cpu3 = Some (d3, p3) -> d3 <> d ->
        domain_of s1 cpu3 = Some (d3, p3)) /\
    cpufreq_walt_reset_adaptive_freq E s1 cpu2 = Some (0, s2) /\
    cpufreq_walt_get_adaptive_freq E s2 cpu true
    = Some (0, Some (Z.max user_low 0, Z.max user_high 0)) /\
    (Tunables.adaptive_low_freq_kernel (Policy.tunables p) = 0 ->
     Tunables.adaptive_high_freq_kernel (Policy.tunables p) = 0 ->
     s2 = s).
Proof.
  intros user_low user_high Hdom Hdom2 Hposs Hposs2 Hlow Hhigh.
  set (p1 := set_kernel_band low high p).
  set (s1 := {| sys_percpu := sys_percpu s;
                sys_domains := <[d := p1]> (sys_domains s) |}).
  set (s2 := {| sys_percpu := sys_percpu s1;
                sys_domains :=
                  <[d := set_kernel_band 0 0 p1]> (sys_domains s1) |}).
  assert (Hd1 : domain_of s1 cpu2 = Some (d, p1))
    by exact (domain_of_insert s cpu2 d p p1 Hdom2).
  assert (Hd2 : domain_of s2 cpu = Some (d, set_kernel_band 0 0 p1)).
  { apply (domain_of_insert s1 cpu d p1).
    exact (domain_of_insert s cpu d p p1 Hdom). }
  exists s1, s2.
  split.
  { unfold cpufreq_walt_set_adaptive_freq. rewrite Hdom, Hposs. simpl.
    destruct (Z.leb_spec (CpufreqPolicy.min (Policy.policy p)) low);
      [|lia].
    destruct (Z.geb_spec (CpufreqPolicy.max (Policy.policy p)) high);
      [|lia].
    reflexivity. }
  split.
  { unfold cpufreq_walt_get_adaptive_freq. rewrite Hd1.
    destruct (domain_of_slot s1 cpu2 d p1 Hd1) as [c ->].
    rewrite Hposs2. reflexivity. }
  split.
  { intros cpu3 d3 p3 H3 Hne.
    exact (domain_of_insert_other s cpu3 d d3 p3 p1 H3 Hne). }
  split.
  { unfold cpufreq_walt_reset_adaptive_freq. rewrite Hd1.
    destruct (domain_of_slot s1 cpu2 d p1 Hd1) as [c ->].
    rewrite Hposs2. reflexivity. }
  split.
  { unfold cpufreq_walt_get_adaptive_freq. rewrite Hd2.
    destruct (domain_of_slot s2 cpu d _ Hd2) as [c ->].
    rewrite Hposs. reflexivity. }
  intros Hk1 Hk2. subst s2 s1 p1. simpl.
  rewrite list_insert_insert_eq.
  rewrite (reset_kernel_band low high p Hk1 Hk2).
  rewrite (list_insert_id _ _ _ (domain_of_lookup s cpu d p Hdom)).
  destruct s. reflexivity.
Qed.

Lemma kernel_band_round_trip_witness :
  (domain_of example_system 5 = Some (1%nat, example_policy) /\
   domain_of example_system 7 = Some (1%nat, example_policy) /\
   cpu_possible example_platform 5 = true /\
   cpu_possible example_platform 7 = true /\
   CpufreqPolicy.min (Policy.policy example_policy) <= 500000 /\
   1200000 <= CpufreqPolicy.max (Policy.policy example_policy)) /\
  exists s1 s2 : system,
    cpufreq_walt_set_adaptive_freq example_platform example_system 5
      500000 1200000 = Some (0, s1) /\
    cpufreq_walt_get_adaptive_freq example_platform s1 7 true
    = Some (0, Some (500000, 1200000)) /\
    cpufreq_walt_reset_adaptive_freq example_platform s1 7 = Some (0, s2) /\
    s2 = example_system.
Proof.
  assert (Hlow : CpufreqPolicy.min (Policy.policy example_policy) <= 500000)
    by by_eval.
  assert (Hhigh : 1200000 <= CpufreqPolicy.max (Policy.policy example_policy))
    by by_eval.
  destruct (kernel_band_round_trip example_platform example_system 5 7
              500000 1200000 1 example_policy eq_refl eq_refl eq_refl
              eq_refl Hlow Hhigh)
    as (s1 & s2 & Hset & Hget & _ & Hreset & _ & Hback).
  split; [repeat split; assumption|].
  exists s1, s2. split; [exact Hset|]. split; [exact Hget|].
  split; [exact Hreset|]. apply Hback; reflexivity.
Defined.

(** ** The tunables cache *)

Lemma copy_tunables_id (t : waltgov_tunables) : copy_tunables t = t.
Proof. destruct t. reflexivity. Qed.

(** X22.  The tunables of a domain survive its governor going away.  When
    the last user of the tunables exits and the cache can hold them, an
    init of the same domain gets all thirteen values back, whichever of
    the related CPUs manages the domain by then; the cache entries of CPUs
    outside the domain are untouched.  While other domains still use the
    tunables nothing is saved, and when nothing was cached and the
    allocation fails the cache stays as it was. *)
Theorem tunables_survive_restart (E : platform)
    (is_max_cluster_cpu : nat -> bool) (c : tunables_cache)
    (policy : cpufreq_policy) (related_cpus : list nat)
    (tunables : waltgov_tunables) (wg_policy : waltgov_policy) :
  let cpu := CpufreqPolicy.cpu policy in
  let cpu' := CpufreqPolicy.cpu (Policy.policy wg_policy) in
  let c' := waltgov_exit_tunables c policy related_cpus true 0 tunables in
  In cpu' related_cpus -> (cpu' < length (cached_tunables c))%nat ->
  (forall k : nat,
      cached_tunables c !!! cpu = Some k ->
      (k < length (cached_objects c))%nat /\
      cached_tunables c !!! cpu' = Some k) ->
  Policy.tunables (waltgov_init_tunables E is_max_cluster_cpu c' wg_policy)
  = tunables /\
  (forall j : nat,
      ~ In j related_cpus ->
      cached_tunables c' !!! j = cached_tunables c !!! j) /\
  (forall (alloc_ok : bool) (count : Z),
      count <> 0 ->
      waltgov_exit_tunables c policy related_cpus alloc_ok count tunables
      = c) /\
  (cached_tunables c !!! cpu = None ->
   waltgov_exit_tunables c policy related_cpus false 0 tunables = c).
Proof.
  intros cpu cpu' c' Hin Hlt Hshared.
  assert (Hc' : c' = waltgov_tunables_save c policy related_cpus true
                       tunables) by reflexivity.
  unfold waltgov_tunables_save in Hc'. fold cpu in Hc'.
  split; [|split; [|split]].
  - unfold waltgov_init_tunables, waltgov_tunables_restore. cbv zeta.
    change (CpufreqPolicy.cpu (Policy.policy (Policy.set_tunables _ _)))
      with cpu'.
    destruct (cached_tunables c !!! cpu) as [k|] eqn:Hslot.
    + destruct (Hshared k eq_refl) as [Hk Hslot'].
      rewrite Hc'. simpl. rewrite Hslot'.
      rewrite list_lookup_insert_eq by exact Hk. simpl.
      rewrite copy_tunables_id. apply copy_tunables_id.
    + rewrite Hc'. simpl.
      destruct (fold_insert_slots
                  (fun _ : nat => Some (length (cached_objects c)))
                  related_cpus (cached_tunables c) cpu')
        as (_ & _ & Hset).
      rewrite (Hset Hin Hlt).
      rewrite list_lookup_middle by reflexivity. simpl.
      rewrite copy_tunables_id. apply copy_tunables_id.
  - intros j Hout. rewrite Hc'.
    destruct (cached_tunables c !!! cpu) as [k|]; [reflexivity|]. simpl.
    destruct (fold_insert_slots
                (fun _ : nat => Some (length (cached_objects c)))
                related_cpus (cached_tunables c) j) as (_ & Hkeep & _).
    exact (Hkeep Hout).
  - intros alloc_ok count Hcount. unfold waltgov_exit_tunables.
    destruct (Z.eqb_spec count 0); [contradiction|reflexivity].
  - intros Hnone. unfold waltgov_exit_tunables, waltgov_tunables_save.
    fold cpu. rewrite Hnone. reflexivity.
Qed.

Lemma tunables_survive_restart_witness :
  (In (CpufreqPolicy.cpu (Policy.policy returning_policy))
     [4%nat; 5%nat; 6%nat; 7%nat] /\
   (CpufreqPolicy.cpu (Policy.policy returning_policy)
    < length (cached_tunables empty_cache))%nat /\
   (forall k : nat,
       cached_tunables empty_cache !!! CpufreqPolicy.cpu gold_cpufreq_policy
       = Some k ->
       (k < length (cached_objects empty_cache))%nat /\
       cached_tunables empty_cache
         !!! CpufreqPolicy.cpu (Policy.policy returning_policy) = Some k)) /\
  Policy.tunables
    (waltgov_init_tunables example_platform (fun cpu => (7 <=? cpu)%nat)
       (waltgov_exit_tunables empty_cache gold_cpufreq_policy
          [4%nat; 5%nat; 6%nat; 7%nat] true 0 tuned_tunables)
       returning_policy)
  = tuned_tunables.
Proof.
  assert (Hin : In (CpufreqPolicy.cpu (Policy.policy returning_policy))
                  [4%nat; 5%nat; 6%nat; 7%nat]) by (simpl; tauto).
  assert (Hlt : (CpufreqPolicy.cpu (Policy.policy returning_policy)
                 < length (cached_tunables empty_cache))%nat)
    by (vm_compute; lia).
  assert (Hshared : forall k : nat,
             cached_tunables empty_cache
               !!! CpufreqPolicy.cpu gold_cpufreq_policy = Some k ->
             (k < length (cached_objects empty_cache))%nat /\
             cached_tunables empty_cache
               !!! CpufreqPolicy.cpu (Policy.policy returning_policy)
             = Some k)
    by (intros k Hk; vm_compute in Hk; discriminate).
  split; [split; [exact Hin|split; [exact Hlt|exact Hshared]]|].
  exact (proj1 (tunables_survive_restart example_platform
                  (fun cpu => (7 <=? cpu)%nat) empty_cache
                  gold_cpufreq_policy [4%nat; 5%nat; 6%nat; 7%nat]
                  tuned_tunables returning_policy Hin Hlt Hshared)).
Defined.

(** ** The target-load table *)

Lemma targetload_from_cons2 (load next_freq : Z) (rest : list Z)
    (freq : Z) :
  freq_to_targetload_from (load :: next_freq :: rest) freq
  = if freq >=? next_freq then freq_to_targetload_from rest freq
    else Some load.
Proof. reflexivity. Qed.

Lemma targetload_odd (n : nat) :
  forall (tl : list Z) (freq : Z),
    (length tl <= n)%nat -> Nat.odd (length tl) = true ->
    exists load, freq_to_targetload_from tl freq = Some load /\ In load tl.
Proof.
  induction n as [|n IH]; intros tl freq Hlen Hodd.
  - destruct tl; [discriminate|simpl in Hlen; lia].
  - destruct tl as [|load [|f rest]]; [discriminate| |].
    + exists load. split; [reflexivity|left; reflexivity].
    + rewrite targetload_from_cons2.
      destruct (freq >=? f).
      * destruct (IH rest freq) as (l & Hl & Hinl).
        { simpl in Hlen. lia. }
        { simpl in Hodd. exact Hodd. }
        exists l. split; [exact Hl|right; right; exact Hinl].
      * exists load. split; [reflexivity|left; reflexivity].
Qed.

Lemma targetload_even (n : nat) :
  forall (tl : list Z) (freq : Z),
    (length tl <= n)%nat -> Nat.even (length tl) = true ->
    (forall f, In f tl -> f <= freq) ->
    freq_to_targetload_from tl freq = None.
Proof.
  induction n as [|n IH]; intros tl freq Hlen Heven Hall.
  - destruct tl; [reflexivity|simpl in Hlen; lia].
  - destruct tl as [|load [|f rest]]; [reflexivity|discriminate|].
    rewrite targetload_from_cons2.
    destruct (Z.geb_spec freq f) as [_|Hlt].
    + apply IH.
      * simpl in Hlen. lia.
      * simpl in Heven. exact Heven.
      * intros g Hg. apply Hall. right. right. exact Hg.
    + specialize (Hall f (or_intror (or_introl eq_refl))). lia.
Qed.

Lemma list_upper_bound (tl : list Z) :
  exists freq, forall f, In f tl -> f <= freq.
Proof.
  induction tl as [|a tl [m Hm]].
  - exists 0. intros f [].
  - exists (Z.max a m). intros f [<-|Hf]; [lia|].
    specialize (Hm f Hf). lia.
Qed.

(** X23.  [freq_to_targetload] stays inside the table exactly for tables
    with an odd number of entries.  For such a table every frequency gets
    one of the table's entries; for a table with an even number of
    entries, the empty one included, some frequency makes the loop run
    off the end and the result is read past the table. *)
Theorem targetload_lookup_in_bounds (target_loads : list Z) :
  (Nat.odd (length target_loads) = true <->
   forall freq, freq_to_targetload target_loads freq <> None) /\
  (Nat.odd (length target_loads) = true ->
   forall freq, exists load,
     freq_to_targetload target_loads freq = Some load /\
     In load target_loads).
Proof.
  assert (Hodd : Nat.odd (length target_loads) = true ->
                 forall freq, exists load,
                   freq_to_targetload target_loads freq = Some load /\
                   In load target_loads).
  { intros H freq.
    exact (targetload_odd (length target_loads) target_loads freq
             (Nat.le_refl _) H). }
  split; [|exact Hodd]. split.
  - intros H freq. destruct (Hodd H freq) as (load & -> & _). discriminate.
  - intros Hall.
    destruct (Nat.odd (length target_loads)) eqn:Hpar; [reflexivity|].
    exfalso. destruct (list_upper_bound target_loads) as [freq Hfreq].
    apply (Hall freq). unfold freq_to_targetload.
    apply (targetload_even (length target_loads)); [lia| |exact Hfreq].
    rewrite <- Nat.negb_odd, Hpar. reflexivity.
Qed.

Lemma targetload_lookup_in_bounds_witness :
  Nat.odd (length [80; 1000000; 90; 1800000; 95]) = true /\
  (exists load,
      freq_to_targetload [80; 1000000; 90; 1800000; 95] 1200000 = Some load
      /\ In load [80; 1000000; 90; 1800000; 95]) /\
  freq_to_targetload [80; 1000000; 90; 1800000] 1800000 = None.
Proof.
  split; [reflexivity|].
  split; [|reflexivity].
  exact (proj2 (targetload_lookup_in_bounds [80; 1000000; 90; 1800000; 95])
           eq_refl 1200000).
Defined.

Lemma filter_above (freq f : Z) (entries : list (Z * Z)) :
  freq < f -> ascending (f :: map fst entries) ->
  List.filter (fun e => freq >=? fst e) entries = [].
Proof.
  revert f. induction entries as [|[g load] rest IH]; intros f Hlt Hasc;
    [reflexivity|].
  simpl in Hasc. destruct Hasc as [Hfg Hrest]. simpl.
  destruct (Z.geb_spec freq g) as [Hge|_]; [lia|].
  apply (IH g); [lia|exact Hrest].
Qed.

Lemma ascending_tail (f : Z) (freqs : list Z) :
  ascending (f :: freqs) -> ascending freqs.
Proof. destruct freqs; simpl; tauto. Qed.

Lemma last_cons_default (a d : Z) (l : list Z) :
  List.last (a :: l) d = List.last l a.
Proof.
  revert a d. induction l as [|b l IH]; intros a d; [reflexivity|].
  change (List.last (a :: b :: l) d) with (List.last (b :: l) d).
  rewrite (IH b d). symmetry. apply (IH b a).
Qed.

(** X24.  On a table whose frequencies ascend, [freq_to_targetload]
    gives the load in force: the load of the last entry whose frequency
    is at most the one asked for, and the first load below the first
    frequency. *)
Theorem targetload_is_load_in_force (first : Z) (entries : list (Z * Z))
    (freq : Z) :
  ascending (map fst entries) ->
  freq_to_targetload (table_of first entries) freq
  = Some (load_in_force first entries freq).
Proof.
  unfold freq_to_targetload, load_in_force.
  revert first. induction entries as [|[f load] rest IH]; intros first Hasc;
    [reflexivity|].
  change (table_of first ((f, load) :: rest))
    with (first :: f :: table_of load rest).
  rewrite targetload_from_cons2.
  change (List.filter (fun e => freq >=? fst e) ((f, load) :: rest))
    with (if freq >=? f
          then (f, load) :: List.filter (fun e => freq >=? fst e) rest
          else List.filter (fun e => freq >=? fst e) rest).
  destruct (Z.geb_spec freq f) as [Hge|Hlt].
  - rewrite (IH load (ascending_tail f _ Hasc)).
    change (map snd ((f, load) :: ?l)) with (load :: map snd l).
    rewrite last_cons_default. reflexivity.
  - rewrite (filter_above freq f rest Hlt Hasc). reflexivity.
Qed.

Lemma targetload_is_load_in_force_witness :
  ascending (map fst [(1000000, 90); (1800000, 95)]) /\
  freq_to_targetload (table_of 80 [(1000000, 90); (1800000, 95)]) 1200000
  = Some (load_in_force 80 [(1000000, 90); (1800000, 95)] 1200000) /\
  load_in_force 80 [(1000000, 90); (1800000, 95)] 1200000 = 90.
Proof.
  assert (Hasc : ascending (map fst [(1000000, 90); (1800000, 95)]))
    by (simpl; lia).
  split; [exact Hasc|]. split; [|reflexivity].
  exact (targetload_is_load_in_force 80 [(1000000, 90); (1800000, 95)]
           1200000 Hasc).
Defined.
